(** * devops-framework-v2: detection, configuration resolution and pipeline

    A shallow embedding of the decision logic of
    [scripts/framework_detector.py], [scripts/config_merger.py] and
    [scripts/smart_orchestrator.py], with the properties their specification
    states about them.

    Python values are an inductive type [value]; a [dict] is an association
    list in insertion order (a Python dict never holds a key twice, which the
    predicate [unique_keys] states where a theorem needs it).  Code that can
    raise runs in the [result] monad; the orchestrator, which calls the stage
    collaborators and reads the clock, runs in a state monad over the record
    of what it has invoked. *)

From Stdlib Require Import ZArith List String Ascii Bool Lia Floats Uint63.
Import ListNotations.

Set Warnings "-register-all,-inexact-float".

Local Open Scope string_scope.
Local Open Scope list_scope.

(* ================================================================= *)
(** ** Python values, exceptions and the dynamic operations used *)

Module Py.

Inductive value : Type :=
| VNone
| VBool (b : bool)
| VInt (n : Z)
| VFloat (f : float)
| VStr (s : string)
| VList (l : list value)
| VDict (d : list (string * value)).

Definition dict := list (string * value).

Inductive exn_class : Type :=
| AttributeError | TypeError | KeyError | NameError | ValueError | OSError
| Exception_.

(** An exception is its class and the text [str(e)] gives. *)
Record exn : Type := mk_exn { exn_kind : exn_class; exn_msg : string }.

Inductive result (A : Type) : Type :=
| Ok (a : A)
| Raise (e : exn).
Arguments Ok {A} a.
Arguments Raise {A} e.

Definition bind {A B} (m : result A) (f : A -> result B) : result B :=
  match m with
  | Ok a => f a
  | Raise e => Raise e
  end.

(** *** Dictionaries: insertion-ordered association lists *)

Section Assoc.
Context {A : Type}.

Fixpoint lookup (k : string) (d : list (string * A)) : option A :=
  match d with
  | [] => None
  | (k', v) :: rest => if String.eqb k k' then Some v else lookup k rest
  end.

(** [d[k] = v]: an existing key keeps its place, a new one goes last. *)
Fixpoint set (k : string) (v : A) (d : list (string * A)) : list (string * A) :=
  match d with
  | [] => [(k, v)]
  | (k', v') :: rest =>
      if String.eqb k k' then (k, v) :: rest else (k', v') :: set k v rest
  end.

Definition mem (k : string) (d : list (string * A)) : bool :=
  match lookup k d with Some _ => true | None => false end.

Definition keys (d : list (string * A)) : list string := map fst d.

Definition unique_keys (d : list (string * A)) : Prop := NoDup (keys d).
End Assoc.

(** [d.get(k, default)] on a value known to be a dict. *)
Definition get_d (d : dict) (k : string) (default : value) : value :=
  match lookup k d with Some v => v | None => default end.

(** Reading a nested key path, [d[k1][k2]...], where every step but the
    last must be a dict. *)
Fixpoint lookup_path (p : list string) (d : dict) : option value :=
  match p with
  | [] => None
  | [k] => lookup k d
  | k :: rest =>
      match lookup k d with
      | Some (VDict sub) => lookup_path rest sub
      | _ => None
      end
  end.

Definition is_dict (v : value) : bool :=
  match v with VDict _ => true | _ => false end.

(** The dict reached by following [path] through nested dicts. *)
Fixpoint descend (path : list string) (d : dict) : option dict :=
  match path with
  | [] => Some d
  | k :: rest =>
      match lookup k d with
      | Some (VDict sub) => descend rest sub
      | _ => None
      end
  end.

(** No dict holds a key twice, at any depth reached through dict values. *)
Fixpoint unique_deep (v : value) : Prop :=
  match v with
  | VDict d =>
      unique_keys d /\
      (fix all (items : list (string * value)) : Prop :=
         match items with
         | [] => True
         | (_, x) :: rest => unique_deep x /\ all rest
         end) d
  | _ => True
  end.

(** *** Strings *)

Definition lower_ascii (c : ascii) : ascii :=
  let n := nat_of_ascii c in
  if andb (Nat.leb 65 n) (Nat.leb n 90) then ascii_of_nat (n + 32) else c.

(** [s.lower()], on the ASCII letters. *)
Fixpoint lower (s : string) : string :=
  match s with
  | EmptyString => EmptyString
  | String c rest => String (lower_ascii c) (lower rest)
  end.

(** [s.replace(old, new)] for a one-character [old]. *)
Fixpoint replace (old : ascii) (new : string) (s : string) : string :=
  match s with
  | EmptyString => EmptyString
  | String c rest =>
      if Ascii.eqb c old then new ++ replace old new rest
      else String c (replace old new rest)
  end.

(** [sub in s] on two strings. *)
Fixpoint is_substring (sub s : string) : bool :=
  orb (String.prefix sub s)
      (match s with
       | EmptyString => false
       | String _ rest => is_substring sub rest
       end).

(** *** Dynamic operations *)

Definition type_name (v : value) : string :=
  match v with
  | VNone => "NoneType"
  | VBool _ => "bool"
  | VInt _ => "int"
  | VFloat _ => "float"
  | VStr _ => "str"
  | VList _ => "list"
  | VDict _ => "dict"
  end.

Definition truthy (v : value) : bool :=
  match v with
  | VNone => false
  | VBool b => b
  | VInt n => negb (Z.eqb n 0)
  | VFloat f => negb (PrimFloat.eqb f 0%float)
  | VStr s => negb (String.eqb s "")
  | VList l => match l with [] => false | _ => true end
  | VDict d => match d with [] => false | _ => true end
  end.

Definition attribute_error {A} (v : value) (attr : string) : result A :=
  Raise (mk_exn AttributeError
           ("'" ++ type_name v ++ "' object has no attribute '" ++ attr ++ "'")).

Definition type_error {A} (msg : string) : result A :=
  Raise (mk_exn TypeError msg).

Definition key_error {A} (k : string) : result A :=
  Raise (mk_exn KeyError ("'" ++ k ++ "'")).

Definition name_error {A} (n : string) : result A :=
  Raise (mk_exn NameError ("name '" ++ n ++ "' is not defined")).

Definition exception {A} (msg : string) : result A :=
  Raise (mk_exn Exception_ msg).

Definition is_str (s : string) (v : value) : bool :=
  match v with VStr s' => String.eqb s' s | _ => false end.

(** [k in v] for a string [k]. *)
Definition py_in (k : string) (v : value) : result bool :=
  match v with
  | VDict d => Ok (mem k d)
  | VList l => Ok (existsb (is_str k) l)
  | VStr s => Ok (is_substring k s)
  | _ => type_error ("argument of type '" ++ type_name v ++ "' is not iterable")
  end.

(** [v[k]] for a string [k]. *)
Definition py_getitem (v : value) (k : string) : result value :=
  match v with
  | VDict d => match lookup k d with Some x => Ok x | None => key_error k end
  | VList _ => type_error "list indices must be integers or slices, not str"
  | VStr _ => type_error "string indices must be integers, not 'str'"
  | _ => type_error ("'" ++ type_name v ++ "' object is not subscriptable")
  end.

(** [v.get(k, default)]. *)
Definition py_get (v : value) (k : string) (default : value) : result value :=
  match v with
  | VDict d => Ok (get_d d k default)
  | _ => attribute_error v "get"
  end.

(** [v[k] = x]; the result is the mutated object. *)
Definition py_setitem (v : value) (k : string) (x : value) : result value :=
  match v with
  | VDict d => Ok (VDict (set k x d))
  | VList _ => type_error "list indices must be integers or slices, not str"
  | _ => type_error ("'" ++ type_name v ++ "' object does not support item assignment")
  end.

(** [v.lower()]. *)
Definition py_lower (v : value) : result string :=
  match v with
  | VStr s => Ok (lower s)
  | _ => attribute_error v "lower"
  end.

(** [a or b]. *)
Definition py_or (a b : value) : value := if truthy a then a else b.

(** [str(v)], as an f-string formats a value.  The text of a float, a list
    or a dict (Python's [repr]) is left to the runtime. *)
Class Runtime : Type := { repr_compound : value -> string }.

Definition digit (n : nat) : string := String (ascii_of_nat (48 + n)) "".

Fixpoint decimal_pos (fuel : nat) (n : nat) : string :=
  match fuel with
  | O => ""
  | S fuel' =>
      if Nat.ltb n 10 then digit n
      else decimal_pos fuel' (Nat.div n 10) ++ digit (Nat.modulo n 10)
  end.

Definition decimal (n : Z) : string :=
  match n with
  | Z0 => "0"
  | Zpos p => decimal_pos (S (Pos.to_nat p)) (Pos.to_nat p)
  | Zneg p => "-" ++ decimal_pos (S (Pos.to_nat p)) (Pos.to_nat p)
  end.

Definition py_str `{Runtime} (v : value) : string :=
  match v with
  | VStr s => s
  | VNone => "None"
  | VBool true => "True"
  | VBool false => "False"
  | VInt n => decimal n
  | _ => repr_compound v
  end.

End Py.

Export Py.

Declare Scope py_scope.
Delimit Scope py_scope with py.
Notation "x <- m ;; k" := (bind m (fun x => k))
  (at level 100, m at next level, right associativity) : py_scope.
Local Open Scope py_scope.

(** The process environment, read by [os.getenv]. *)
Definition environ := string -> option string.

Definition getenv (env : environ) (name : string) : option string := env name.

(** [os.getenv(name, default)] with a default value. *)
Definition getenv_or (env : environ) (name : string) (default : value) : value :=
  match env name with Some s => VStr s | None => default end.

(** [if os.getenv(name):], true when the variable is set and not empty. *)
Definition getenv_truthy (env : environ) (name : string) : bool :=
  match env name with Some s => negb (String.eqb s "") | None => false end.

(* ================================================================= *)
(** ** scripts/config_merger.py *)

Module ConfigMerger.

Record SmartConfigMerger : Type := {
  global_config : dict;
  framework_defaults : list (string * dict)
}.

(** [_deep_merge(base, override)].  The loop runs over [override.items()]
    with [result] starting as a copy of [base]; the recursion descends into
    the override's value. *)
Fixpoint deep_merge_into (override : value) : dict -> dict :=
  match override with
  | VDict items =>
      (fix loop (items : list (string * value)) (result : dict) : dict :=
         match items with
         | [] => result
         | (key, value) :: rest =>
             loop rest
               (match lookup key result, value with
                | Some (VDict sub), VDict _ =>
                    set key (VDict (deep_merge_into value sub)) result
                | _, _ => set key value result
                end)
         end) items
  | _ => fun base => base
  end.

Definition _deep_merge (base override : dict) : dict :=
  deep_merge_into (VDict override) base.

(** One turn of the loop of [_deep_merge]. *)
Definition merge_item (result : dict) (key : string) (value : value) : dict :=
  match lookup key result, value with
  | Some (VDict sub), VDict o => set key (VDict (_deep_merge sub o)) result
  | _, _ => set key value result
  end.

(** [_add_environment_overrides(config)]. *)
Definition option_value (o : option string) : value :=
  match o with Some s => VStr s | None => VNone end.

Definition getenv_str (env : environ) (name default : string) : string :=
  match env name with Some s => s | None => default end.

(** The [build_info] block the environment gives. *)
Definition build_info_block (env : environ) : value :=
  let build_number := getenv env "BUILD_BUILDNUMBER" in
  VDict
    [("build_number", option_value build_number);
     ("build_id", option_value (getenv env "BUILD_BUILDID"));
     ("source_version",
       VStr (String.substring 0 8 (getenv_str env "BUILD_SOURCEVERSION" "")));
     ("source_branch", VStr (getenv_str env "BUILD_SOURCEBRANCHNAME" "unknown"));
     ("pipeline_name", VStr (getenv_str env "BUILD_DEFINITIONNAME" "unknown"));
     ("build_reason", VStr (getenv_str env "BUILD_REASON" "manual"))].

Definition _add_environment_overrides (env : environ) (config : dict) : dict :=
  if getenv_truthy env "BUILD_BUILDNUMBER"
  then set "build_info" (build_info_block env) config
  else config.

(** [if key not in config: config[key] = {}]. *)
Definition ensure_section (key : string) (config : dict) : dict :=
  if mem key config then config else set key (VDict []) config.

(** The branch-to-environment rule of [_add_auto_detected_values]. *)
Definition environment_for_branch (branch : value) : string :=
  if orb (is_str "main" branch) (is_str "master" branch) then "production"
  else if is_str "develop" branch then "staging"
  else "development".

(** The blocks of [_add_auto_detected_values] each take a section object
    out of [config] (after [if key not in config: config[key] = {}]) and
    store into it; the Python code mutates the object in place, here the
    section is written back under its key. *)
Definition with_section (key : string) (config : dict)
  (body : dict -> value -> result value) : result dict :=
  let config := ensure_section key config in
  section <- py_getitem (VDict config) key ;;
  section <- body config section ;;
  Ok (set key section config).

(** [config['app']]: the name, when absent, and the detected framework. *)
Definition app_values (env : environ) (original_config : dict)
  (detected_framework : string) (app : value) : result value :=
  has_name <- py_in "name" app ;;
  app <- (if has_name then Ok app
          else
            oname <- py_get (get_d original_config "app" (VDict [])) "name" VNone ;;
            let app_name :=
              py_or oname (getenv_or env "BUILD_REPOSITORY_NAME" (VStr "unknown-app")) in
            low <- py_lower app_name ;;
            py_setitem app "name" (VStr (replace "_" "-" low))) ;;
  app <- py_setitem app "framework" (VStr detected_framework) ;;
  py_setitem app "detected_framework" (VStr detected_framework).

(** [source_config = config['source']] and its three entries. *)
Definition source_values (env : environ) (source_config : value) : result value :=
  old_url <- py_get source_config "repo_url" (VStr "") ;;
  source_config <-
    py_setitem source_config "repo_url" (getenv_or env "BUILD_REPOSITORY_URI" old_url) ;;
  old_branch <- py_get source_config "branch" (VStr "main") ;;
  source_config <-
    py_setitem source_config "branch" (getenv_or env "BUILD_SOURCEBRANCHNAME" old_branch) ;;
  py_setitem source_config "commit_sha" (getenv_or env "BUILD_SOURCEVERSION" (VStr "")).

(** [config['app']['name']]. *)
Definition app_name_of (config : dict) : result value :=
  app <- py_getitem (VDict config) "app" ;;
  py_getitem app "name".

(** [docker_config = config['docker']]: repository and image, when absent. *)
Definition docker_defaults (self : SmartConfigMerger) (env : environ)
  (config : dict) (docker_config : value) : result value :=
  has_repository <- py_in "repository" docker_config ;;
  docker_config <-
    (if has_repository then Ok docker_config
     else
       organization <-
         py_get (get_d (global_config self) "docker" (VDict [])) "organization"
                (VStr "myorg") ;;
       py_setitem docker_config "repository"
                  (getenv_or env "DOCKER_REPOSITORY" organization)) ;;
  has_image <- py_in "image" docker_config ;;
  if has_image then Ok docker_config
  else
    name <- app_name_of config ;;
    py_setitem docker_config "image" name.

(** [f"{docker_config['repository']}/{docker_config['image']}:{tag}"]. *)
Definition image_ref `{Runtime} (docker_config : value) (tag : value) : result string :=
  repository <- py_getitem docker_config "repository" ;;
  image <- py_getitem docker_config "image" ;;
  Ok (py_str repository ++ "/" ++ py_str image ++ ":" ++ py_str tag)%string.

(** The build number the image tag carries. *)
Definition build_number_of (env : environ) : string :=
  getenv_str env "BUILD_BUILDNUMBER" "local".

(** "Generate image tags": tag, full_image and latest_image. *)
Definition image_tags `{Runtime} (env : environ) (docker_config : value)
  : result value :=
  let build_number := build_number_of env in
  docker_config <- py_setitem docker_config "tag" (VStr ("v" ++ build_number)) ;;
  tag <- py_getitem docker_config "tag" ;;
  full_image <- image_ref docker_config tag ;;
  docker_config <- py_setitem docker_config "full_image" (VStr full_image) ;;
  latest_image <- image_ref docker_config (VStr "latest") ;;
  py_setitem docker_config "latest_image" (VStr latest_image).

(** [deployment_config = config['deployment']]: namespace and environment,
    when absent. *)
Definition deployment_values (config : dict) (deployment_config : value)
  : result value :=
  has_namespace <- py_in "namespace" deployment_config ;;
  deployment_config <-
    (if has_namespace then Ok deployment_config
     else
       name <- app_name_of config ;;
       py_setitem deployment_config "namespace" name) ;;
  has_environment <- py_in "environment" deployment_config ;;
  if has_environment then Ok deployment_config
  else
    source_config <- py_getitem (VDict config) "source" ;;
    branch <- py_get source_config "branch" (VStr "unknown") ;;
    py_setitem deployment_config "environment"
               (VStr (environment_for_branch branch)).

(** [_add_auto_detected_values(config, original_config, detected_framework)]. *)
Definition _add_auto_detected_values `{Runtime} (self : SmartConfigMerger)
  (env : environ) (config original_config : dict) (detected_framework : string)
  : result dict :=
  config <- with_section "app" config
              (fun _ => app_values env original_config detected_framework) ;;
  config <- with_section "source" config (fun _ => source_values env) ;;
  config <- with_section "docker" config
              (fun config docker_config =>
                 docker_config <- docker_defaults self env config docker_config ;;
                 image_tags env docker_config) ;;
  with_section "deployment" config deployment_values.

(** The three file layers of [merge_config], before the environment and the
    auto-detected values are applied. *)
Definition merged_layers (self : SmartConfigMerger) (app_config : dict)
  (detected_framework : string) : dict :=
  let merged := _deep_merge [] (global_config self) in
  let framework_defaults :=
    match lookup detected_framework (framework_defaults self) with
    | Some d => d
    | None => []
    end in
  let merged := _deep_merge merged framework_defaults in
  _deep_merge merged app_config.

(** [merge_config(app_config, detected_framework)].  [_deep_merge] copies
    one level and shares the nested dicts it does not merge; a process
    builds its merger and calls [merge_config] once, and within one call
    every section is read before it is stored into, so the value returned
    is the one computed here on values. *)
Definition merge_config `{Runtime} (self : SmartConfigMerger) (env : environ)
  (app_config : dict) (detected_framework : string) : result dict :=
  let merged := merged_layers self app_config detected_framework in
  let merged := _add_environment_overrides env merged in
  _add_auto_detected_values self env merged app_config detected_framework.

(** Merging again a config that was already merged and auto-detected, with
    an empty [app_config] layer: the merged config is the layer below the
    (empty) app layer, and no framework defaults stand between them. *)
Definition remerge `{Runtime} (env : environ) (merged : dict)
  (detected_framework : string) : result dict :=
  merge_config {| global_config := merged; framework_defaults := [] |} env []
    detected_framework.

(** Two environments that differ at most in the build number. *)
Definition same_but_build_number (env1 env2 : environ) : Prop :=
  forall name, name <> "BUILD_BUILDNUMBER" -> env1 name = env2 name.

(** The resource block of [validate_config].  Its comparison reads the name
    [both], which no scope of the module binds: reaching it raises
    [NameError] before [_parse_cpu] or [_parse_memory] is called. *)
Definition resource_warnings (config : dict) : result (list string) :=
  let warnings : list string := [] in
  if mem "deployment" config then
    deployment <- py_getitem (VDict config) "deployment" ;;
    has_resources <- py_in "resources" deployment ;;
    if has_resources then
      resources <- py_getitem deployment "resources" ;;
      has_limits <- py_in "limits" resources ;;
      has_requests <- (if has_limits then py_in "requests" resources else Ok false) ;;
      if has_requests then
        limits <- py_getitem resources "limits" ;;
        requests <- py_getitem resources "requests" ;;
        name_error "both"
      else Ok warnings
    else Ok warnings
  else Ok warnings.

(** [validate_config(config)]. *)
Definition validate_config (config : dict) : result dict :=
  name <- py_get (get_d config "app" (VDict [])) "name" VNone ;;
  let errors := if truthy name then [] else ["app.name is required"] in
  repository <- py_get (get_d config "docker" (VDict [])) "repository" VNone ;;
  let errors :=
    if truthy repository then errors
    else errors ++ ["docker.repository is required"] in
  warnings <- resource_warnings config ;;
  Ok (set "validation"
        (VDict [("errors", VList (map VStr errors));
                ("warnings", VList (map VStr warnings));
                ("valid", VBool (Nat.eqb (List.length errors) 0))])
        config).

(** *** Shapes of the layers

    Sections are typed [Any] in the source; the functions above raise on a
    section that is no dict.  [well_shaped] states the shape on which
    [merge_config] has all it needs: the four sections it fills are dicts
    where present, and the places it reads a name or an organization from
    are usable when it has to read them. *)

Definition is_section (d : dict) (key : string) : bool :=
  match lookup key d with None => true | Some v => is_dict v end.

Definition has_key (d : dict) (section key : string) : bool :=
  match lookup section d with Some (VDict s) => mem key s | _ => false end.

Definition name_source_ok (app_config : dict) : bool :=
  match get_d app_config "app" (VDict []) with
  | VDict a =>
      match get_d a "name" VNone with
      | VStr _ => true
      | v => negb (truthy v)
      end
  | _ => false
  end.

Definition well_shaped (self : SmartConfigMerger) (app_config : dict)
  (detected_framework : string) : bool :=
  let merged := merged_layers self app_config detected_framework in
  is_section merged "app" && is_section merged "source"
  && is_section merged "docker" && is_section merged "deployment"
  && (has_key merged "app" "name" || name_source_ok app_config)
  && (has_key merged "docker" "repository" || is_section (global_config self) "docker").

End ConfigMerger.

(* ================================================================= *)
(** ** scripts/framework_detector.py *)

Module FrameworkDetector.

Record patterns : Type := {
  files : list string;
  package_dependencies : list string;
  package_dev_dependencies : list string;
  config_files : list string;
  build_commands : list string;
  start_commands : list string;
  weight : float
}.

(** [self.detection_patterns], in the order the dict literal lists them. *)
Definition detection_patterns : list (string * patterns) :=
  [("angular",
     {| files := ["angular.json"; "src/main.ts"; "src/app/app.module.ts"];
        package_dependencies := ["@angular/core"; "@angular/cli"; "@angular/common"];
        package_dev_dependencies := ["@angular/cli"; "@angular-devkit/build-angular"];
        config_files := ["angular.json"; "tsconfig.json"; "tsconfig.app.json"];
        build_commands := ["build:prod"; "build"; "ng build"];
        start_commands := ["start"; "serve"; "ng serve"];
        weight := 1.0%float |});
   ("react",
     {| files := ["src/App.js"; "src/App.tsx"; "public/index.html"; "src/index.js"];
        package_dependencies := ["react"; "react-dom"];
        package_dev_dependencies := ["react-scripts"; "create-react-app"];
        config_files := ["package.json"];
        build_commands := ["build"; "react-scripts build"];
        start_commands := ["start"; "react-scripts start"];
        weight := 0.9%float |});
   ("vue",
     {| files := ["src/App.vue"; "vue.config.js"; "src/main.js"];
        package_dependencies := ["vue"];
        package_dev_dependencies := ["@vue/cli-service"; "@vue/cli"];
        config_files := ["vue.config.js"];
        build_commands := ["build"; "vue-cli-service build"];
        start_commands := ["serve"; "vue-cli-service serve"];
        weight := 0.8%float |});
   ("nextjs",
     {| files := ["next.config.js"; "pages/_app.js"; "pages/index.js"];
        package_dependencies := ["next"; "react"];
        package_dev_dependencies := ["next"];
        config_files := ["next.config.js"];
        build_commands := ["build"; "next build"];
        start_commands := ["dev"; "next dev"];
        weight := 0.9%float |})].

(** What the file system holds at [repo_path/package.json]. *)
Inductive manifest_file : Type :=
| NoManifest                 (* the path does not exist *)
| Unreadable                 (* it exists and [open] fails *)
| BadJson                    (* it opens and is not JSON text *)
| Manifest (data : value).   (* [json.load] gives [data] *)

(** The repository tree a run looks at. *)
Record repository : Type := {
  repo_path : string;          (* the path the caller gives *)
  repo_exists : bool;          (* [os.path.exists(repo_path)] *)
  repo_name : string;          (* [Path(repo_path).name] *)
  repo_paths : list string;    (* the relative paths that exist, package.json apart *)
  package_json : manifest_file
}.

(** [(Path(repo_path) / rel).exists()]. *)
Definition path_exists (repo : repository) (rel : string) : bool :=
  andb (repo_exists repo)
       (if String.eqb rel "package.json"
        then match package_json repo with NoManifest => false | _ => true end
        else existsb (String.eqb rel) (repo_paths repo)).

(** [_load_package_json(repo_path)]: [None] for a missing or unparsable
    file; an [open] that fails is not caught. *)
Definition _load_package_json (repo : repository) : result value :=
  if path_exists repo "package.json" then
    match package_json repo with
    | Manifest data => Ok data
    | Unreadable => Raise (mk_exn OSError "cannot open package.json")
    | _ => Ok VNone
    end
  else Ok VNone.

(** The shape shared by the five scoring loops:
    [for item in items: if test(item): score += points; found.append(item)]. *)
Fixpoint scan (test : string -> result bool) (points : Z) (items : list string)
  (score : Z) (found : list string) : result (Z * list string) :=
  match items with
  | [] => Ok (score, found)
  | item :: rest =>
      hit <- test item ;;
      if hit then scan test points rest (score + points)%Z (found ++ [item])
      else scan test points rest score found
  end.

Definition str_list (l : list string) : value := VList (map VStr l).

(** The body of the loop of [detect_framework] for one framework, up to the
    raw [score] and the [details] dict. *)
Definition score_framework (repo : repository) (package_json_data : value)
  (p : patterns) : result (Z * dict) :=
  let score := 0%Z in
  r <- scan (fun f => Ok (path_exists repo f)) 3 (files p) 0 [] ;;
  let '(file_score, files_found) := r in
  let breakdown := set "files" (VInt file_score) [] in
  let score := (score + file_score)%Z in
  r <- (if truthy package_json_data then
          deps <- py_get package_json_data "dependencies" (VDict []) ;;
          dev_deps <- py_get package_json_data "devDependencies" (VDict []) ;;
          r <- scan (fun d => py_in d deps) 5 (package_dependencies p) 0 [] ;;
          let '(dep_score, dependencies_found) := r in
          r <- scan (fun d => py_in d dev_deps) 3 (package_dev_dependencies p) 0 [] ;;
          let '(dev_dep_score, dev_dependencies_found) := r in
          let breakdown := set "dependencies" (VInt dep_score) breakdown in
          let breakdown := set "dev_dependencies" (VInt dev_dep_score) breakdown in
          Ok ((score + (dep_score + dev_dep_score))%Z, breakdown,
              dependencies_found, dev_dependencies_found)
        else Ok (score, breakdown, [], [])) ;;
  let '(score, breakdown, dependencies_found, dev_dependencies_found) := r in
  r <- scan (fun f => Ok (path_exists repo f)) 2 (config_files p) 0 [] ;;
  let '(config_score, config_files_found) := r in
  let breakdown := set "config_files" (VInt config_score) breakdown in
  let score := (score + config_score)%Z in
  r <- (if truthy package_json_data then
          scripts <- py_get package_json_data "scripts" (VDict []) ;;
          r <- scan (fun c => py_in c scripts) 1 (build_commands p) 0 [] ;;
          let '(build_score, build_commands_available) := r in
          let breakdown := set "build_commands" (VInt build_score) breakdown in
          Ok ((score + build_score)%Z, breakdown, build_commands_available)
        else Ok (score, breakdown, [])) ;;
  let '(score, breakdown, build_commands_available) := r in
  Ok (score,
      [("files_found", str_list files_found);
       ("dependencies_found", str_list dependencies_found);
       ("dev_dependencies_found", str_list dev_dependencies_found);
       ("config_files_found", str_list config_files_found);
       ("build_commands_available", str_list build_commands_available);
       ("confidence_breakdown", VDict breakdown)]).

(** [float(n)] for the integer scores. *)
Definition float_of_int (n : Z) : float :=
  if (n <? 0)%Z then PrimFloat.opp (PrimFloat.of_uint63 (Uint63.of_Z (- n)))
  else PrimFloat.of_uint63 (Uint63.of_Z n).

(** [score * patterns['weight']]. *)
Definition weighted (score : Z) (p : patterns) : float :=
  PrimFloat.mul (float_of_int score) (weight p).

(** The loop of [detect_framework] over the profiles: [scores] and
    [detection_details] receive the frameworks whose weighted score is
    above zero. *)
Fixpoint score_all (repo : repository) (package_json_data : value)
  (profiles : list (string * patterns))
  (scores : list (string * float)) (detection_details : list (string * value))
  : result (list (string * float) * list (string * value)) :=
  match profiles with
  | [] => Ok (scores, detection_details)
  | (framework, p) :: rest =>
      r <- score_framework repo package_json_data p ;;
      let '(score, details) := r in
      let weighted_score := weighted score p in
      if PrimFloat.ltb 0 weighted_score then
        score_all repo package_json_data rest
          (set framework weighted_score scores)
          (set framework (VDict details) detection_details)
      else score_all repo package_json_data rest scores detection_details
  end.

(** [max(scores, key=scores.get)]: the first key, in insertion order, whose
    value no later one exceeds. *)
Fixpoint max_from (best : string * float) (rest : list (string * float))
  : string * float :=
  match rest with
  | [] => best
  | (k, w) :: rest' =>
      if PrimFloat.ltb (snd best) w then max_from (k, w) rest'
      else max_from best rest'
  end.

(** [min(x, 1.0)]. *)
Definition min_one (x : float) : float :=
  if PrimFloat.ltb 1 x then 1%float else x.

Definition max_possible : float := 50%float.

(** [detect_framework(repo_path)]. *)
Definition detect_framework (repo : repository) : result (string * float * value) :=
  if negb (repo_exists repo) then Ok ("unknown", 0.0%float, VDict [])
  else
    package_json_data <- _load_package_json repo ;;
    r <- score_all repo package_json_data detection_patterns [] [] ;;
    let '(scores, detection_details) := r in
    match scores with
    | first :: rest =>
        let '(detected_framework, max_score) := max_from first rest in
        let confidence := min_one (PrimFloat.div max_score max_possible) in
        details <- py_getitem (VDict detection_details) detected_framework ;;
        Ok (detected_framework, confidence, details)
    | [] => Ok ("generic", 0.1%float, VDict [])
    end.

(** A text between double quotes. *)
Definition quoted (s : string) : string :=
  let q := String (ascii_of_nat 34) EmptyString in (q ++ s ++ q)%string.

(** [list(scripts.keys())]. *)
Definition py_keys (v : value) : result value :=
  match v with
  | VDict d => Ok (str_list (keys d))
  | _ => attribute_error v "keys"
  end.

(** The loop of [detect_build_strategy] over the preferred commands. *)
Fixpoint first_script (framework install_command : string) (scripts : value)
  (preferred_commands : list string) : result (option value) :=
  match preferred_commands with
  | [] => Ok None
  | cmd :: rest =>
      has <- py_in cmd scripts ;;
      if has then
        content <- py_getitem scripts cmd ;;
        available <- py_keys scripts ;;
        Ok (Some (VDict [("command", VStr ("npm run " ++ cmd));
                         ("type", VStr framework);
                         ("script_content", content);
                         ("install_command", VStr install_command);
                         ("available_scripts", available)]))
      else first_script framework install_command scripts rest
  end.

(** [detect_build_strategy(repo_path, framework)]. *)
Definition detect_build_strategy (repo : repository) (framework : string)
  : result value :=
  package_json_data <- _load_package_json repo ;;
  if negb (truthy package_json_data) then
    Ok (VDict [("command", VStr ("echo " ++ quoted "No package.json found"));
               ("type", VStr "generic");
               ("install_command", VStr ("echo " ++ quoted "No install needed"))])
  else
    scripts <- py_get package_json_data "scripts" (VDict []) ;;
    let install_command :=
      if path_exists repo "package-lock.json"
      then "npm ci --prefer-offline --no-audit --no-fund"
      else "npm install --prefer-offline --no-audit --no-fund" in
    let preferred_commands :=
      match lookup framework detection_patterns with
      | Some p => build_commands p
      | None => ["build"]
      end in
    found <- first_script framework install_command scripts preferred_commands ;;
    match found with
    | Some strategy => Ok strategy
    | None =>
        has_build <- py_in "build" scripts ;;
        if has_build then
          content <- py_getitem scripts "build" ;;
          Ok (VDict [("command", VStr "npm run build");
                     ("type", VStr "generic");
                     ("script_content", content);
                     ("install_command", VStr install_command)])
        else
          Ok (VDict [("command", VStr install_command);
                     ("type", VStr "install-only");
                     ("install_command", VStr install_command)])
    end.

(** *** The scoring rule in the specification's words

    The definitions below follow the specification, to be compared with
    [score_framework] and [detect_framework] above. *)

(** A manifest as the specification describes it: an object whose
    [dependencies], [devDependencies] and [scripts], where present, are
    mappings.  A missing or unparsable file counts as no manifest. *)
Definition mapping_or_absent (d : dict) (key : string) : bool :=
  match lookup key d with None => true | Some v => is_dict v end.

Definition well_formed (m : manifest_file) : bool :=
  match m with
  | NoManifest | BadJson => true
  | Unreadable => false
  | Manifest (VDict d) =>
      mapping_or_absent d "dependencies" && mapping_or_absent d "devDependencies"
      && mapping_or_absent d "scripts"
  | Manifest _ => false
  end.

(** What [_load_package_json] hands on for a file that can be read. *)
Definition manifest_data (repo : repository) : value :=
  match package_json repo with
  | Manifest data => if repo_exists repo then data else VNone
  | _ => VNone
  end.

(** The names a manifest lists under a section. *)
Definition manifest_section (data : value) (section : string) : dict :=
  match data with
  | VDict d => match lookup section d with Some (VDict s) => s | _ => [] end
  | _ => []
  end.

Definition count (test : string -> bool) (items : list string) : Z :=
  Z.of_nat (List.length (filter test items)).

(** 3 points per marker file, 5 per runtime dependency, 3 per dev
    dependency, 2 per config file, 1 per build script. *)
Definition profile_score (repo : repository) (data : value) (p : patterns) : Z :=
  (3 * count (path_exists repo) (files p)
   + 5 * count (fun d => mem d (manifest_section data "dependencies"))
           (package_dependencies p)
   + 3 * count (fun d => mem d (manifest_section data "devDependencies"))
           (package_dev_dependencies p)
   + 2 * count (path_exists repo) (config_files p)
   + 1 * count (fun c => mem c (manifest_section data "scripts"))
           (build_commands p))%Z.

(** The weighted score of a profile on a repository. *)
Definition weighted_score (repo : repository) (p : patterns) : float :=
  weighted (profile_score repo (manifest_data repo) p) p.

End FrameworkDetector.

(* ================================================================= *)
(** ** scripts/smart_orchestrator.py *)

Module Orchestrator.
Import ConfigMerger FrameworkDetector.

Inductive stage : Type := Build | Container | Deploy.

(** What a run has done so far: the stage collaborators it has invoked (in
    order), the number of clock readings taken, and the config object the
    stages are handed (the Build stage stores into it). *)
Record state : Type := {
  invoked : list stage;
  ticks : nat;
  config_obj : value
}.

(** The surroundings of a run: the clock and the three stage collaborators
    ([smart_build.run], [smart_docker.run], [smart_deploy.run]), taken by
    what they return or raise.  The Build stage also returns the config
    object as it leaves it. *)
Class World : Type := {
  time_at : nat -> float;
  build_run : value -> repository -> result (value * value);
  docker_run : value -> repository -> result value;
  deploy_run : value -> result value
}.

Definition M (A : Type) : Type := state -> result A * state.

Definition ret {A} (a : A) : M A := fun st => (Ok a, st).

Definition bindM {A B} (m : M A) (f : A -> M B) : M B :=
  fun st =>
    match m st with
    | (Ok a, st') => f a st'
    | (Raise e, st') => (Raise e, st')
    end.

(** A computation of the [result] monad, run inside [M]. *)
Definition lift {A} (r : result A) : M A := fun st => (r, st).

(** [try: body except Exception as e: handler(e)]. *)
Definition try_except {A} (body : M A) (handler : exn -> M A) : M A :=
  fun st =>
    match body st with
    | (Ok a, st') => (Ok a, st')
    | (Raise e, st') => handler e st'
    end.

Declare Scope orch_scope.
Notation "x <- m ;; k" := (bindM m (fun x => k))
  (at level 100, m at next level, right associativity) : orch_scope.
Notation "m ;;; k" := (bindM m (fun _ => k))
  (at level 100, right associativity) : orch_scope.
Local Open Scope orch_scope.

(** [time.time()]. *)
Definition time_time `{World} : M float :=
  fun st =>
    (Ok (time_at (ticks st)),
     {| invoked := invoked st; ticks := S (ticks st); config_obj := config_obj st |}).

Definition record_stage (s : stage) : M unit :=
  fun st =>
    (Ok tt,
     {| invoked := invoked st ++ [s]; ticks := ticks st; config_obj := config_obj st |}).

Definition get_config : M value := fun st => (Ok (config_obj st), st).

Definition put_config (config : value) : M unit :=
  fun st =>
    (Ok tt, {| invoked := invoked st; ticks := ticks st; config_obj := config |}).

(** [build_run(config, repo_path)]. *)
Definition call_build `{World} (repo : repository) : M value :=
  record_stage Build ;;;
  config <- get_config ;;
  r <- lift (build_run config repo) ;;
  put_config (snd r) ;;;
  ret (fst r).

(** [docker_run(config, repo_path)]. *)
Definition call_docker `{World} (repo : repository) : M value :=
  record_stage Container ;;;
  config <- get_config ;;
  lift (docker_run config repo).

(** [deploy_run(config)]. *)
Definition call_deploy `{World} : M value :=
  record_stage Deploy ;;;
  config <- get_config ;;
  lift (deploy_run config).

Record SmartOrchestrator : Type := {
  config_merger : SmartConfigMerger
}.

(** The name [_extract_app_name] reads out of package.json; anything raised
    on the way is swallowed by its bare [except]. *)
Definition name_from_package (repo : repository) : result (option string) :=
  if path_exists repo "package.json" then
    match package_json repo with
    | Manifest package_data =>
        (has_name <- py_in "name" package_data ;;
         if has_name then
           name <- py_getitem package_data "name" ;;
           low <- py_lower name ;;
           Ok (Some (replace "/" "-" (replace "@" "" (replace "_" "-" low))))
         else Ok None)%py
    | Unreadable => Raise (mk_exn OSError "cannot open package.json")
    | _ => Raise (mk_exn ValueError "package.json is not JSON")
    end
  else Ok None.

(** [_extract_app_name(repo_path)]. *)
Definition _extract_app_name (env : environ) (repo : repository) : string :=
  match name_from_package repo with
  | Ok (Some name) => name
  | _ =>
      if getenv_truthy env "BUILD_REPOSITORY_NAME"
      then replace "_" "-" (lower (getenv_str env "BUILD_REPOSITORY_NAME" ""))
      else replace "_" "-" (lower (repo_name repo))
  end.

Definition failure (e : exn) (duration : float) : dict :=
  [("success", VBool false);
   ("error", VStr (exn_msg e));
   ("duration", VFloat duration)].

Definition check_repo_exists (repo : repository) : M unit :=
  if negb (repo_exists repo)
  then lift (exception ("Repository path does not exist: " ++ repo_path repo))
  else ret tt.

(** [analyze_only(repo_path)]. *)
Definition analyze_only `{Runtime} `{World} (self : SmartOrchestrator)
  (env : environ) (repo : repository) : M dict :=
  start_time <- time_time ;;
  try_except
    (check_repo_exists repo ;;;
     r <- lift (detect_framework repo) ;;
     let '(framework, confidence, detection_details) := r in
     build_strategy <- lift (detect_build_strategy repo framework) ;;
     let base_config :=
       [("app", VDict [("name", VStr (_extract_app_name env repo));
                       ("framework", VStr framework)]);
        ("detection", VDict [("framework", VStr framework);
                             ("confidence", VFloat confidence);
                             ("details", detection_details)]);
        ("build_strategy", build_strategy)] in
     merged_config <-
       lift (merge_config (config_merger self) env base_config framework) ;;
     final_config <- lift (validate_config merged_config) ;;
     end_time <- time_time ;;
     let analysis_duration := PrimFloat.sub end_time start_time in
     ret [("success", VBool true);
          ("config", VDict final_config);
          ("duration", VFloat analysis_duration);
          ("framework", VStr framework);
          ("confidence", VFloat confidence)])
    (fun e =>
       now <- time_time ;;
       ret (failure e (PrimFloat.sub now start_time))).

(** [if not result['success']: raise Exception(f"<what>: {result.get('error', <unknown>)}")]. *)
Definition check_stage `{Runtime} (what unknown : string) (stage_result : value)
  : M unit :=
  success <- lift (py_getitem stage_result "success") ;;
  if negb (truthy success) then
    error <- lift (py_get stage_result "error" (VStr unknown)) ;;
    lift (exception (what ++ ": " ++ py_str error))
  else ret tt.

(** [process_repository(repo_path, config)].  [config] names the object the
    stages are handed, kept in [config_obj]. *)
Definition process_repository `{Runtime} `{World} (repo : repository)
  (config : value) : M dict :=
  put_config config ;;;
  start_time <- time_time ;;
  try_except
    (check_repo_exists repo ;;;
     success <- lift (py_get config "success" (VBool true)) ;;
     (if negb (truthy success)
      then lift (exception "Invalid configuration provided")
      else ret tt) ;;;
     app <- lift (py_getitem config "app") ;;
     app_name <- lift (py_getitem app "name") ;;
     app <- lift (py_getitem config "app") ;;
     framework <- lift (py_getitem app "framework") ;;
     build_result <- call_build repo ;;
     check_stage "Build failed" "Unknown build error" build_result ;;;
     docker_result <- call_docker repo ;;
     check_stage "Docker process failed" "Unknown Docker error" docker_result ;;;
     end_time <- time_time ;;
     let total_duration := PrimFloat.sub end_time start_time in
     ret [("success", VBool true);
          ("duration", VFloat total_duration);
          ("build_result", build_result);
          ("docker_result", docker_result);
          ("app_name", app_name);
          ("framework", framework)])
    (fun e =>
       now <- time_time ;;
       ret (failure e (PrimFloat.sub now start_time))).

(** [full_pipeline(repo_path, deploy)].  [analysis_result['config']] and
    [config] are one object, so the analysis entry of the final result holds
    the config as the stages left it. *)
Definition full_pipeline `{Runtime} `{World} (self : SmartOrchestrator)
  (env : environ) (repo : repository) (deploy : bool) : M dict :=
  analysis_result <- analyze_only self env repo ;;
  success <- lift (py_getitem (VDict analysis_result) "success") ;;
  if negb (truthy success) then ret analysis_result
  else
    config <- lift (py_getitem (VDict analysis_result) "config") ;;
    process_result <- process_repository repo config ;;
    success <- lift (py_getitem (VDict process_result) "success") ;;
    if negb (truthy success) then ret process_result
    else
      deploy_result <- (if deploy then call_deploy else ret VNone) ;;
      config <- get_config ;;
      ret [("success", VBool true);
           ("analysis", VDict (set "config" config analysis_result));
           ("processing", VDict process_result);
           ("deployment", deploy_result)].

Definition initial : state :=
  {| invoked := []; ticks := 0; config_obj := VNone |}.

(** [result['success']] of a returned dict, as a condition reads it. *)
Definition succeeded (r : dict) : bool :=
  match lookup "success" r with Some v => truthy v | None => false end.

End Orchestrator.

(* ================================================================= *)
(** ** scripts/run_analysis.py, scripts/run_build.py, scripts/run_deploy.py *)

Module EntryPoints.
Import ConfigMerger FrameworkDetector Orchestrator.
Local Open Scope orch_scope.
Local Open Scope Z_scope.

(** What an entry point finds around it.  The files it reads and writes and
    the modules it imports are taken by what they give or raise. *)
Record surroundings : Type := {
  argv : list string;                           (* [sys.argv] *)
  scripts_dir_exists : bool;                    (* [os.path.exists(scripts_dir)] *)
  environment : environ;                        (* [os.environ] *)
  repository_at : string -> repository;         (* the tree at a path *)
  import_modules : result unit;                 (* the [import] inside [try] *)
  new_orchestrator : result SmartOrchestrator;  (* [SmartOrchestrator()] *)
  load_json : string -> result value;           (* [open(path)] and [json.load] *)
  dump_json : dict -> result unit;              (* [open(output_file, 'w')] and [json.dump] *)
  preview_manifest : value -> result unit       (* the manifest preview of run_deploy *)
}.

(** [f'{v:<spec>}'] with a numeric format code ([.2f], [.1%]): the text is
    printed and not kept; what matters is whether formatting raises. *)
Definition format_number (code : string) (v : value) : result unit :=
  match v with
  | VInt _ | VFloat _ | VBool _ => Ok tt
  | VStr _ =>
      Raise (mk_exn ValueError
               ("Unknown format code '" ++ code ++ "' for object of type 'str'"))
  | _ => type_error ("unsupported format string passed to "
                     ++ type_name v ++ ".__format__")
  end.

(** Each [main] is taken to the exit status of the process: the argument
    of the [sys.exit] it reaches ([SystemExit] passes [except Exception]),
    and 1 for an exception, which its handlers end with [sys.exit(1)]. *)

Module RunAnalysis.

(** [main()] of run_analysis.py. *)
Definition main `{Runtime} `{World} (sur : surroundings) : M Z :=
  match argv sur with
  | _ :: service_path :: _ =>
      if negb (scripts_dir_exists sur) then ret 1
      else
        let repo := repository_at sur service_path in
        if negb (repo_exists repo) then ret 1
        else
          try_except
            (lift (import_modules sur) ;;;
             orchestrator <- lift (new_orchestrator sur) ;;
             result <- analyze_only orchestrator (environment sur) repo ;;
             lift (dump_json sur result) ;;;
             success <- lift (py_getitem (VDict result) "success") ;;
             if truthy success then
               let config := get_d result "config" (VDict []) in
               app <- lift (py_get config "app" (VDict [])) ;;
               detection <- lift (py_get config "detection" (VDict [])) ;;
               build_strategy <- lift (py_get config "build_strategy" (VDict [])) ;;
               docker <- lift (py_get config "docker" (VDict [])) ;;
               name <- lift (py_get app "name" (VStr "unknown")) ;;
               framework <- lift (py_get app "framework" (VStr "unknown")) ;;
               confidence <- lift (py_get detection "confidence" (VInt 0)) ;;
               lift (format_number "%" confidence) ;;;
               command <- lift (py_get build_strategy "command" (VStr "unknown")) ;;
               type <- lift (py_get build_strategy "type" (VStr "unknown")) ;;
               image <- lift (py_get docker "full_image" (VStr "unknown")) ;;
               port <- lift (py_get docker "port" (VStr "unknown")) ;;
               ret 0
             else ret 1)
            (fun _ => ret 1)
  | _ => ret 1
  end.

End RunAnalysis.

Module RunBuild.

(** [main()] of run_build.py. *)
Definition main `{Runtime} `{World} (sur : surroundings) : M Z :=
  match argv sur with
  | _ :: service_path :: analysis_file :: _ =>
      if negb (scripts_dir_exists sur) then ret 1
      else
        try_except
          (lift (import_modules sur) ;;;
           analysis_result <- lift (load_json sur analysis_file) ;;
           success <- lift (py_getitem analysis_result "success") ;;
           if negb (truthy success) then ret 1
           else
             config <- lift (py_getitem analysis_result "config") ;;
             app <- lift (py_getitem config "app") ;;
             name <- lift (py_getitem app "name") ;;
             orchestrator <- lift (new_orchestrator sur) ;;
             let repo := repository_at sur service_path in
             if negb (repo_exists repo) then ret 1
             else
               result <- process_repository repo config ;;
               success <- lift (py_getitem (VDict result) "success") ;;
               if truthy success then
                 lift (format_number "f" (get_d result "duration" (VInt 0))) ;;;
                 ret 0
               else ret 1)
          (fun _ => ret 1)
  | _ => ret 1
  end.

End RunBuild.

Module RunDeploy.

(** The deployment section given to a config that has none. *)
Definition default_deployment : value :=
  VDict [("namespace", VStr "default");
         ("environment", VStr "production");
         ("replicas", VInt 1)].

(** [main()] of run_deploy.py. *)
Definition main `{World} (sur : surroundings) : M Z :=
  match argv sur with
  | _ :: analysis_file :: _ =>
      if negb (scripts_dir_exists sur) then ret 1
      else
        try_except
          (lift (import_modules sur) ;;;
           analysis_result <- lift (load_json sur analysis_file) ;;
           success <- lift (py_getitem analysis_result "success") ;;
           if negb (truthy success) then ret 1
           else
             config <- lift (py_getitem analysis_result "config") ;;
             has_deployment <- lift (py_in "deployment" config) ;;
             config <- lift (if has_deployment then Ok config
                             else py_setitem config "deployment" default_deployment) ;;
             app <- lift (py_getitem config "app") ;;
             app_name <- lift (py_getitem app "name") ;;
             app <- lift (py_getitem config "app") ;;
             framework <- lift (py_getitem app "framework") ;;
             docker <- lift (py_getitem config "docker") ;;
             docker_image <- lift (py_getitem docker "full_image") ;;
             deployment <- lift (py_getitem config "deployment") ;;
             environment <- lift (py_getitem deployment "environment") ;;
             deployment <- lift (py_getitem config "deployment") ;;
             namespace <- lift (py_getitem deployment "namespace") ;;
             put_config config ;;;
             deploy_result <- call_deploy ;;
             success <- lift (py_getitem deploy_result "success") ;;
             if truthy success then
               manifest_path <- lift (py_getitem deploy_result "manifest_path") ;;
               lift (preview_manifest sur manifest_path) ;;;
               ret 0
             else
               error <- lift (py_get deploy_result "error" (VStr "Unknown error")) ;;
               ret 1)
          (fun _ => ret 1)
  | _ => ret 1
  end.

End RunDeploy.

End EntryPoints.

(* ================================================================= *)
(** ** scripts/utils/helpers.py, scripts/smart_deploy.py *)

Module SmartDeploy.

(** What [subprocess.run] gives for a command. *)
Inductive process_outcome : Type :=
| Completed (returncode : Z) (stdout stderr : string)
| TimedOut                       (* [subprocess.TimeoutExpired] *)
| Failed (e : exn).              (* any other exception *)

(** The surroundings of a deployment: the shell, whose answer to a command
    may depend on the commands run before it, the template and manifest
    files, [json.loads], and [==] on the values the definitions below do
    not compare themselves. *)
Class Shell : Type := {
  subprocess_run : list string -> string -> process_outcome;
  template_exists : bool;                     (* [template_path.exists()] *)
  render_template : value -> result string;   (* the template, rendered on the config *)
  write_file : string -> string -> result unit;
  read_file : string -> result string;
  json_loads : string -> result value;
  eq_other : value -> value -> bool
}.

(** Computations that run commands: the state is the list of the commands
    run so far. *)
Definition Sh (A : Type) : Type := list string -> result A * list string.

Definition ret {A} (a : A) : Sh A := fun log => (Ok a, log).

Definition bindS {A B} (m : Sh A) (f : A -> Sh B) : Sh B :=
  fun log =>
    match m log with
    | (Ok a, log') => f a log'
    | (Raise e, log') => (Raise e, log')
    end.

Definition lift {A} (r : result A) : Sh A := fun log => (r, log).

(** [try: body except Exception as e: handler(e)]. *)
Definition try_except {A} (body : Sh A) (handler : exn -> Sh A) : Sh A :=
  fun log =>
    match body log with
    | (Ok a, log') => (Ok a, log')
    | (Raise e, log') => handler e log'
    end.

Declare Scope sh_scope.
Notation "x <- m ;; k" := (bindS m (fun x => k))
  (at level 100, m at next level, right associativity) : sh_scope.
Notation "m ;;; k" := (bindS m (fun _ => k))
  (at level 100, right associativity) : sh_scope.

(** [run_command(command)] of utils/helpers.py, with its default timeout. *)
Definition command_result (command : string) (outcome : process_outcome) : dict :=
  match outcome with
  | Completed returncode stdout stderr =>
      [("success", VBool (Z.eqb returncode 0));
       ("returncode", VInt returncode);
       ("stdout", VStr stdout);
       ("stderr", VStr stderr);
       ("command", VStr command)]
  | TimedOut =>
      [("success", VBool false);
       ("returncode", VInt (-1));
       ("stdout", VStr "");
       ("stderr", VStr "Command timed out after 600 seconds");
       ("command", VStr command)]
  | Failed e =>
      [("success", VBool false);
       ("returncode", VInt (-1));
       ("stdout", VStr "");
       ("stderr", VStr (exn_msg e));
       ("command", VStr command)]
  end.

Definition run_command `{Shell} (command : string) : Sh value :=
  fun log =>
    (Ok (VDict (command_result command (subprocess_run log command))),
     (log ++ [command])%list).

(** An f-string: literal text and replacement fields, evaluated from left
    to right. *)
Inductive piece : Type :=
| Text (s : string)
| Field (read : result value).

Fixpoint render `{Runtime} (pieces : list piece) : result string :=
  match pieces with
  | [] => Ok ""
  | Text s :: rest => (r <- render rest ;; Ok (s ++ r)%string)%py
  | Field read :: rest =>
      (v <- read ;; r <- render rest ;; Ok (py_str v ++ r)%string)%py
  end.

Definition nl : string := String (ascii_of_nat 10) EmptyString.

Definition line (s : string) : list piece := [Text (s ++ nl)].

(** A line that ends with a replacement field. *)
Definition entry (label : string) (read : result value) : list piece :=
  [Text label; Field read; Text nl].

(** The same with the field between double quotes. *)
Definition quoted_entry (label : string) (read : result value) : list piece :=
  let q := String (ascii_of_nat 34) EmptyString in
  [Text (label ++ q); Field read; Text (q ++ nl)].

(** [d.get(a, {}).get(b, {}).get(c, default)]. *)
Definition get3 (d : value) (a b c : string) (default : value) : result value :=
  (x <- py_get d a (VDict []) ;;
   y <- py_get x b (VDict []) ;;
   py_get y c default)%py.

(** [_generate_inline_k8s_manifest(config)]. *)
Definition _generate_inline_k8s_manifest `{Runtime} (config : value)
  : result string :=
  (app <- py_getitem config "app" ;;
   docker <- py_getitem config "docker" ;;
   deployment <- py_getitem config "deployment" ;;
   let name := py_getitem app "name" in
   let framework := py_getitem app "framework" in
   let environment := py_getitem deployment "environment" in
   let namespace := py_get deployment "namespace" (VStr "default") in
   let port := py_get docker "port" (VInt 8080) in
   render
     (line "apiVersion: apps/v1"
      ++ line "kind: Deployment"
      ++ line "metadata:"
      ++ entry "  name: " name
      ++ entry "  namespace: " namespace
      ++ line "  labels:"
      ++ entry "    app: " name
      ++ entry "    framework: " framework
      ++ entry "    environment: " environment
      ++ line "spec:"
      ++ entry "  replicas: " (py_getitem deployment "replicas")
      ++ line "  strategy:"
      ++ line "    type: RollingUpdate"
      ++ line "    rollingUpdate:"
      ++ line "      maxSurge: 1"
      ++ line "      maxUnavailable: 0"
      ++ line "  selector:"
      ++ line "    matchLabels:"
      ++ entry "      app: " name
      ++ line "  template:"
      ++ line "    metadata:"
      ++ line "      labels:"
      ++ entry "        app: " name
      ++ entry "        framework: " framework
      ++ entry "        environment: " environment
      ++ line "    spec:"
      ++ line "      containers:"
      ++ entry "      - name: " name
      ++ entry "        image: " (py_getitem docker "full_image")
      ++ line "        ports:"
      ++ entry "        - containerPort: " port
      ++ line "        env:"
      ++ line "        - name: ENVIRONMENT"
      ++ quoted_entry "          value: " environment
      ++ line "        - name: APP_NAME"
      ++ quoted_entry "          value: " name
      ++ line "        readinessProbe:"
      ++ line "          httpGet:"
      ++ line "            path: /"
      ++ entry "            port: " port
      ++ entry "          initialDelaySeconds: "
           (get3 deployment "health_checks" "readiness" "initial_delay" (VInt 10))
      ++ line "          periodSeconds: 10"
      ++ line "        livenessProbe:"
      ++ line "          httpGet:"
      ++ line "            path: /"
      ++ entry "            port: " port
      ++ entry "          initialDelaySeconds: "
           (get3 deployment "health_checks" "liveness" "initial_delay" (VInt 30))
      ++ line "          periodSeconds: 30"
      ++ line "        resources:"
      ++ line "          requests:"
      ++ quoted_entry "            memory: "
           (get3 deployment "resources" "requests" "memory" (VStr "128Mi"))
      ++ quoted_entry "            cpu: "
           (get3 deployment "resources" "requests" "cpu" (VStr "100m"))
      ++ line "          limits:"
      ++ quoted_entry "            memory: "
           (get3 deployment "resources" "limits" "memory" (VStr "256Mi"))
      ++ quoted_entry "            cpu: "
           (get3 deployment "resources" "limits" "cpu" (VStr "200m"))
      ++ line "---"
      ++ line "apiVersion: v1"
      ++ line "kind: Service"
      ++ line "metadata:"
      ++ [Text "  name: "; Field name; Text ("-service" ++ nl)]
      ++ entry "  namespace: " namespace
      ++ line "  labels:"
      ++ entry "    app: " name
      ++ entry "    framework: " framework
      ++ line "spec:"
      ++ entry "  type: " (py_get deployment "service_type" (VStr "LoadBalancer"))
      ++ line "  ports:"
      ++ entry "  - port: "
           (service <- py_get deployment "service" (VDict []) ;;
            py_get service "port" (VInt 80))
      ++ entry "    targetPort: " port
      ++ line "    protocol: TCP"
      ++ line "  selector:"
      ++ entry "    app: " name)%list)%py.

(** [_generate_k8s_manifests(config)]. *)
Definition _generate_k8s_manifests `{Runtime} `{Shell} (config : value)
  : result string :=
  (manifest_content <-
     (if negb template_exists then _generate_inline_k8s_manifest config
      else render_template config) ;;
   let manifest_path := "generated-k8s-manifest.yaml" in
   _ <- write_file manifest_path manifest_content ;;
   Ok manifest_path)%py.

(** [_validate_k8s_manifests(manifest_path)].  [yaml.safe_load_all] returns
    a generator that the function never iterates, so no document is parsed
    and no [YAMLError] is raised; what is left is reading the file. *)
Definition _validate_k8s_manifests `{Shell} (manifest_path : string)
  : result unit :=
  (_ <- read_file manifest_path ;; Ok tt)%py.

Local Open Scope sh_scope.

(** [_apply_k8s_manifests(manifest_path, deployment_config)]. *)
Definition _apply_k8s_manifests `{Runtime} `{Shell} (manifest_path : string)
  (deployment_config : value) : Sh value :=
  namespace <- lift (py_get deployment_config "namespace" (VStr "default")) ;;
  let apply_command :=
    ("kubectl apply -f " ++ manifest_path ++ " --namespace=" ++ py_str namespace)%string in
  result <- run_command apply_command ;;
  success <- lift (py_getitem result "success") ;;
  if negb (truthy success) then
    stderr <- lift (py_getitem result "stderr") ;;
    lift (exception ("Failed to apply manifests: " ++ py_str stderr))
  else ret result.

(** [_get_deployment_debug_info(app_name, namespace)]. *)
Definition _get_deployment_debug_info `{Runtime} `{Shell} (app_name namespace : value)
  : Sh unit :=
  desc_result <-
    run_command ("kubectl describe deployment/" ++ py_str app_name
                 ++ " --namespace=" ++ py_str namespace) ;;
  success <- lift (py_getitem desc_result "success") ;;
  (if truthy success then
     stdout <- lift (py_getitem desc_result "stdout") ;; ret tt
   else ret tt) ;;;
  pods_result <-
    run_command ("kubectl get pods -l app=" ++ py_str app_name
                 ++ " --namespace=" ++ py_str namespace ++ " -o wide") ;;
  success <- lift (py_getitem pods_result "success") ;;
  if truthy success then
    stdout <- lift (py_getitem pods_result "stdout") ;; ret tt
  else ret tt.

(** [_wait_for_rollout(app_name, deployment_config)]. *)
Definition _wait_for_rollout `{Runtime} `{Shell} (app_name deployment_config : value)
  : Sh value :=
  namespace <- lift (py_get deployment_config "namespace" (VStr "default")) ;;
  timeout <- lift (py_get deployment_config "rollout_timeout" (VInt 300)) ;;
  let rollout_command :=
    ("kubectl rollout status deployment/" ++ py_str app_name
     ++ " --namespace=" ++ py_str namespace
     ++ " --timeout=" ++ py_str timeout ++ "s")%string in
  result <- run_command rollout_command ;;
  success <- lift (py_getitem result "success") ;;
  (if negb (truthy success) then
     stderr <- lift (py_getitem result "stderr") ;;
     _get_deployment_debug_info app_name namespace
   else ret tt) ;;;
  ret result.

(** [a == b]. *)
Definition py_eq `{Shell} (a b : value) : bool :=
  match a, b with
  | VNone, VNone => true
  | VBool x, VBool y => Bool.eqb x y
  | VInt x, VInt y => Z.eqb x y
  | VBool x, VInt y => Z.eqb (if x then 1 else 0) y
  | VInt x, VBool y => Z.eqb x (if y then 1 else 0)
  | VFloat x, VFloat y => PrimFloat.eqb x y
  | VStr x, VStr y => String.eqb x y
  | VNone, _ | _, VNone => false
  | VStr _, _ | _, VStr _ => false
  | _, _ => eq_other a b
  end.

(** [v > 0]. *)
Definition py_gt_zero (v : value) : result bool :=
  match v with
  | VBool b => Ok b
  | VInt n => Ok (Z.ltb 0 n)
  | VFloat f => Ok (PrimFloat.ltb 0 f)
  | _ => type_error ("'>' not supported between instances of '"
                     ++ type_name v ++ "' and 'int'")
  end.

(** The first [try] block of [_verify_deployment_health]: the status is
    read into [health_info]; what was stored when something raises stays. *)
Definition read_deployment_status `{Shell} (status_result : value)
  (health_info : dict) : result dict :=
  match
    (stdout <- py_getitem status_result "stdout" ;;
     deployment_data <-
       match stdout with
       | VStr text => json_loads text
       | _ => type_error "the JSON object must be str, bytes or bytearray"
       end ;;
     status <- py_get deployment_data "status" (VDict []) ;;
     ready_replicas <- py_get status "readyReplicas" (VInt 0) ;;
     available_replicas <- py_get status "availableReplicas" (VInt 0) ;;
     updated_replicas <- py_get status "updatedReplicas" (VInt 0) ;;
     conditions <- py_get status "conditions" (VList []) ;;
     Ok (set "conditions" conditions
           (set "updated_replicas" updated_replicas
              (set "available_replicas" available_replicas
                 (set "ready_replicas" ready_replicas health_info)))))%py
  with
  | Raise _ => Ok health_info
  | Ok health_info =>
      match
        (ready <- py_getitem (VDict health_info) "ready_replicas" ;;
         desired <- py_getitem (VDict health_info) "desired_replicas" ;;
         if py_eq ready desired then py_gt_zero ready else Ok false)%py
      with
      | Raise _ => Ok health_info
      | Ok healthy =>
          Ok (set "status" (VStr (if healthy then "healthy" else "unhealthy"))
                (set "healthy" (VBool healthy) health_info))
      end
  end.

(** The second [try] block: the service entry. *)
Definition read_service_status `{Shell} (service_result : value)
  (health_info : dict) : dict :=
  match
    (stdout <- py_getitem service_result "stdout" ;;
     service_data <-
       match stdout with
       | VStr text => json_loads text
       | _ => type_error "the JSON object must be str, bytes or bytearray"
       end ;;
     service_spec <- py_get service_data "spec" (VDict []) ;;
     service_status <- py_get service_data "status" (VDict []) ;;
     type <- py_get service_spec "type" VNone ;;
     ports <- py_get service_spec "ports" (VList []) ;;
     load_balancer <- py_get service_status "loadBalancer" (VDict []) ;;
     external_ip <- py_get load_balancer "ingress" (VList []) ;;
     Ok (set "service"
           (VDict [("type", type); ("ports", ports); ("external_ip", external_ip)])
           health_info))%py
  with
  | Ok health_info' => health_info'
  | Raise _ => health_info
  end.

(** [_verify_deployment_health(app_name, deployment_config)]. *)
Definition _verify_deployment_health `{Runtime} `{Shell}
  (app_name deployment_config : value) : Sh dict :=
  namespace <- lift (py_get deployment_config "namespace" (VStr "default")) ;;
  let status_command :=
    ("kubectl get deployment/" ++ py_str app_name
     ++ " --namespace=" ++ py_str namespace ++ " -o json")%string in
  status_result <- run_command status_command ;;
  desired_replicas <- lift (py_getitem deployment_config "replicas") ;;
  let health_info :=
    [("healthy", VBool false);
     ("ready_replicas", VInt 0);
     ("desired_replicas", desired_replicas);
     ("status", VStr "unknown")] in
  success <- lift (py_getitem status_result "success") ;;
  health_info <-
    lift (if truthy success then read_deployment_status status_result health_info
          else Ok health_info) ;;
  let service_command :=
    ("kubectl get service/" ++ py_str app_name
     ++ "-service --namespace=" ++ py_str namespace ++ " -o json")%string in
  service_result <- run_command service_command ;;
  success <- lift (py_getitem service_result "success") ;;
  let health_info :=
    if truthy success then read_service_status service_result health_info
    else health_info in
  healthy <- lift (py_getitem (VDict health_info) "healthy") ;;
  ready <- lift (py_getitem (VDict health_info) "ready_replicas") ;;
  desired <- lift (py_getitem (VDict health_info) "desired_replicas") ;;
  ret health_info.

(** [run(config)]. *)
Definition run `{Runtime} `{Shell} (config : value) : Sh dict :=
  app <- lift (py_getitem config "app") ;;
  app_name <- lift (py_getitem app "name") ;;
  app <- lift (py_getitem config "app") ;;
  framework <- lift (py_getitem app "framework") ;;
  deployment_config <- lift (py_getitem config "deployment") ;;
  environment <- lift (py_getitem deployment_config "environment") ;;
  try_except
    (manifest_path <- lift (_generate_k8s_manifests config) ;;
     lift (_validate_k8s_manifests manifest_path) ;;;
     apply_result <- _apply_k8s_manifests manifest_path deployment_config ;;
     rollout_result <- _wait_for_rollout app_name deployment_config ;;
     health_check <- _verify_deployment_health app_name deployment_config ;;
     ret [("success", VBool true);
          ("manifest_path", VStr manifest_path);
          ("apply_result", apply_result);
          ("rollout_result", rollout_result);
          ("health_check", VDict health_check)])
    (fun e => ret [("success", VBool false); ("error", VStr (exn_msg e))]).

End SmartDeploy.

(* ================================================================= *)
(** ** scripts/framework_detector.py: the output directory *)

Module OutputDirectory.

(** What the file system holds at a path below the repository. *)
Inductive path_kind : Type :=
| Missing            (* [exists()] is false *)
| RegularFile        (* it exists and [iterdir()] raises [NotADirectoryError] *)
| EmptyDirectory     (* [any(iterdir())] is false *)
| FilledDirectory.   (* [any(iterdir())] is true *)

(** [possible_dirs], by framework. *)
Definition possible_dirs (framework app_name : string) : list string :=
  if String.eqb framework "angular"
  then [("dist/" ++ app_name)%string; "dist";
        ("dist/" ++ app_name ++ "-app")%string]
  else if String.eqb framework "react" then ["build"; "dist"]
  else if String.eqb framework "vue" then ["dist"; "build"]
  else ["dist"; "build"; "public"].

(** The loop over the candidates. *)
Fixpoint first_filled (kind : string -> path_kind) (repo_path : string)
  (dirs : list string) : result (option string) :=
  match dirs with
  | [] => Ok None
  | dir_path :: rest =>
      match kind dir_path with
      | FilledDirectory => Ok (Some dir_path)
      | RegularFile =>
          Raise (mk_exn OSError
                   ("[Errno 20] Not a directory: '" ++ repo_path ++ "/"
                    ++ dir_path ++ "'")%string)
      | _ => first_filled kind repo_path rest
      end
  end.

(** [detect_output_directory(repo_path, framework, app_name)].  [kind] is
    asked about each candidate as the code writes it, relative to
    [repo_path]. *)
Definition detect_output_directory (kind : string -> path_kind)
  (repo_path framework app_name : string) : result string :=
  r <- first_filled kind repo_path (possible_dirs framework app_name) ;;
  Ok (match r with Some dir_path => dir_path | None => "dist" end).

End OutputDirectory.

(* ================================================================= *)
(** * Properties *)

(** ** Dictionaries *)

Module DictFacts.

Section Assoc.
Context {A : Type}.
Implicit Types (k : string) (v : A) (d : list (string * A)).

Lemma lookup_set_eq k v d : lookup k (set k v d) = Some v.
Proof.
  induction d as [|[k' v'] d IH]; simpl.
  - now rewrite String.eqb_refl.
  - destruct (String.eqb k k') eqn:E; simpl.
    + now rewrite String.eqb_refl.
    + now rewrite E.
Qed.

Lemma lookup_set_neq k k' v d : k <> k' -> lookup k (set k' v d) = lookup k d.
Proof.
  intros N. induction d as [|[k0 v0] d IH]; simpl.
  - apply String.eqb_neq in N. now rewrite N.
  - destruct (String.eqb k' k0) eqn:E; simpl.
    + apply String.eqb_eq in E. subst k0.
      apply String.eqb_neq in N. now rewrite N.
    + now rewrite IH.
Qed.

Lemma lookup_set k k' v d :
  lookup k (set k' v d) = if String.eqb k k' then Some v else lookup k d.
Proof.
  destruct (String.eqb_spec k k') as [->|N].
  - apply lookup_set_eq.
  - now apply lookup_set_neq.
Qed.

Lemma lookup_none_not_in k d : lookup k d = None <-> ~ In k (keys d).
Proof.
  induction d as [|[k' v'] d IH]; simpl.
  - tauto.
  - destruct (String.eqb_spec k k') as [->|N].
    + split; [discriminate | intros H; exfalso; apply H; now left].
    + rewrite IH. split; intros H; [intros [E|I]; [now subst | tauto] | tauto].
Qed.

Lemma mem_set k k' v d : mem k (set k' v d) = orb (String.eqb k k') (mem k d).
Proof.
  unfold mem. rewrite lookup_set. now destruct (String.eqb k k').
Qed.

Lemma keys_set_in k v d : mem k d = true -> keys (set k v d) = keys d.
Proof.
  unfold mem. induction d as [|[k' v'] d IH]; simpl; [discriminate|].
  destruct (String.eqb_spec k k') as [->|N]; simpl; [reflexivity|].
  intros H. now rewrite IH.
Qed.

Lemma keys_set_new k v d : mem k d = false -> keys (set k v d) = keys d ++ [k].
Proof.
  unfold mem. induction d as [|[k' v'] d IH]; simpl; [reflexivity|].
  destruct (String.eqb_spec k k') as [->|N]; simpl; [discriminate|].
  intros H. now rewrite IH.
Qed.

Lemma unique_keys_set k v d : unique_keys d -> unique_keys (set k v d).
Proof.
  unfold unique_keys. intros U.
  destruct (mem k d) eqn:E.
  - now rewrite keys_set_in.
  - rewrite keys_set_new by assumption.
    apply NoDup_app; [assumption | repeat constructor; intros [] | ].
    intros x Hx [Ex|[]]. subst x. unfold mem in E.
    destruct (lookup k d) eqn:L; [discriminate|].
    now apply lookup_none_not_in in L.
Qed.

(** Setting a key to the value it already has changes nothing. *)
Lemma set_same k v d : lookup k d = Some v -> set k v d = d.
Proof.
  induction d as [|[k' v'] d IH]; simpl; [discriminate|].
  destruct (String.eqb_spec k k') as [->|N].
  - now intros [= ->].
  - intros H. now rewrite IH.
Qed.

(** A new key goes last. *)
Lemma set_fresh k v d : lookup k d = None -> set k v d = d ++ [(k, v)].
Proof.
  induction d as [|[k' v'] d IH]; cbn; [reflexivity|].
  destruct (String.eqb k k'); [discriminate|]. intros L. now rewrite IH.
Qed.

End Assoc.

End DictFacts.

(** ** Deep merge *)

Module MergeFacts.
Import ConfigMerger DictFacts.

Lemma deep_merge_nil (base : dict) : _deep_merge base [] = base.
Proof. reflexivity. Qed.

Lemma deep_merge_cons (base : dict) key value rest :
  _deep_merge base ((key, value) :: rest)
  = _deep_merge (merge_item base key value) rest.
Proof.
  unfold _deep_merge, merge_item. simpl.
  destruct (lookup key base) as [[]|]; destruct value; reflexivity.
Qed.

Lemma lookup_merge_item k result key value :
  lookup k (merge_item result key value)
  = if String.eqb k key
    then match lookup key result, value with
         | Some (VDict sub), VDict o => Some (VDict (_deep_merge sub o))
         | _, _ => Some value
         end
    else lookup k result.
Proof.
  unfold merge_item.
  destruct (lookup key result) as [[]|]; destruct value;
    rewrite lookup_set; reflexivity.
Qed.

Lemma lookup_deep_merge_absent (override base : dict) k :
  lookup k override = None ->
  lookup k (_deep_merge base override) = lookup k base.
Proof.
  revert base. induction override as [|[key value] rest IH]; intros base H.
  - reflexivity.
  - simpl in H. destruct (String.eqb k key) eqn:E; [discriminate|].
    rewrite deep_merge_cons, IH by assumption.
    now rewrite lookup_merge_item, E.
Qed.

(** The entry of the merge under a key the override holds. *)
Lemma lookup_deep_merge_present (override base : dict) k v :
  unique_keys override ->
  lookup k override = Some v ->
  lookup k (_deep_merge base override)
  = match lookup k base, v with
    | Some (VDict sub), VDict o => Some (VDict (_deep_merge sub o))
    | _, _ => Some v
    end.
Proof.
  revert base. induction override as [|[key value] rest IH]; intros base U H.
  - discriminate.
  - unfold unique_keys in U. simpl in U. inversion U as [|? ? Hnot U']; subst.
    simpl in H. rewrite deep_merge_cons.
    destruct (String.eqb_spec k key) as [->|N].
    + injection H as ->.
      rewrite lookup_deep_merge_absent by now apply lookup_none_not_in.
      now rewrite lookup_merge_item, String.eqb_refl.
    + rewrite IH by assumption.
      rewrite lookup_merge_item.
      apply String.eqb_neq in N. now rewrite N.
Qed.

Lemma unique_deep_lookup (d : dict) k v :
  unique_deep (VDict d) -> lookup k d = Some v -> unique_deep v.
Proof.
  intros [_ H]. induction d as [|[k' v'] d IH]; simpl; [discriminate|].
  destruct H as [Hv Hd]. destruct (String.eqb k k').
  - now intros [= <-].
  - now apply IH.
Qed.

Lemma unique_deep_keys (d : dict) : unique_deep (VDict d) -> unique_keys d.
Proof. now intros [U _]. Qed.

(** Where both sides hold dicts along a path, the merge holds there the
    merge of the two. *)
Lemma descend_deep_merge path : forall (A B a b : dict),
  unique_deep (VDict B) ->
  descend path A = Some a -> descend path B = Some b ->
  descend path (_deep_merge A B) = Some (_deep_merge a b) /\ unique_deep (VDict b).
Proof.
  induction path as [|k rest IH]; intros A B a b U HA HB; cbn [descend] in *.
  - injection HA as <-. injection HB as <-. now split.
  - destruct (lookup k A) as [[| | | | | |a']|] eqn:LA; try discriminate.
    destruct (lookup k B) as [[| | | | | |b']|] eqn:LB; try discriminate.
    rewrite (lookup_deep_merge_present B A k _ (unique_deep_keys B U) LB), LA.
    apply IH; try assumption.
    exact (unique_deep_lookup B k _ U LB).
Qed.

(** C7.  Deep merge of a lower-priority map [A] and a higher-priority map
    [B], at every nesting level: wherever both hold dicts [a] and [b] along
    a path, the merge holds there a dict that, key by key, equals [a] on the
    keys [b] lacks, equals [b] on the keys only [b] has, is the recursive
    deep merge where both hold a dict, and is [b]'s value outright where one
    holds a dict and the other does not. *)
Theorem deep_merge_every_level (A B : dict) (path : list string) (a b : dict)
  (k : string) :
  unique_deep (VDict B) ->
  descend path A = Some a ->
  descend path B = Some b ->
  exists m,
    descend path (_deep_merge A B) = Some m /\
    (lookup k b = None -> lookup k m = lookup k a) /\
    (forall v, lookup k a = None -> lookup k b = Some v -> lookup k m = Some v) /\
    (forall a' b', lookup k a = Some (VDict a') -> lookup k b = Some (VDict b') ->
       lookup k m = Some (VDict (_deep_merge a' b'))) /\
    (forall u v, lookup k a = Some u -> lookup k b = Some v ->
       andb (is_dict u) (is_dict v) = false -> lookup k m = Some v).
Proof.
  intros U HA HB.
  destruct (descend_deep_merge path A B a b U HA HB) as [Hm Ub].
  exists (_deep_merge a b). split; [exact Hm|].
  pose proof (unique_deep_keys b Ub) as Ukeys.
  repeat split.
  - intros Hb. now apply lookup_deep_merge_absent.
  - intros v Ha Hb.
    rewrite (lookup_deep_merge_present b a k v Ukeys Hb), Ha. reflexivity.
  - intros a' b' Ha Hb.
    rewrite (lookup_deep_merge_present b a k _ Ukeys Hb), Ha. reflexivity.
  - intros u v Ha Hb Hshape.
    rewrite (lookup_deep_merge_present b a k v Ukeys Hb), Ha.
    destruct u, v; try reflexivity; discriminate.
Qed.

Definition layer_low : dict :=
  [("docker", VDict [("port", VInt 80); ("registry", VDict [("host", VStr "a")])]);
   ("app", VStr "scalar")].

Definition layer_high : dict :=
  [("docker", VDict [("registry", VDict [("user", VStr "u")]); ("port", VStr "8080")]);
   ("app", VDict [("name", VStr "x")])].

Ltac unique_deep_tac :=
  repeat match goal with
         | |- _ /\ _ => split
         | |- True => exact I
         | |- unique_keys _ => unfold unique_keys; simpl
         | |- NoDup _ => constructor
         | |- ~ In _ _ => simpl; intuition discriminate
         | |- unique_deep _ => simpl
         end.

Lemma deep_merge_every_level_witness :
  exists m,
    descend ["docker"] (_deep_merge layer_low layer_high) = Some m /\
    (lookup "registry"
       [("registry", VDict [("user", VStr "u")]); ("port", VStr "8080")] = None ->
     lookup "registry" m
     = lookup "registry"
         [("port", VInt 80); ("registry", VDict [("host", VStr "a")])]) /\
    (forall v,
       lookup "registry"
         [("port", VInt 80); ("registry", VDict [("host", VStr "a")])] = None ->
       lookup "registry"
         [("registry", VDict [("user", VStr "u")]); ("port", VStr "8080")] = Some v ->
       lookup "registry" m = Some v) /\
    (forall a' b',
       lookup "registry"
         [("port", VInt 80); ("registry", VDict [("host", VStr "a")])]
       = Some (VDict a') ->
       lookup "registry"
         [("registry", VDict [("user", VStr "u")]); ("port", VStr "8080")]
       = Some (VDict b') ->
       lookup "registry" m = Some (VDict (_deep_merge a' b'))) /\
    (forall u v,
       lookup "registry"
         [("port", VInt 80); ("registry", VDict [("host", VStr "a")])] = Some u ->
       lookup "registry"
         [("registry", VDict [("user", VStr "u")]); ("port", VStr "8080")] = Some v ->
       andb (is_dict u) (is_dict v) = false -> lookup "registry" m = Some v).
Proof.
  apply (deep_merge_every_level layer_low layer_high ["docker"]
           [("port", VInt 80); ("registry", VDict [("host", VStr "a")])]
           [("registry", VDict [("user", VStr "u")]); ("port", VStr "8080")]
           "registry").
  - unfold layer_high. unique_deep_tac.
  - reflexivity.
  - reflexivity.
Defined.

(** The merge on the two sample layers: nested dicts merged, a scalar over
    a dict and a dict over a scalar taken from the higher layer. *)
Example deep_merge_sample :
  _deep_merge layer_low layer_high
  = [("docker",
      VDict [("port", VStr "8080");
             ("registry", VDict [("host", VStr "a"); ("user", VStr "u")])]);
     ("app", VDict [("name", VStr "x")])].
Proof. reflexivity. Qed.

End MergeFacts.

(** ** Configuration resolution *)

Module ConfigFacts.
Import ConfigMerger DictFacts MergeFacts.

(** *** Inversion of the result monad *)

Lemma bind_ok {A B} (m : result A) (f : A -> result B) (b : B) :
  bind m f = Ok b -> exists a, m = Ok a /\ f a = Ok b.
Proof. destruct m as [a|e]; simpl; [eauto | discriminate]. Qed.

Ltac inv_bind H :=
  let x := fresh "x" in
  let Hx := fresh "Hx" in
  apply bind_ok in H; destruct H as (x & Hx & H).

(** *** Sections *)

Lemma lookup_ensure_section k key (config : dict) :
  lookup k (ensure_section key config)
  = if String.eqb k key then Some (get_d config key (VDict []))
    else lookup k config.
Proof.
  unfold ensure_section, mem, get_d.
  destruct (lookup key config) eqn:L.
  - destruct (String.eqb_spec k key) as [->|N]; [assumption | reflexivity].
  - rewrite lookup_set.
    destruct (String.eqb_spec k key) as [->|N]; reflexivity.
Qed.

Lemma unique_keys_ensure_section key (config : dict) :
  unique_keys config -> unique_keys (ensure_section key config).
Proof.
  unfold ensure_section. destruct (mem key config); [easy|].
  apply unique_keys_set.
Qed.

Lemma ensure_section_present key (config : dict) v :
  lookup key config = Some v -> ensure_section key config = config.
Proof. unfold ensure_section, mem. now intros ->. Qed.

Lemma with_section_unfold key config body :
  with_section key config body
  = bind (body (ensure_section key config) (get_d config key (VDict [])))
         (fun section => Ok (set key section (ensure_section key config))).
Proof.
  unfold with_section, py_getitem.
  now rewrite lookup_ensure_section, String.eqb_refl.
Qed.

Lemma with_section_ok key config body config' :
  with_section key config body = Ok config' ->
  exists section,
    body (ensure_section key config) (get_d config key (VDict [])) = Ok section /\
    config' = set key section (ensure_section key config).
Proof.
  rewrite with_section_unfold. intros H. inv_bind H.
  exists x. split; [assumption | congruence].
Qed.

Lemma lookup_with_section key config body config' k :
  with_section key config body = Ok config' ->
  k <> key -> lookup k config' = lookup k config.
Proof.
  intros H N. apply with_section_ok in H. destruct H as (s & _ & ->).
  rewrite lookup_set_neq by assumption.
  rewrite lookup_ensure_section.
  apply String.eqb_neq in N. now rewrite N.
Qed.

(** *** The environment layer *)

Lemma lookup_environment_overrides env (config : dict) k :
  k <> "build_info" ->
  lookup k (_add_environment_overrides env config) = lookup k config.
Proof.
  intros N. unfold _add_environment_overrides.
  destruct (getenv_truthy env "BUILD_BUILDNUMBER"); [|reflexivity].
  now apply lookup_set_neq.
Qed.

(** *** The source section *)

Definition source_dict (env : environ) (s : dict) : dict :=
  let s1 := set "repo_url"
              (getenv_or env "BUILD_REPOSITORY_URI" (get_d s "repo_url" (VStr ""))) s in
  let s2 := set "branch"
              (getenv_or env "BUILD_SOURCEBRANCHNAME" (get_d s1 "branch" (VStr "main")))
              s1 in
  set "commit_sha" (getenv_or env "BUILD_SOURCEVERSION" (VStr "")) s2.

Lemma source_values_dict env (s : dict) :
  source_values env (VDict s) = Ok (VDict (source_dict env s)).
Proof. reflexivity. Qed.

Lemma source_values_ok env v r :
  source_values env v = Ok r ->
  exists s, v = VDict s /\ r = VDict (source_dict env s).
Proof.
  destruct v; try discriminate.
  rewrite source_values_dict. intros [= <-]. eauto.
Qed.

(** The branch the merged config ends with: the environment's when set,
    else the one the layers gave, else [main]. *)
Definition branch_of (env : environ) (s : dict) : value :=
  getenv_or env "BUILD_SOURCEBRANCHNAME" (get_d s "branch" (VStr "main")).

Lemma lookup_branch_source_dict env s :
  lookup "branch" (source_dict env s) = Some (branch_of env s).
Proof.
  unfold source_dict, branch_of, get_d.
  rewrite lookup_set_neq by discriminate.
  rewrite lookup_set_eq.
  now rewrite (lookup_set_neq "branch" "repo_url") by discriminate.
Qed.

Lemma lookup_commit_sha_source_dict env s :
  lookup "commit_sha" (source_dict env s)
  = Some (getenv_or env "BUILD_SOURCEVERSION" (VStr "")).
Proof. unfold source_dict. apply lookup_set_eq. Qed.

Lemma lookup_repo_url_source_dict env s :
  lookup "repo_url" (source_dict env s)
  = Some (getenv_or env "BUILD_REPOSITORY_URI" (get_d s "repo_url" (VStr ""))).
Proof.
  unfold source_dict.
  rewrite !lookup_set_neq by discriminate. apply lookup_set_eq.
Qed.

(** *** The app section *)

Definition named_app (env : environ) (original_config : dict) (a : dict)
  : result dict :=
  if mem "name" a then Ok a
  else
    oname <- py_get (get_d original_config "app" (VDict [])) "name" VNone ;;
    low <- py_lower
             (py_or oname (getenv_or env "BUILD_REPOSITORY_NAME" (VStr "unknown-app"))) ;;
    Ok (set "name" (VStr (replace "_" "-" low)) a).

Definition framed_app (fw : string) (a : dict) : dict :=
  set "detected_framework" (VStr fw) (set "framework" (VStr fw) a).

Lemma app_values_dict env original_config fw (a : dict) :
  app_values env original_config fw (VDict a)
  = bind (named_app env original_config a)
         (fun a1 => Ok (VDict (framed_app fw a1))).
Proof.
  unfold app_values, named_app. simpl.
  destruct (mem "name" a); [reflexivity|].
  destruct (py_get _ "name" VNone) as [oname|e]; [simpl|reflexivity].
  destruct (py_lower _); reflexivity.
Qed.

Lemma named_app_has_name env original_config a a1 :
  named_app env original_config a = Ok a1 -> mem "name" a1 = true.
Proof.
  unfold named_app. destruct (mem "name" a) eqn:E.
  - now intros [= <-].
  - intros H. inv_bind H. inv_bind H. injection H as <-.
    now rewrite mem_set, String.eqb_refl.
Qed.

Lemma app_values_ok env original_config fw v r :
  app_values env original_config fw v = Ok r ->
  exists a a1, v = VDict a /\ named_app env original_config a = Ok a1 /\
               r = VDict (framed_app fw a1).
Proof.
  destruct v as [| | | | s | l | a].
  1-4: discriminate.
  - unfold app_values. simpl. destruct (is_substring "name" s); simpl.
    + discriminate.
    + destruct (py_get _ "name" VNone); [simpl|discriminate].
      destruct (py_lower _); discriminate.
  - unfold app_values. simpl. destruct (existsb (is_str "name") l); simpl.
    + discriminate.
    + destruct (py_get _ "name" VNone); [simpl|discriminate].
      destruct (py_lower _); discriminate.
  - rewrite app_values_dict. intros H. inv_bind H. injection H as <-. eauto.
Qed.

Lemma mem_framed_app fw a k :
  mem k (framed_app fw a)
  = orb (String.eqb k "detected_framework") (orb (String.eqb k "framework") (mem k a)).
Proof. unfold framed_app. now rewrite !mem_set. Qed.

Lemma app_name_of_dict (config : dict) (a : dict) n :
  lookup "app" config = Some (VDict a) -> lookup "name" a = Some n ->
  app_name_of config = Ok n.
Proof.
  intros L N. unfold app_name_of. cbn [py_getitem]. rewrite L.
  cbn [bind py_getitem]. now rewrite N.
Qed.

(** [app_name_of] reads the config through its app section alone. *)
Lemma app_name_of_ext (c1 c2 : dict) :
  lookup "app" c1 = lookup "app" c2 -> app_name_of c1 = app_name_of c2.
Proof. intros L. unfold app_name_of. cbn [py_getitem]. now rewrite L. Qed.

(** *** The docker section *)

Definition docker_dict_defaults (self : SmartConfigMerger) (env : environ)
  (config : dict) (d : dict) : result dict :=
  d1 <- (if mem "repository" d then Ok d
         else
           organization <-
             py_get (get_d (global_config self) "docker" (VDict [])) "organization"
                    (VStr "myorg") ;;
           Ok (set "repository" (getenv_or env "DOCKER_REPOSITORY" organization) d)) ;;
  if mem "image" d1 then Ok d1
  else name <- app_name_of config ;; Ok (set "image" name d1).

Lemma docker_defaults_dict self env config (d : dict) :
  docker_defaults self env config (VDict d)
  = bind (docker_dict_defaults self env config d) (fun d1 => Ok (VDict d1)).
Proof.
  unfold docker_defaults, docker_dict_defaults. simpl.
  destruct (mem "repository" d); simpl.
  - destruct (mem "image" d); [reflexivity|].
    destruct (app_name_of config); reflexivity.
  - destruct (py_get _ "organization" _); [simpl|reflexivity].
    destruct (mem "image" _); [reflexivity|].
    destruct (app_name_of config); reflexivity.
Qed.

Lemma docker_dict_defaults_ok self env config d d1 :
  docker_dict_defaults self env config d = Ok d1 ->
  mem "repository" d1 = true /\ mem "image" d1 = true.
Proof.
  unfold docker_dict_defaults. intros H. inv_bind H.
  assert (R : mem "repository" x = true).
  { destruct (mem "repository" d) eqn:E.
    - now injection Hx as <-.
    - inv_bind Hx. injection Hx as <-. now rewrite mem_set. }
  destruct (mem "image" x) eqn:E.
  - injection H as <-. now split.
  - inv_bind H. injection H as <-. rewrite !mem_set, R. now split.
Qed.

(** A non-dict docker section that gets through the defaults stays what it
    was. *)
Lemma docker_defaults_not_dict self env config v r :
  is_dict v = false -> docker_defaults self env config v = Ok r -> r = v.
Proof.
  intros Hv. unfold docker_defaults.
  destruct v as [| | | | s | l | d]; try discriminate; simpl.
  - destruct (is_substring "repository" s); simpl.
    + destruct (is_substring "image" s); simpl; [congruence|].
      destruct (app_name_of config); discriminate.
    + destruct (py_get _ "organization" _); discriminate.
  - destruct (existsb (is_str "repository") l); simpl.
    + destruct (existsb (is_str "image") l); simpl; [congruence|].
      destruct (app_name_of config); discriminate.
    + destruct (py_get _ "organization" _); discriminate.
Qed.

Section Tags.
Context `{Runtime}.

Definition ref_text (repository image tag : value) : string :=
  (py_str repository ++ "/" ++ py_str image ++ ":" ++ py_str tag)%string.

Definition tags_dict (env : environ) (repository image : value) (d : dict) : dict :=
  let tag := VStr ("v" ++ build_number_of env) in
  set "latest_image" (VStr (ref_text repository image (VStr "latest")))
    (set "full_image" (VStr (ref_text repository image tag))
       (set "tag" tag d)).

Lemma image_tags_dict env (d : dict) repository image :
  lookup "repository" d = Some repository ->
  lookup "image" d = Some image ->
  image_tags env (VDict d) = Ok (VDict (tags_dict env repository image d)).
Proof.
  intros R I. unfold image_tags, image_ref, tags_dict, ref_text. simpl.
  rewrite lookup_set_eq. simpl.
  rewrite !(lookup_set_neq "repository" "tag"), R by discriminate. simpl.
  rewrite !(lookup_set_neq "image" "tag"), I by discriminate. simpl.
  rewrite !(lookup_set_neq "repository" "full_image") by discriminate.
  rewrite !(lookup_set_neq "repository" "tag"), R by discriminate. simpl.
  rewrite !(lookup_set_neq "image" "full_image") by discriminate.
  rewrite !(lookup_set_neq "image" "tag"), I by discriminate. reflexivity.
Qed.

Lemma image_tags_ok env v r :
  image_tags env v = Ok r ->
  exists d repository image,
    v = VDict d /\ lookup "repository" d = Some repository /\
    lookup "image" d = Some image /\
    r = VDict (tags_dict env repository image d).
Proof.
  destruct v as [| | | | | | d]; try discriminate.
  destruct (lookup "repository" d) as [repository|] eqn:R.
  - destruct (lookup "image" d) as [image|] eqn:I.
    + rewrite (image_tags_dict env d repository image R I). intros [= <-]. eauto 7.
    + unfold image_tags, image_ref. simpl. rewrite lookup_set_eq. simpl.
      rewrite !(lookup_set_neq "repository" "tag"), R by discriminate. simpl.
      rewrite !(lookup_set_neq "image" "tag"), I by discriminate. discriminate.
  - unfold image_tags, image_ref. simpl. rewrite lookup_set_eq. simpl.
    rewrite !(lookup_set_neq "repository" "tag"), R by discriminate. discriminate.
Qed.

Lemma lookup_tags_dict env repository image d k :
  lookup k (tags_dict env repository image d)
  = if String.eqb k "latest_image"
    then Some (VStr (ref_text repository image (VStr "latest")))
    else if String.eqb k "full_image"
    then Some (VStr (ref_text repository image (VStr ("v" ++ build_number_of env))))
    else if String.eqb k "tag" then Some (VStr ("v" ++ build_number_of env))
    else lookup k d.
Proof. unfold tags_dict. now rewrite !lookup_set. Qed.

End Tags.

(** *** The deployment section *)

Definition deployment_dict (config : dict) (p : dict) : result dict :=
  p1 <- (if mem "namespace" p then Ok p
         else name <- app_name_of config ;; Ok (set "namespace" name p)) ;;
  if mem "environment" p1 then Ok p1
  else
    source_config <- py_getitem (VDict config) "source" ;;
    branch <- py_get source_config "branch" (VStr "unknown") ;;
    Ok (set "environment" (VStr (environment_for_branch branch)) p1).

Lemma deployment_values_dict config (p : dict) :
  deployment_values config (VDict p)
  = bind (deployment_dict config p) (fun p1 => Ok (VDict p1)).
Proof.
  unfold deployment_values, deployment_dict. simpl.
  destruct (mem "namespace" p); simpl.
  - destruct (mem "environment" p); [reflexivity|].
    destruct (lookup "source" config) as [sc|]; [simpl|reflexivity].
    destruct (py_get sc "branch" _); reflexivity.
  - destruct (app_name_of config); [simpl|reflexivity].
    destruct (mem "environment" _); [reflexivity|].
    destruct (lookup "source" config) as [sc|]; [simpl|reflexivity].
    destruct (py_get sc "branch" _); reflexivity.
Qed.

(** A deployment section that is no dict gets through only when it already
    answers both membership tests (a string or list naming both keys), and
    then stays what it was. *)
Lemma deployment_values_ok config v r :
  deployment_values config v = Ok r ->
  (exists p p1, v = VDict p /\ deployment_dict config p = Ok p1 /\ r = VDict p1)
  \/ (is_dict v = false /\ r = v).
Proof.
  destruct v as [| | | | s | l | p].
  1-4: discriminate.
  - unfold deployment_values. simpl.
    destruct (is_substring "namespace" s); simpl.
    + destruct (is_substring "environment" s); simpl.
      * intros [= <-]. now right.
      * destruct (lookup "source" config) as [sc|]; [simpl|discriminate].
        destruct (py_get sc "branch" _); discriminate.
    + destruct (app_name_of config); discriminate.
  - unfold deployment_values. simpl.
    destruct (existsb (is_str "namespace") l); simpl.
    + destruct (existsb (is_str "environment") l); simpl.
      * intros [= <-]. now right.
      * destruct (lookup "source" config) as [sc|]; [simpl|discriminate].
        destruct (py_get sc "branch" _); discriminate.
    + destruct (app_name_of config); discriminate.
  - rewrite deployment_values_dict. intros H. inv_bind H.
    injection H as <-. left. eauto.
Qed.

Lemma deployment_dict_ok config p p1 :
  deployment_dict config p = Ok p1 ->
  mem "namespace" p1 = true /\ mem "environment" p1 = true.
Proof.
  unfold deployment_dict. intros H. inv_bind H.
  assert (N : mem "namespace" x = true).
  { destruct (mem "namespace" p) eqn:E.
    - now injection Hx as <-.
    - inv_bind Hx. injection Hx as <-. now rewrite mem_set. }
  destruct (mem "environment" x) eqn:E.
  - injection H as <-. now split.
  - inv_bind H. inv_bind H. injection H as <-. rewrite !mem_set, N. now split.
Qed.

(** *** Totality on well-shaped layers *)

Lemma with_section_total key config body r :
  body (ensure_section key config) (get_d config key (VDict [])) = Ok r ->
  with_section key config body = Ok (set key r (ensure_section key config)).
Proof. intros Hb. now rewrite with_section_unfold, Hb. Qed.

Lemma lookup_after_section key (config : dict) r k :
  lookup k (set key r (ensure_section key config))
  = if String.eqb k key then Some r else lookup k config.
Proof.
  rewrite lookup_set, lookup_ensure_section. now destruct (String.eqb k key).
Qed.

Lemma is_section_get_d (d : dict) key :
  is_section d key = true ->
  exists s, get_d d key (VDict []) = VDict s /\
            (lookup key d = Some (VDict s) \/ (lookup key d = None /\ s = [])).
Proof.
  unfold is_section, get_d. destruct (lookup key d) as [v|].
  - destruct v; try discriminate. eauto.
  - eauto.
Qed.

Lemma has_key_get_d (d : dict) section key s :
  get_d d section (VDict []) = VDict s ->
  has_key d section key = mem key s.
Proof.
  unfold has_key, get_d. destruct (lookup section d) as [v|].
  - now intros ->.
  - now intros [= <-].
Qed.

Lemma named_app_total env original_config a :
  orb (mem "name" a) (name_source_ok original_config) = true ->
  exists a1, named_app env original_config a = Ok a1.
Proof.
  unfold named_app. destruct (mem "name" a); [eauto|]. simpl.
  unfold name_source_ok.
  destruct (get_d original_config "app" (VDict [])) as [| | | | | |oa];
    try discriminate.
  simpl. unfold py_or, getenv_or.
  destruct (get_d oa "name" VNone) as [|b|n|f|s|l|d]; simpl;
    try (destruct (env "BUILD_REPOSITORY_NAME"); simpl; eauto; fail).
  - destruct b; [discriminate|].
    destruct (env "BUILD_REPOSITORY_NAME"); simpl; eauto.
  - destruct (Z.eqb n 0); [|discriminate].
    destruct (env "BUILD_REPOSITORY_NAME"); simpl; eauto.
  - destruct (PrimFloat.eqb f 0); [|discriminate].
    destruct (env "BUILD_REPOSITORY_NAME"); simpl; eauto.
  - destruct (String.eqb s ""); simpl; eauto.
    destruct (env "BUILD_REPOSITORY_NAME"); simpl; eauto.
  - destruct l; [|discriminate].
    destruct (env "BUILD_REPOSITORY_NAME"); simpl; eauto.
  - destruct d; [|discriminate].
    destruct (env "BUILD_REPOSITORY_NAME"); simpl; eauto.
Qed.

Lemma docker_dict_defaults_total self env config d n :
  orb (mem "repository" d) (is_section (global_config self) "docker") = true ->
  app_name_of config = Ok n ->
  exists d1, docker_dict_defaults self env config d = Ok d1.
Proof.
  intros Hr Hn. unfold docker_dict_defaults.
  destruct (mem "repository" d); simpl.
  - destruct (mem "image" d); [eauto|]. rewrite Hn. simpl. eauto.
  - simpl in Hr. apply is_section_get_d in Hr. destruct Hr as (g & -> & _).
    simpl. destruct (mem "image" _); [eauto|]. rewrite Hn. simpl. eauto.
Qed.

Lemma mem_lookup {A} k (d : list (string * A)) :
  mem k d = true -> exists v, lookup k d = Some v.
Proof. unfold mem. destruct (lookup k d); [eauto | discriminate]. Qed.

Lemma mem_false_lookup {A} k (d : list (string * A)) :
  mem k d = false <-> lookup k d = None.
Proof. unfold mem. destruct (lookup k d); split; congruence. Qed.

(** The mapping itself, on every branch value. *)
Lemma environment_for_branch_cases (branch : value) :
  (branch = VStr "main" \/ branch = VStr "master" ->
   environment_for_branch branch = "production") /\
  (branch = VStr "develop" -> environment_for_branch branch = "staging") /\
  (branch <> VStr "main" -> branch <> VStr "master" -> branch <> VStr "develop" ->
   environment_for_branch branch = "development").
Proof.
  repeat split.
  - intros [-> | ->]; reflexivity.
  - intros ->; reflexivity.
  - intros N1 N2 N3. unfold environment_for_branch, is_str.
    destruct branch as [| | | | s | |]; try reflexivity.
    destruct (String.eqb_spec s "main") as [->|_]; [congruence|].
    destruct (String.eqb_spec s "master") as [->|_]; [congruence|].
    destruct (String.eqb_spec s "develop") as [->|_]; [congruence|].
    reflexivity.
Qed.

Section MergeConfig.
Context `{Runtime}.
Variables (self : SmartConfigMerger) (env : environ) (app_config : dict)
  (fw : string).

(** What [merge_config] returns on well-shaped layers, section by section. *)
Lemma merge_config_sections :
  well_shaped self app_config fw = true ->
  exists cfg a s0 d p p1,
    merge_config self env app_config fw = Ok cfg /\
    get_d (merged_layers self app_config fw) "source" (VDict []) = VDict s0 /\
    get_d (merged_layers self app_config fw) "deployment" (VDict []) = VDict p /\
    lookup "app" cfg = Some (VDict a) /\ mem "name" a = true /\
    lookup "source" cfg = Some (VDict (source_dict env s0)) /\
    lookup "docker" cfg = Some (VDict d) /\
    lookup "deployment" cfg = Some (VDict p1) /\
    deployment_dict
      (ensure_section "deployment"
         (set "docker" (VDict d)
            (ensure_section "docker"
               (set "source" (VDict (source_dict env s0))
                  (ensure_section "source"
                     (set "app" (VDict a)
                        (ensure_section "app"
                           (_add_environment_overrides env
                              (merged_layers self app_config fw)))))))))
      p = Ok p1.
Proof.
  unfold well_shaped. cbv zeta. set (L := merged_layers self app_config fw).
  intros W.
  apply andb_prop in W; destruct W as [W Hrepo].
  apply andb_prop in W; destruct W as [W Hname].
  apply andb_prop in W; destruct W as [W Hdep].
  apply andb_prop in W; destruct W as [W Hdock].
  apply andb_prop in W; destruct W as [W Hsrc].
  set (L' := _add_environment_overrides env L).
  assert (E : forall k, k <> "build_info" -> lookup k L' = lookup k L)
    by (intros; now apply lookup_environment_overrides).
  assert (G : forall k, k <> "build_info" ->
                        get_d L' k (VDict []) = get_d L k (VDict [])).
  { intros k N. unfold get_d. now rewrite E. }
  apply is_section_get_d in W. destruct W as (a0 & Ha0 & _).
  apply is_section_get_d in Hsrc. destruct Hsrc as (s0 & Hs0 & _).
  apply is_section_get_d in Hdock. destruct Hdock as (d0 & Hd0 & _).
  apply is_section_get_d in Hdep. destruct Hdep as (p0 & Hp0 & _).
  rewrite (has_key_get_d L "app" "name" a0 Ha0) in Hname.
  rewrite (has_key_get_d L "docker" "repository" d0 Hd0) in Hrepo.
  destruct (named_app_total env app_config a0 Hname) as (a1 & Ha1).
  (* app *)
  set (c1 := set "app" (VDict (framed_app fw a1)) (ensure_section "app" L')).
  assert (S1 : with_section "app" L' (fun _ => app_values env app_config fw) = Ok c1).
  { apply with_section_total. rewrite G, Ha0 by discriminate.
    now rewrite app_values_dict, Ha1. }
  assert (N1 : mem "name" (framed_app fw a1) = true).
  { rewrite mem_framed_app, (named_app_has_name env app_config a0 a1 Ha1).
    now rewrite !orb_true_r. }
  (* source *)
  set (c2 := set "source" (VDict (source_dict env s0)) (ensure_section "source" c1)).
  assert (Gs : get_d c1 "source" (VDict []) = VDict s0).
  { unfold get_d, c1. rewrite lookup_after_section. simpl.
    fold (get_d L' "source" (VDict [])). now rewrite G by discriminate. }
  assert (S2 : with_section "source" c1 (fun _ => source_values env) = Ok c2).
  { apply with_section_total. now rewrite Gs. }
  (* docker *)
  assert (Gd : get_d c2 "docker" (VDict []) = VDict d0).
  { unfold get_d, c2, c1. rewrite !lookup_after_section. simpl.
    fold (get_d L' "docker" (VDict [])). now rewrite G by discriminate. }
  destruct (mem_lookup "name" (framed_app fw a1) N1) as (n & Hn).
  assert (A2 : app_name_of (ensure_section "docker" c2) = Ok n).
  { apply app_name_of_dict with (a := framed_app fw a1); [|exact Hn].
    rewrite lookup_ensure_section. simpl. unfold c2, c1.
    now rewrite !lookup_after_section. }
  destruct (docker_dict_defaults_total self env (ensure_section "docker" c2)
              d0 n Hrepo A2) as (d1 & Hd1).
  destruct (docker_dict_defaults_ok self env _ d0 d1 Hd1) as (R1 & I1).
  destruct (mem_lookup _ _ R1) as (repository & HR).
  destruct (mem_lookup _ _ I1) as (image & HI).
  set (d2 := tags_dict env repository image d1).
  set (c3 := set "docker" (VDict d2) (ensure_section "docker" c2)).
  assert (S3 : with_section "docker" c2
                 (fun config docker_config =>
                    bind (docker_defaults self env config docker_config)
                         (fun x => image_tags env x)) = Ok c3).
  { apply with_section_total. rewrite Gd, docker_defaults_dict, Hd1. simpl.
    now apply image_tags_dict. }
  (* deployment *)
  assert (Gp : get_d c3 "deployment" (VDict []) = VDict p0).
  { unfold get_d, c3, c2, c1. rewrite !lookup_after_section. simpl.
    fold (get_d L' "deployment" (VDict [])). now rewrite G by discriminate. }
  assert (A3 : app_name_of (ensure_section "deployment" c3) = Ok n).
  { apply app_name_of_dict with (a := framed_app fw a1); [|exact Hn].
    rewrite lookup_ensure_section. simpl. unfold c3, c2, c1.
    now rewrite !lookup_after_section. }
  assert (Src : lookup "source" (ensure_section "deployment" c3)
                = Some (VDict (source_dict env s0))).
  { rewrite lookup_ensure_section. simpl. unfold c3, c2.
    now rewrite !lookup_after_section. }
  assert (P : exists p1, deployment_dict (ensure_section "deployment" c3) p0 = Ok p1).
  { unfold deployment_dict. rewrite A3.
    destruct (mem "namespace" p0); simpl;
      (destruct (mem "environment" _); [eauto|]);
      rewrite Src; simpl; eauto. }
  destruct P as (p1 & Hp1).
  exists (set "deployment" (VDict p1) (ensure_section "deployment" c3)).
  exists (framed_app fw a1), s0, d2, p0, p1.
  split.
  { unfold merge_config, _add_auto_detected_values. fold L. fold L'.
    rewrite S1. cbn [bind]. rewrite S2. cbn [bind]. rewrite S3. cbn [bind].
    apply with_section_total. rewrite Gp, deployment_values_dict, Hp1.
    reflexivity. }
  split; [exact Hs0|]. split; [exact Hp0|].
  unfold c3, c2, c1. rewrite !lookup_after_section. simpl.
  repeat split; try reflexivity; try assumption.
Qed.

Lemma not_provided_environment (L p : dict) :
  get_d L "deployment" (VDict []) = VDict p ->
  lookup_path ["deployment"; "environment"] L = None ->
  lookup "environment" p = None.
Proof.
  unfold get_d. cbn [lookup_path].
  destruct (lookup "deployment" L) as [v|].
  - now intros ->.
  - now intros [= <-].
Qed.

(** C10.  When the merged layers give no [deployment.environment],
    [merge_config] returns a config whose [deployment.environment] follows
    from its [source.branch]: [main] or [master] gives [production],
    [develop] gives [staging], any other branch gives [development]. *)
Theorem environment_from_branch :
  well_shaped self app_config fw = true ->
  lookup_path ["deployment"; "environment"] (merged_layers self app_config fw) = None ->
  exists cfg branch environment,
    merge_config self env app_config fw = Ok cfg /\
    lookup_path ["source"; "branch"] cfg = Some branch /\
    lookup_path ["deployment"; "environment"] cfg = Some (VStr environment) /\
    (branch = VStr "main" \/ branch = VStr "master" -> environment = "production") /\
    (branch = VStr "develop" -> environment = "staging") /\
    (branch <> VStr "main" -> branch <> VStr "master" -> branch <> VStr "develop" ->
     environment = "development").
Proof.
  intros W Hnone.
  destruct (merge_config_sections W)
    as (cfg & a & s0 & d & p & p1 & Hm & Hs0 & Hp & La & Na & Ls & Ld & Lp & Hdep).
  pose proof (not_provided_environment _ p Hp Hnone) as He.
  exists cfg, (branch_of env s0), (environment_for_branch (branch_of env s0)).
  split; [exact Hm|].
  split.
  { cbn [lookup_path]. rewrite Ls. apply lookup_branch_source_dict. }
  split.
  { cbn [lookup_path]. rewrite Lp.
    unfold deployment_dict in Hdep. inv_bind Hdep.
    assert (Ex : mem "environment" x = false).
    { destruct (mem "namespace" p).
      - injection Hx as <-. now apply mem_false_lookup.
      - inv_bind Hx. injection Hx as <-. rewrite mem_set. simpl.
        now apply mem_false_lookup. }
    rewrite Ex in Hdep. cbn [py_getitem] in Hdep.
    rewrite lookup_ensure_section in Hdep. cbn [String.eqb Ascii.eqb Bool.eqb] in Hdep.
    rewrite !lookup_after_section in Hdep. cbn in Hdep.
    unfold get_d in Hdep. rewrite lookup_branch_source_dict in Hdep.
    injection Hdep as <-. apply lookup_set_eq. }
  apply environment_for_branch_cases.
Qed.

(** The three source entries of the merged config, against what the layers
    held: [repo_url] and [branch] fall back to the layers' value when their
    variable is unset; [commit_sha] is the variable's value or the empty
    string, whatever the layers held. *)
Lemma source_entries :
  well_shaped self app_config fw = true ->
  exists cfg s0,
    merge_config self env app_config fw = Ok cfg /\
    get_d (merged_layers self app_config fw) "source" (VDict []) = VDict s0 /\
    lookup_path ["source"; "repo_url"] cfg
    = Some (getenv_or env "BUILD_REPOSITORY_URI" (get_d s0 "repo_url" (VStr ""))) /\
    lookup_path ["source"; "branch"] cfg
    = Some (getenv_or env "BUILD_SOURCEBRANCHNAME" (get_d s0 "branch" (VStr "main"))) /\
    lookup_path ["source"; "commit_sha"] cfg
    = Some (getenv_or env "BUILD_SOURCEVERSION" (VStr "")).
Proof.
  intros W.
  destruct (merge_config_sections W)
    as (cfg & a & s0 & d & p & p1 & Hm & Hs0 & Hp & La & Na & Ls & Ld & Lp & Hdep).
  exists cfg, s0. split; [exact Hm|]. split; [exact Hs0|].
  cbn [lookup_path]. rewrite Ls.
  rewrite lookup_repo_url_source_dict, lookup_branch_source_dict,
    lookup_commit_sha_source_dict.
  repeat split.
Qed.

End MergeConfig.

(** A runtime for the examples: they format strings only. *)
Definition plain_runtime : Runtime := {| repr_compound := fun _ => "" |}.

Definition no_layers : SmartConfigMerger :=
  {| global_config := []; framework_defaults := [] |}.

Definition local_env : environ := fun _ => None.

Lemma environment_from_branch_witness :
  exists cfg branch environment,
    merge_config (H := plain_runtime) no_layers local_env
      [("source", VDict [("branch", VStr "develop")])] "react" = Ok cfg /\
    lookup_path ["source"; "branch"] cfg = Some branch /\
    lookup_path ["deployment"; "environment"] cfg = Some (VStr environment) /\
    (branch = VStr "main" \/ branch = VStr "master" -> environment = "production") /\
    (branch = VStr "develop" -> environment = "staging") /\
    (branch <> VStr "main" -> branch <> VStr "master" -> branch <> VStr "develop" ->
     environment = "development").
Proof.
  apply (environment_from_branch (H := plain_runtime) no_layers local_env
           [("source", VDict [("branch", VStr "develop")])] "react");
    reflexivity.
Defined.

(** C9, at an input where it fails: the layers hold a [commit_sha], the
    source-version variable is unset, and the merged config holds the empty
    string in its place, while [repo_url] and [branch] keep the layers'
    values. *)
Theorem commit_sha_not_preserved :
  let app_config :=
    [("source", VDict [("repo_url", VStr "https://example.org/r.git");
                       ("branch", VStr "develop");
                       ("commit_sha", VStr "abc123")])] in
  exists cfg,
    merge_config (H := plain_runtime) no_layers local_env app_config "react" = Ok cfg /\
    lookup_path ["source"; "commit_sha"] (merged_layers no_layers app_config "react")
    = Some (VStr "abc123") /\
    lookup_path ["source"; "repo_url"] cfg = Some (VStr "https://example.org/r.git") /\
    lookup_path ["source"; "branch"] cfg = Some (VStr "develop") /\
    lookup_path ["source"; "commit_sha"] cfg = Some (VStr "").
Proof. cbv zeta. eexists. repeat split. Qed.

(** The three branches of the specification's scenario. *)
Example branch_mapping_scenario :
  forall branch environment,
    In (branch, environment)
       [("develop", "staging"); ("feature/x", "development"); ("main", "production")] ->
    option_map (lookup_path ["deployment"; "environment"])
      (match merge_config (H := plain_runtime) no_layers local_env
               [("source", VDict [("branch", VStr branch)])] "react" with
       | Ok cfg => Some cfg
       | Raise _ => None
       end)
    = Some (Some (VStr environment)).
Proof.
  intros branch environment [E|[E|[E|[]]]]; injection E as <- <-; reflexivity.
Qed.

(** *** Validation *)

(** Every config whose [deployment.resources] is a dict holding both
    [limits] and [requests] makes [validate_config] raise. *)
Lemma validate_config_resources_raise (config deployment resources : dict) :
  is_section config "app" = true ->
  is_section config "docker" = true ->
  lookup "deployment" config = Some (VDict deployment) ->
  lookup "resources" deployment = Some (VDict resources) ->
  mem "limits" resources = true ->
  mem "requests" resources = true ->
  validate_config config = Raise (mk_exn NameError "name 'both' is not defined").
Proof.
  intros Ha Hd Ldep Lres Hl Hr.
  apply is_section_get_d in Ha. destruct Ha as (a & Ga & _).
  apply is_section_get_d in Hd. destruct Hd as (d & Gd & _).
  unfold validate_config. rewrite Ga, Gd. cbn [py_get bind].
  unfold resource_warnings, mem. rewrite Ldep. cbn [py_getitem py_in bind].
  rewrite Ldep. cbn [bind py_in]. unfold mem at 1. rewrite Lres.
  cbn [bind py_getitem]. rewrite Lres. cbn [bind py_in]. rewrite Hl, Hr.
  destruct (mem_lookup _ _ Hl) as (l & Ll).
  destruct (mem_lookup _ _ Hr) as (r & Lr).
  cbn [bind py_getitem]. rewrite Ll. cbn [bind]. rewrite Lr. reflexivity.
Qed.

(** Without a resources block holding both maps, validation returns the
    config with its [validation] section. *)
Lemma validate_config_plain (config : dict) :
  is_section config "app" = true ->
  is_section config "docker" = true ->
  lookup "deployment" config = None ->
  exists errors,
    validate_config config
    = Ok (set "validation"
            (VDict [("errors", VList (map VStr errors));
                    ("warnings", VList []);
                    ("valid", VBool (Nat.eqb (List.length errors) 0))])
            config).
Proof.
  intros Ha Hd Ldep.
  apply is_section_get_d in Ha. destruct Ha as (a & Ga & _).
  apply is_section_get_d in Hd. destruct Hd as (d & Gd & _).
  unfold validate_config. rewrite Ga, Gd. cbn [py_get bind].
  unfold resource_warnings, mem. rewrite Ldep. cbn [bind map]. eauto.
Qed.

(** C2, at an input where it fails: a config with a name, a repository and
    a resources block holding limits and requests.  [validate_config]
    raises [NameError] there and returns no annotated config. *)
Theorem validate_config_raises :
  validate_config
    [("app", VDict [("name", VStr "shop")]);
     ("docker", VDict [("repository", VStr "myorg")]);
     ("deployment",
       VDict [("resources",
                VDict [("limits", VDict [("cpu", VStr "500m"); ("memory", VStr "512Mi")]);
                       ("requests", VDict [("cpu", VStr "250m"); ("memory", VStr "256Mi")])])])]
  = Raise (mk_exn NameError "name 'both' is not defined").
Proof. reflexivity. Qed.

End ConfigFacts.

(** ** Orchestration *)

Module OrchestratorFacts.
Import ConfigMerger FrameworkDetector Orchestrator DictFacts ConfigFacts.

(** The stages a computation invoked, given the run so far. *)
Definition ran {A} (m : M A) (st : state) (stages : list stage) : Prop :=
  invoked (snd (m st)) = invoked st ++ stages.

Definition returned {A} (m : M A) (st : state) (a : A) : Prop :=
  fst (m st) = Ok a.

Section Process.
Context `{Runtime} `{World}.

Lemma succeeded_failure e duration : succeeded (failure e duration) = false.
Proof. reflexivity. Qed.

(** [process_repository] raises nothing: it returns a dict, and a failure
    dict whenever its body raised. *)
Lemma process_repository_returns repo config st :
  exists r, returned (process_repository repo config) st r.
Proof.
  unfold returned, process_repository.
  unfold bindM at 1 2. unfold put_config, time_time, try_except.
  match goal with
  | |- context [match ?body ?s with _ => _ end] => destruct (body s) as [[r|e] st']
  end; cbn; eauto.
Qed.

(** The closing steps of the two proofs below: the result at hand is a
    failure dict, and the stages invoked are the ones named. *)
Ltac failure_result :=
  split; [reflexivity|];
  split; [reflexivity|];
  split; [eexists; reflexivity|];
  split; [reflexivity|];
  split; [reflexivity|].

(** C5.  When the Build stage returns a result whose [success] is false,
    [process_repository] returns a failure result, a dict whose [success]
    is [False] and whose [error] is a message, and the run invokes no
    Container stage. *)
Theorem build_failure_stops repo config st build_result config' flag :
  build_run config repo = Ok (build_result, config') ->
  py_getitem build_result "success" = Ok flag ->
  truthy flag = false ->
  exists r stages,
    returned (process_repository repo config) st r /\
    lookup "success" r = Some (VBool false) /\
    (exists message, lookup "error" r = Some (VStr message)) /\
    succeeded r = false /\
    ran (process_repository repo config) st stages /\
    ~ In Container stages.
Proof.
  intros Hb Hs Hf.
  unfold returned, ran, process_repository, check_repo_exists, call_build,
    call_docker, check_stage, bindM, try_except, put_config, get_config,
    record_stage, time_time, lift, ret.
  cbn.
  destruct (repo_exists repo); cbn.
  2:{ eexists _, []. rewrite app_nil_r. failure_result. intros []. }
  destruct (py_get config "success" (VBool true)) as [s|e]; cbn.
  2:{ eexists _, []. rewrite app_nil_r. failure_result. intros []. }
  destruct (truthy s); cbn.
  2:{ eexists _, []. rewrite app_nil_r. failure_result. intros []. }
  destruct (py_getitem config "app") as [app|e]; cbn.
  2:{ eexists _, []. rewrite app_nil_r. failure_result. intros []. }
  destruct (py_getitem app "name") as [name|e]; cbn.
  2:{ eexists _, []. rewrite app_nil_r. failure_result. intros []. }
  destruct (py_getitem app "framework") as [framework|e]; cbn.
  2:{ eexists _, []. rewrite app_nil_r. failure_result. intros []. }
  rewrite Hb. cbn. rewrite Hs. cbn. rewrite Hf. cbn.
  destruct (py_get build_result "error" _) as [err|e]; cbn;
    (eexists _, [Build]; failure_result; intros [E|[]]; discriminate).
Qed.

(** When the Build stage raises, as [smart_build.run] does on a failed
    command, the outcome is the same. *)
Lemma build_raise_stops repo config st e :
  build_run config repo = Raise e ->
  exists r stages,
    returned (process_repository repo config) st r /\
    succeeded r = false /\
    ran (process_repository repo config) st stages /\
    ~ In Container stages.
Proof.
  intros Hb.
  unfold returned, ran, process_repository, check_repo_exists, call_build,
    call_docker, check_stage, bindM, try_except, put_config, get_config,
    record_stage, time_time, lift, ret.
  cbn.
  destruct (repo_exists repo); cbn.
  2:{ eexists _, []. rewrite app_nil_r. repeat split. intros []. }
  destruct (py_get config "success" (VBool true)) as [s|e']; cbn.
  2:{ eexists _, []. rewrite app_nil_r. repeat split. intros []. }
  destruct (truthy s); cbn.
  2:{ eexists _, []. rewrite app_nil_r. repeat split. intros []. }
  destruct (py_getitem config "app") as [app|e']; cbn.
  2:{ eexists _, []. rewrite app_nil_r. repeat split. intros []. }
  destruct (py_getitem app "name") as [name|e']; cbn.
  2:{ eexists _, []. rewrite app_nil_r. repeat split. intros []. }
  destruct (py_getitem app "framework") as [framework|e']; cbn.
  2:{ eexists _, []. rewrite app_nil_r. repeat split. intros []. }
  rewrite Hb. cbn.
  eexists _, [Build]; repeat split; intros [E|[]]; discriminate.
Qed.

(** The guard of [process_repository] reads the key [success] of the
    config, never [validation.valid]: a config with no [success] entry, an
    app name and a framework reaches the Build stage on an existing
    repository, whatever its [validation] section says. *)
Lemma unguarded_config_reaches_build repo (config app : dict) name framework st :
  repo_exists repo = true ->
  lookup "success" config = None ->
  lookup "app" config = Some (VDict app) ->
  lookup "name" app = Some name ->
  lookup "framework" app = Some framework ->
  exists stages,
    ran (process_repository repo (VDict config)) st (Build :: stages).
Proof.
  intros He Hs Ha Hn Hf.
  unfold ran, process_repository, check_repo_exists, call_build,
    call_docker, check_stage, bindM, try_except, put_config, get_config,
    record_stage, time_time, lift, ret.
  cbn. rewrite He. cbn. unfold get_d. rewrite Hs. cbn. rewrite Ha. cbn.
  rewrite Hn. cbn. rewrite Hf. cbn.
  destruct (build_run (VDict config) repo) as [[build_result config']|e]; cbn.
  2:{ now exists []. }
  destruct (py_getitem build_result "success") as [flag|e]; cbn.
  2:{ now exists []. }
  destruct (truthy flag); cbn.
  2:{ destruct (py_get build_result "error" _); cbn; now exists []. }
  destruct (docker_run config' repo) as [docker_result|e]; cbn.
  2:{ exists [Container]. now rewrite <- app_assoc. }
  destruct (py_getitem docker_result "success") as [dflag|e]; cbn.
  2:{ exists [Container]. now rewrite <- app_assoc. }
  destruct (truthy dflag); cbn.
  2:{ destruct (py_get docker_result "error" _); cbn;
      exists [Container]; now rewrite <- app_assoc. }
  exists [Container]. now rewrite <- app_assoc.
Qed.

(** *** The composition in [full_pipeline] *)

Variables (self : SmartOrchestrator) (env : environ) (repo : repository).

(** A failed analysis is returned as it is. *)
Lemma full_pipeline_analysis_failure deploy st analysis st1 flag :
  analyze_only self env repo st = (Ok analysis, st1) ->
  lookup "success" analysis = Some flag -> truthy flag = false ->
  full_pipeline self env repo deploy st = (Ok analysis, st1).
Proof.
  intros Ha Hs Hf. unfold full_pipeline.
  unfold bindM at 1. rewrite Ha.
  unfold bindM at 1. unfold lift. cbn [py_getitem]. rewrite Hs, Hf. reflexivity.
Qed.

(** A failed build-and-containerize step is returned as it is. *)
Lemma full_pipeline_process_failure deploy st analysis st1 flag config
  processing st2 pflag :
  analyze_only self env repo st = (Ok analysis, st1) ->
  lookup "success" analysis = Some flag -> truthy flag = true ->
  lookup "config" analysis = Some config ->
  process_repository repo config st1 = (Ok processing, st2) ->
  lookup "success" processing = Some pflag -> truthy pflag = false ->
  full_pipeline self env repo deploy st = (Ok processing, st2).
Proof.
  intros Ha Hs Hf Hc Hp Hps Hpf. unfold full_pipeline.
  unfold bindM at 1. rewrite Ha.
  unfold bindM at 1. unfold lift at 1. cbn [py_getitem]. rewrite Hs, Hf.
  cbn [negb]. unfold bindM at 1. unfold lift at 1. rewrite Hc.
  unfold bindM at 1. rewrite Hp.
  unfold bindM at 1. unfold lift at 1. rewrite Hps, Hpf. reflexivity.
Qed.

(** The Deploy stage's result is stored and never read: whatever it
    returns, the pipeline reports success. *)
Lemma full_pipeline_deploy_unchecked st analysis st1 flag config processing st2
  pflag deployment :
  analyze_only self env repo st = (Ok analysis, st1) ->
  lookup "success" analysis = Some flag -> truthy flag = true ->
  lookup "config" analysis = Some config ->
  process_repository repo config st1 = (Ok processing, st2) ->
  lookup "success" processing = Some pflag -> truthy pflag = true ->
  deploy_run (config_obj st2) = Ok deployment ->
  exists r,
    returned (full_pipeline self env repo true) st r /\
    succeeded r = true /\
    lookup "deployment" r = Some deployment.
Proof.
  intros Ha Hs Hf Hc Hp Hps Hpf Hd. unfold returned, full_pipeline.
  unfold bindM at 1. rewrite Ha.
  unfold bindM at 1. unfold lift at 1. cbn [py_getitem]. rewrite Hs, Hf.
  cbn [negb]. unfold bindM at 1. unfold lift at 1. rewrite Hc.
  unfold bindM at 1. rewrite Hp.
  unfold bindM at 1. unfold lift at 1. rewrite Hps, Hpf. cbn [negb].
  unfold call_deploy, record_stage, get_config, lift, bindM, ret. cbn.
  rewrite Hd. cbn. eexists. repeat split.
Qed.

(** What [full_pipeline] has invoked once the second step is over and no
    deployment is asked for is what [process_repository] invoked. *)
Lemma full_pipeline_invoked_no_deploy st analysis st1 flag config :
  analyze_only self env repo st = (Ok analysis, st1) ->
  lookup "success" analysis = Some flag -> truthy flag = true ->
  lookup "config" analysis = Some config ->
  invoked (snd (full_pipeline self env repo false st))
  = invoked (snd (process_repository repo config st1)).
Proof.
  intros Ha Hs Hf Hc. unfold full_pipeline.
  unfold bindM at 1. rewrite Ha.
  unfold bindM at 1. unfold lift at 1. cbn [py_getitem]. rewrite Hs, Hf.
  cbn [negb]. unfold bindM at 1. unfold lift at 1. rewrite Hc.
  unfold bindM at 1.
  destruct (process_repository repo config st1) as [[processing|e] st2];
    [|reflexivity].
  unfold bindM at 1. unfold lift at 1. cbn [py_getitem].
  destruct (lookup "success" processing) as [pflag|]; [|reflexivity].
  destruct (truthy pflag); reflexivity.
Qed.

End Process.

(** *** Sample runs *)

Definition stage_ok : value := VDict [("success", VBool true)].

Definition stage_failed (error : string) : value :=
  VDict [("success", VBool false); ("error", VStr error)].

Definition clock (n : nat) : float :=
  PrimFloat.of_uint63 (Uint63.of_Z (Z.of_nat n)).

(** A world whose Build stage reports failure. *)
Definition build_fails : World :=
  {| time_at := clock;
     build_run := fun config _ => Ok (stage_failed "npm run build failed", config);
     docker_run := fun _ _ => Ok stage_ok;
     deploy_run := fun _ => Ok stage_ok |}.

(** A world whose Build and Container stages succeed and whose Deploy stage
    reports failure, as [smart_deploy.run] does from its [except] branch. *)
Definition deploy_fails : World :=
  {| time_at := clock;
     build_run := fun config _ => Ok (stage_ok, config);
     docker_run := fun _ _ => Ok stage_ok;
     deploy_run := fun _ => Ok (stage_failed "kubectl apply failed") |}.

Definition shop_repo : repository :=
  {| repo_path := "/work/shop";
     repo_exists := true;
     repo_name := "shop";
     repo_paths := ["src/App.js"; "public/index.html"];
     package_json :=
       Manifest (VDict [("name", VStr "shop");
                        ("dependencies", VDict [("react", VStr "18.2.0");
                                                ("react-dom", VStr "18.2.0")]);
                        ("scripts", VDict [("build", VStr "react-scripts build")])]) |}.

(** The same repository with an empty package name. *)
Definition nameless_repo : repository :=
  {| repo_path := "/work/shop";
     repo_exists := true;
     repo_name := "shop";
     repo_paths := ["src/App.js"; "public/index.html"];
     package_json :=
       Manifest (VDict [("name", VStr "");
                        ("dependencies", VDict [("react", VStr "18.2.0");
                                                ("react-dom", VStr "18.2.0")]);
                        ("scripts", VDict [("build", VStr "react-scripts build")])]) |}.

Definition shop_config : value :=
  VDict [("app", VDict [("name", VStr "shop"); ("framework", VStr "react")]);
         ("docker", VDict [("repository", VStr "myorg"); ("image", VStr "shop")]);
         ("validation", VDict [("errors", VList []); ("warnings", VList []);
                               ("valid", VBool true)])].

(** A validated config that validation rejected: its name is empty. *)
Definition invalid_config : dict :=
  [("app", VDict [("name", VStr ""); ("framework", VStr "react")]);
   ("docker", VDict [("repository", VStr "myorg"); ("image", VStr "")]);
   ("validation", VDict [("errors", VList [VStr "app.name is required"]);
                         ("warnings", VList []);
                         ("valid", VBool false)])].

Definition orchestrator : SmartOrchestrator := {| config_merger := no_layers |}.

Lemma build_failure_stops_witness :
  exists r stages,
    returned (process_repository (H := plain_runtime) (H0 := build_fails)
                shop_repo shop_config) initial r /\
    lookup "success" r = Some (VBool false) /\
    (exists message, lookup "error" r = Some (VStr message)) /\
    succeeded r = false /\
    ran (process_repository (H := plain_runtime) (H0 := build_fails)
           shop_repo shop_config) initial stages /\
    ~ In Container stages.
Proof.
  apply (build_failure_stops (H := plain_runtime) (H0 := build_fails)
           shop_repo shop_config initial
           (stage_failed "npm run build failed") shop_config (VBool false));
    reflexivity.
Defined.

(** The fail-fast scenario, run: the failure carries the Build stage's
    error and the record holds the Build stage alone. *)
Example fail_fast_scenario :
  let run := process_repository (H := plain_runtime) (H0 := build_fails)
               shop_repo shop_config initial in
  option_map (lookup "error")
    (match fst run with Ok r => Some r | Raise _ => None end)
  = Some (Some (VStr "Build failed: npm run build failed")) /\
  invoked (snd run) = [Build].
Proof. vm_compute. split; reflexivity. Qed.

(** The analysis of a repository whose package name is empty succeeds and
    hands on a config that validation rejected. *)
Lemma nameless_analysis (rt : Runtime) (w : World) :
  exists analysis config app,
    analyze_only orchestrator local_env nameless_repo initial
    = (Ok analysis, {| invoked := []; ticks := 2; config_obj := VNone |}) /\
    lookup "success" analysis = Some (VBool true) /\
    lookup "config" analysis = Some (VDict config) /\
    lookup_path ["validation"; "valid"] config = Some (VBool false) /\
    lookup "success" config = None /\
    lookup "app" config = Some (VDict app) /\
    lookup "name" app = Some (VStr "") /\
    lookup "framework" app = Some (VStr "react").
Proof.
  eexists _, _, _. split; [vm_compute; reflexivity|].
  repeat split.
Qed.

(** C1, at inputs where it fails.  A config whose [validation.valid] is
    false, given to [process_repository] on an existing repository, reaches
    the Build stage; and [full_pipeline], on a repository whose analysis
    yields such a config, reaches the Build stage too.  Both hold whatever
    the stages return. *)
Theorem invalid_config_reaches_build (rt : Runtime) (w : World) :
  lookup_path ["validation"; "valid"] invalid_config = Some (VBool false) /\
  (exists stages,
     ran (process_repository shop_repo (VDict invalid_config)) initial
         (Build :: stages)) /\
  (exists stages,
     ran (full_pipeline orchestrator local_env nameless_repo false) initial
         (Build :: stages)).
Proof.
  split; [reflexivity|]. split.
  - apply unguarded_config_reaches_build
      with (app := [("name", VStr ""); ("framework", VStr "react")])
           (name := VStr "") (framework := VStr "react"); reflexivity.
  - destruct (nameless_analysis rt w)
      as (analysis & config & app & Ha & Hs & Hc & _ & Hns & Happ & Hn & Hf).
    unfold ran.
    rewrite (full_pipeline_invoked_no_deploy orchestrator local_env nameless_repo
               initial analysis _ (VBool true) (VDict config) Ha Hs eq_refl Hc).
    destruct (unguarded_config_reaches_build nameless_repo config app
                (VStr "") (VStr "react")
                {| invoked := []; ticks := 2; config_obj := VNone |}
                eq_refl Hns Happ Hn Hf) as (stages & Hr).
    exists stages. exact Hr.
Qed.

(** C4, at an input where it fails: analysis, build and containerization
    succeed, deployment is asked for and the Deploy stage returns
    [success = false] with its error.  [full_pipeline] returns
    [success = true], with the failed result stored under [deployment] and
    no [error] of its own. *)
Theorem deploy_failure_reported_as_success :
  let run := full_pipeline (H := plain_runtime) (H0 := deploy_fails)
               orchestrator local_env shop_repo true initial in
  exists r,
    fst run = Ok r /\
    succeeded r = true /\
    lookup "deployment" r = Some (stage_failed "kubectl apply failed") /\
    lookup "error" r = None /\
    invoked (snd run) = [Build; Container; Deploy].
Proof. vm_compute. eexists. repeat split. Qed.

End OrchestratorFacts.

(** ** Detection *)

Module DetectorFacts.
Import FrameworkDetector DictFacts ConfigFacts.

(** *** The scoring loops *)

Lemma scan_total (test : string -> result bool) (t : string -> bool) points :
  (forall x, test x = Ok (t x)) ->
  forall items score found,
    scan test points items score found
    = Ok ((score + points * count t items)%Z, found ++ filter t items).
Proof.
  intros Ht. induction items as [|item rest IH]; intros score found.
  - cbn. now rewrite Z.mul_0_r, Z.add_0_r, app_nil_r.
  - unfold count in *. cbn [scan]. rewrite Ht. cbn [bind filter].
    destruct (t item); rewrite IH.
    + cbn [List.length]. rewrite <- app_assoc. cbn [app]. f_equal. f_equal.
      rewrite Nat2Z.inj_succ. ring.
    + reflexivity.
Qed.

Lemma count_never (t : string -> bool) items :
  (forall x, t x = false) -> count t items = 0%Z.
Proof.
  intros Ht. unfold count. induction items as [|x rest IH]; [reflexivity|].
  cbn [filter]. now rewrite Ht.
Qed.

Lemma count_bounds (t : string -> bool) items :
  (0 <= count t items <= Z.of_nat (List.length items))%Z.
Proof.
  unfold count. pose proof (filter_length_le t items). lia.
Qed.

(** The data a readable manifest may hold: a well-formed object, or a value
    Python takes as false (the code then skips the manifest). *)
Definition data_ok (data : value) : bool :=
  match data with
  | VDict d =>
      mapping_or_absent d "dependencies" && mapping_or_absent d "devDependencies"
      && mapping_or_absent d "scripts"
  | _ => negb (truthy data)
  end.

Lemma manifest_data_ok repo :
  well_formed (package_json repo) = true -> data_ok (manifest_data repo) = true.
Proof.
  unfold well_formed, manifest_data.
  destruct (package_json repo) as [| | |data]; try reflexivity; try discriminate.
  destruct data; try discriminate. destruct (repo_exists repo); auto.
Qed.

Lemma load_package_json_data repo :
  repo_exists repo = true ->
  well_formed (package_json repo) = true ->
  _load_package_json repo = Ok (manifest_data repo).
Proof.
  unfold _load_package_json, path_exists, manifest_data. intros -> W. cbn.
  destruct (package_json repo); try reflexivity. discriminate.
Qed.

Lemma section_of_mapping (d : dict) key :
  mapping_or_absent d key = true ->
  get_d d key (VDict []) = VDict (manifest_section (VDict d) key).
Proof.
  unfold mapping_or_absent, get_d, manifest_section.
  destruct (lookup key d) as [v|]; [|reflexivity].
  destruct v; try discriminate. reflexivity.
Qed.

Lemma falsy_data_has_no_section data key x :
  data_ok data = true -> truthy data = false ->
  mem x (manifest_section data key) = false.
Proof.
  destruct data as [| | | | | |d]; try reflexivity.
  cbn [truthy]. destruct d; [reflexivity|discriminate].
Qed.

(** [score_framework] computes the score the specification words. *)
Lemma score_framework_spec repo data p :
  data_ok data = true ->
  exists details,
    score_framework repo data p = Ok (profile_score repo data p, details).
Proof.
  intros D. unfold score_framework, profile_score.
  rewrite (scan_total (fun f => Ok (path_exists repo f)) (path_exists repo))
    by reflexivity.
  cbn [bind].
  rewrite (scan_total (fun f => Ok (path_exists repo f)) (path_exists repo))
    by reflexivity.
  destruct (truthy data) eqn:T.
  - destruct data as [| | | | | |d];
      try (unfold data_ok in D; rewrite T in D; discriminate).
    cbn [data_ok] in D.
    apply andb_prop in D. destruct D as [D Hs].
    apply andb_prop in D. destruct D as [Hd Hv].
    cbn [py_get bind]. rewrite !section_of_mapping by assumption.
    rewrite (scan_total (fun x => py_in x (VDict (manifest_section (VDict d) "dependencies")))
               (fun x => mem x (manifest_section (VDict d) "dependencies")))
      by reflexivity.
    cbn [bind].
    rewrite (scan_total (fun x => py_in x (VDict (manifest_section (VDict d) "devDependencies")))
               (fun x => mem x (manifest_section (VDict d) "devDependencies")))
      by reflexivity.
    cbn [bind].
    rewrite (scan_total (fun x => py_in x (VDict (manifest_section (VDict d) "scripts")))
               (fun x => mem x (manifest_section (VDict d) "scripts")))
      by reflexivity.
    cbn [bind]. eexists. f_equal. f_equal. lia.
  - cbn [bind].
    rewrite !(count_never (fun x => mem x (manifest_section data _)))
      by (intros; now apply falsy_data_has_no_section).
    eexists. f_equal. f_equal. lia.
Qed.

(** *** Order of the weighted scores

    The weighted scores are floats; the comparisons the code makes are
    checked here on every value a profile can score: a raw score is an
    integer from 0 to 39 and a weight is 1.0, 0.9 or 0.8. *)

Definition weights : list float := [1.0%float; 0.9%float; 0.8%float].

Definition attainable : list float :=
  flat_map (fun w => map (fun n => PrimFloat.mul (float_of_int (Z.of_nat n)) w)
                         (seq 0 40))
           weights.

Definition order_check (x y z : float) : bool :=
  negb (PrimFloat.ltb x x)
  && implb (negb (PrimFloat.ltb x y) && PrimFloat.ltb z y) (negb (PrimFloat.ltb x z))
  && implb (negb (PrimFloat.ltb x y) && negb (PrimFloat.ltb y z))
           (negb (PrimFloat.ltb x z))
  && implb (PrimFloat.ltb z x && negb (PrimFloat.ltb z y)) (negb (PrimFloat.ltb x y)).

Lemma attainable_order :
  forallb (fun x => forallb (fun y => forallb (order_check x y) attainable)
                            attainable) attainable = true.
Proof. vm_compute. reflexivity. Qed.

Lemma order_facts x y z :
  In x attainable -> In y attainable -> In z attainable ->
  order_check x y z = true.
Proof.
  intros Hx Hy Hz. pose proof attainable_order as O.
  rewrite forallb_forall in O. specialize (O x Hx).
  rewrite forallb_forall in O. specialize (O y Hy).
  rewrite forallb_forall in O. exact (O z Hz).
Qed.

Lemma ltb_irrefl x : In x attainable -> PrimFloat.ltb x x = false.
Proof.
  intros Hx. pose proof (order_facts x x x Hx Hx Hx) as O. unfold order_check in O.
  destruct (PrimFloat.ltb x x); [discriminate | reflexivity].
Qed.

(** [x >= y] and [z < y] give [x >= z]. *)
Lemma not_below_smaller x y z :
  In x attainable -> In y attainable -> In z attainable ->
  PrimFloat.ltb x y = false -> PrimFloat.ltb z y = true -> PrimFloat.ltb x z = false.
Proof.
  intros Hx Hy Hz A B. pose proof (order_facts x y z Hx Hy Hz) as O.
  unfold order_check in O. rewrite A, B in O.
  destruct (PrimFloat.ltb x z); [|reflexivity].
  destruct (PrimFloat.ltb x x); discriminate.
Qed.

(** [x >= y] and [y >= z] give [x >= z]. *)
Lemma not_below_trans x y z :
  In x attainable -> In y attainable -> In z attainable ->
  PrimFloat.ltb x y = false -> PrimFloat.ltb y z = false -> PrimFloat.ltb x z = false.
Proof.
  intros Hx Hy Hz A B. pose proof (order_facts x y z Hx Hy Hz) as O.
  unfold order_check in O. rewrite A, B in O.
  destruct (PrimFloat.ltb x z); [|reflexivity].
  destruct (PrimFloat.ltb x x), (PrimFloat.ltb z y), (PrimFloat.ltb z x);
    discriminate.
Qed.

(** [z < x] and [z >= y] give [x >= y]. *)
Lemma above_not_below x y z :
  In x attainable -> In y attainable -> In z attainable ->
  PrimFloat.ltb z x = true -> PrimFloat.ltb z y = false -> PrimFloat.ltb x y = false.
Proof.
  intros Hx Hy Hz A B. pose proof (order_facts x y z Hx Hy Hz) as O.
  unfold order_check in O. rewrite A, B in O.
  destruct (PrimFloat.ltb x y); [|reflexivity].
  destruct (PrimFloat.ltb x x), (PrimFloat.ltb x z); discriminate.
Qed.

Lemma zero_attainable : In 0%float attainable.
Proof. left. reflexivity. Qed.

Lemma weighted_attainable (score : Z) (p : patterns) :
  (0 <= score <= 39)%Z -> In (weight p) weights -> In (weighted score p) attainable.
Proof.
  intros Hs Hw. unfold attainable, weighted. apply in_flat_map.
  exists (weight p). split; [exact Hw|].
  apply in_map_iff. exists (Z.to_nat score). split.
  - now rewrite Z2Nat.id by lia.
  - apply in_seq. lia.
Qed.

Lemma profile_score_bounds repo data name p :
  In (name, p) detection_patterns ->
  (0 <= profile_score repo data p <= 39)%Z /\ In (weight p) weights.
Proof.
  intros Hin. unfold profile_score.
  pose proof (count_bounds (path_exists repo) (files p)).
  pose proof (count_bounds (fun d => mem d (manifest_section data "dependencies"))
                (package_dependencies p)).
  pose proof (count_bounds (fun d => mem d (manifest_section data "devDependencies"))
                (package_dev_dependencies p)).
  pose proof (count_bounds (path_exists repo) (config_files p)).
  pose proof (count_bounds (fun c => mem c (manifest_section data "scripts"))
                (build_commands p)).
  cbn in Hin.
  destruct Hin as [E|[E|[E|[E|[]]]]]; injection E as <- <-;
    cbn [files package_dependencies package_dev_dependencies config_files
         build_commands weight List.length] in *;
    (split; [lia | unfold weights; cbn [In]; auto]).
Qed.

Lemma weighted_score_attainable repo name p :
  In (name, p) detection_patterns -> In (weighted_score repo p) attainable.
Proof.
  intros Hin. unfold weighted_score.
  destruct (profile_score_bounds repo (manifest_data repo) name p Hin).
  now apply weighted_attainable.
Qed.

(** *** The selection *)

(** [max_from] returns an entry no other entry exceeds. *)
Lemma max_from_spec rest : forall best,
  (forall kv, In kv (best :: rest) -> In (snd kv) attainable) ->
  In (max_from best rest) (best :: rest) /\
  forall kv, In kv (best :: rest) ->
             PrimFloat.ltb (snd (max_from best rest)) (snd kv) = false.
Proof.
  induction rest as [|[k w] rest IH]; intros best HV.
  - cbn. split; [now left|]. intros kv [<-|[]]. apply ltb_irrefl.
    apply HV. now left.
  - cbn [max_from].
    assert (Hb : In (snd best) attainable) by (apply HV; now left).
    assert (Hw : In w attainable) by (apply (HV (k, w)); right; now left).
    destruct (PrimFloat.ltb (snd best) w) eqn:E.
    + destruct (IH (k, w)) as [Hin Hmax].
      { intros kv Hkv. apply HV. now right. }
      split; [now right|].
      intros kv [<-|Hkv]; [|now apply Hmax].
      apply not_below_smaller with (y := w); try assumption.
      * apply HV. now right.
      * apply (Hmax (k, w)). now left.
    + destruct (IH best) as [Hin Hmax].
      { intros kv [<-|Hkv]; apply HV; [now left | right; now right]. }
      split.
      * destruct Hin as [<-|Hin]; [now left | right; now right].
      * intros kv [<-|[<-|Hkv]].
        -- apply Hmax. now left.
        -- apply not_below_trans with (y := snd best); try assumption.
           ++ apply HV. destruct Hin as [<-|Hin]; [now left | right; now right].
           ++ apply Hmax. now left.
        -- apply Hmax. now right.
Qed.

(** The details dict [score_framework] builds for a profile. *)
Definition profile_details (repo : repository) (p : patterns) : dict :=
  match score_framework repo (manifest_data repo) p with
  | Ok (_, details) => details
  | Raise _ => []
  end.

Definition scores_above_zero (repo : repository) (np : string * patterns) : bool :=
  PrimFloat.ltb 0 (weighted_score repo (snd np)).

(** The profiles that enter [scores], in profile order. *)
Definition candidates (repo : repository) (profiles : list (string * patterns))
  : list (string * patterns) :=
  filter (scores_above_zero repo) profiles.

Definition score_entry (repo : repository) (np : string * patterns)
  : string * float := (fst np, weighted_score repo (snd np)).

Definition details_entry (repo : repository) (np : string * patterns)
  : string * value := (fst np, VDict (profile_details repo (snd np))).

Lemma lookup_app_none {A} k (d1 d2 : list (string * A)) :
  lookup k d1 = None -> lookup k (d1 ++ d2) = lookup k d2.
Proof.
  induction d1 as [|[k' v'] d1 IH]; cbn; [reflexivity|].
  destruct (String.eqb k k'); [discriminate | assumption].
Qed.

Lemma score_all_spec repo :
  data_ok (manifest_data repo) = true ->
  forall profiles scores details,
    NoDup (keys profiles) ->
    (forall name, In name (keys profiles) ->
                  lookup name scores = None /\ lookup name details = None) ->
    score_all repo (manifest_data repo) profiles scores details
    = Ok (scores ++ map (score_entry repo) (candidates repo profiles),
          details ++ map (details_entry repo) (candidates repo profiles)).
Proof.
  intros D. induction profiles as [|[name p] rest IH]; intros scores details U Fresh.
  - cbn. now rewrite !app_nil_r.
  - cbn [score_all].
    destruct (score_framework_spec repo (manifest_data repo) p D) as (dt & Hs).
    rewrite Hs. cbn [bind].
    assert (Hd : profile_details repo p = dt) by (unfold profile_details; now rewrite Hs).
    fold (weighted_score repo p).
    unfold keys in U. cbn [map fst] in U. inversion U as [|? ? Hnot U']; subst.
    destruct (Fresh name) as [Fs Fd]; [now left|].
    unfold candidates. cbn [filter]. fold (candidates repo rest).
    change (scores_above_zero repo (name, p))
      with (PrimFloat.ltb 0 (weighted_score repo p)).
    destruct (PrimFloat.ltb 0 (weighted_score repo p)) eqn:E.
    + rewrite (set_fresh name _ scores Fs), (set_fresh name _ details Fd).
      rewrite IH; [| exact U' |].
      * cbn [map]. unfold score_entry at 2, details_entry at 2. cbn [fst snd].
        rewrite <- !app_assoc. reflexivity.
      * intros n Hn. destruct (Fresh n) as [Fs' Fd']; [now right|].
        rewrite !lookup_app_none by assumption. cbn.
        destruct (String.eqb_spec n name) as [->|_]; [contradiction|]. now split.
    + apply IH; [exact U'|]. intros n Hn. apply Fresh. now right.
Qed.

Lemma candidates_in repo profiles np :
  In np (candidates repo profiles) <->
  In np profiles /\ PrimFloat.ltb 0 (weighted_score repo (snd np)) = true.
Proof. unfold candidates. apply filter_In. Qed.

Lemma unique_candidates repo profiles :
  NoDup (keys profiles) -> NoDup (keys (candidates repo profiles)).
Proof.
  unfold keys. induction profiles as [|np rest IH]; [constructor|].
  cbn [map]. intros U. inversion U as [|? ? Hnot U']; subst.
  unfold candidates. cbn [filter]. fold (candidates repo rest).
  destruct (scores_above_zero repo np); [|now apply IH].
  cbn [map]. constructor; [|now apply IH].
  intros Hin. apply Hnot. apply in_map_iff in Hin.
  destruct Hin as (x & Hx & Hin). apply in_map_iff. exists x.
  split; [assumption|]. now apply filter_In in Hin.
Qed.

Lemma lookup_details_entry repo l name p :
  NoDup (keys l) -> In (name, p) l ->
  lookup name (map (details_entry repo) l) = Some (VDict (profile_details repo p)).
Proof.
  unfold keys. induction l as [|[n q] l IH]; intros U Hin; [destruct Hin|].
  cbn in U. inversion U as [|? ? Hnot U']; subst.
  cbn. destruct Hin as [E|Hin].
  - injection E as -> ->. now rewrite String.eqb_refl.
  - destruct (String.eqb_spec name n) as [->|_]; [|now apply IH].
    exfalso. apply Hnot. apply in_map_iff. now exists (n, p).
Qed.

Lemma unique_profiles : NoDup (keys detection_patterns).
Proof.
  unfold keys. cbn. repeat constructor; cbn; intuition discriminate.
Qed.

(** What [detect_framework] returns on an existing repository with a
    well-formed manifest, by the candidates it finds. *)
Lemma detect_framework_selects repo :
  repo_exists repo = true ->
  well_formed (package_json repo) = true ->
  match candidates repo detection_patterns with
  | [] => detect_framework repo = Ok ("generic", 0.1%float, VDict [])
  | _ :: _ =>
      exists name p,
        In (name, p) detection_patterns /\
        PrimFloat.ltb 0 (weighted_score repo p) = true /\
        (forall name' q, In (name', q) detection_patterns ->
           PrimFloat.ltb (weighted_score repo p) (weighted_score repo q) = false) /\
        detect_framework repo
        = Ok (name,
              min_one (PrimFloat.div (weighted_score repo p) max_possible),
              VDict (profile_details repo p))
  end.
Proof.
  intros He W. pose proof (manifest_data_ok repo W) as D.
  unfold detect_framework. rewrite He. cbn [negb].
  rewrite (load_package_json_data repo He W). cbn [bind].
  rewrite (score_all_spec repo D detection_patterns [] [] unique_profiles)
    by (intros; now split).
  cbn [bind app].
  destruct (candidates repo detection_patterns) as [|first rest] eqn:C;
    [reflexivity|].
  cbn [map].
  assert (HV : forall kv,
             In kv (score_entry repo first :: map (score_entry repo) rest) ->
             In (snd kv) attainable).
  { intros kv Hkv. change (In kv (map (score_entry repo) (first :: rest))) in Hkv.
    apply in_map_iff in Hkv. destruct Hkv as ([n q] & <- & Hin).
    rewrite <- C in Hin. apply candidates_in in Hin. destruct Hin as [Hin _].
    cbn. now apply weighted_score_attainable with (name := n). }
  destruct (max_from_spec (map (score_entry repo) rest) (score_entry repo first) HV)
    as [Hin Hmax].
  change (In (max_from (score_entry repo first) (map (score_entry repo) rest))
             (map (score_entry repo) (first :: rest))) in Hin.
  apply in_map_iff in Hin. destruct Hin as ([name p] & Hm & Hin).
  rewrite <- Hm in *. unfold score_entry at 1. cbn [fst snd].
  rewrite <- C in Hin. pose proof Hin as Hc.
  apply candidates_in in Hin. destruct Hin as [Hin Hpos]. cbn [snd] in Hpos.
  exists name, p. split; [exact Hin|]. split; [exact Hpos|]. split.
  - intros name' q Hq.
    destruct (PrimFloat.ltb 0 (weighted_score repo q)) eqn:Q.
    + apply (Hmax (score_entry repo (name', q))).
      change (In (score_entry repo (name', q))
                 (map (score_entry repo) (first :: rest))).
      apply in_map. rewrite <- C. apply candidates_in. now split.
    + apply above_not_below with (z := 0%float); try assumption.
      * now apply weighted_score_attainable with (name := name).
      * now apply weighted_score_attainable with (name := name').
      * apply zero_attainable.
  - cbn [py_getitem].
    change (details_entry repo first :: map (details_entry repo) rest)
      with (map (details_entry repo) (first :: rest)).
    rewrite <- C.
    rewrite (lookup_details_entry repo (candidates repo detection_patterns) name p
               (unique_candidates repo detection_patterns unique_profiles) Hc).
    reflexivity.
Qed.

(** *** Sample repositories *)

Definition missing_repo : repository :=
  {| repo_path := "/work/gone"; repo_exists := false; repo_name := "gone";
     repo_paths := []; package_json := NoManifest |}.

Definition empty_directory : repository :=
  {| repo_path := "/work/empty"; repo_exists := true; repo_name := "empty";
     repo_paths := []; package_json := NoManifest |}.

Definition angular_repo : repository :=
  {| repo_path := "/work/portal"; repo_exists := true; repo_name := "portal";
     repo_paths := ["angular.json"; "src/main.ts"];
     package_json :=
       Manifest (VDict [("name", VStr "portal");
                        ("dependencies", VDict [("@angular/core", VStr "17.0.0")]);
                        ("scripts", VDict [("build:prod", VStr "ng build")])]) |}.

(** A repository whose package.json parses to a list. *)
Definition list_manifest_repo : repository :=
  {| repo_path := "/work/odd"; repo_exists := true; repo_name := "odd";
     repo_paths := []; package_json := Manifest (VList [VInt 1]) |}.

(** C3, as stated, fails: on a path that does not exist [detect_framework]
    raises nothing and returns the ordinary value [('unknown', 0.0, {})]. *)
Lemma missing_repository_is_a_return_value :
  repo_exists missing_repo = false /\
  detect_framework missing_repo = Ok ("unknown", 0%float, VDict []) /\
  forall e, detect_framework missing_repo <> Raise e.
Proof. repeat split. intros e. discriminate. Qed.

(** C3, amended.  On a path that does not exist [detect_framework] returns
    [('unknown', 0.0, {})]; on an existing path whose manifest is absent,
    unparsable or well-formed it returns a result. *)
Theorem detect_framework_outcome (repo : repository) :
  (repo_exists repo = false ->
   detect_framework repo = Ok ("unknown", 0%float, VDict [])) /\
  (repo_exists repo = true -> well_formed (package_json repo) = true ->
   exists r, detect_framework repo = Ok r).
Proof.
  split.
  - intros He. unfold detect_framework. now rewrite He.
  - intros He W. pose proof (detect_framework_selects repo He W) as S.
    destruct (candidates repo detection_patterns) as [|c cs].
    + eauto.
    + destruct S as (name & p & _ & _ & _ & ->). eauto.
Qed.

(** Outside that shape an existing path can make it raise: a manifest that
    parses to a list has no [get]. *)
Example list_manifest_raises :
  detect_framework list_manifest_repo
  = Raise (mk_exn AttributeError "'list' object has no attribute 'get'").
Proof. reflexivity. Qed.

(** *** The confidence is a minimum

    [m] is the minimum of [x] and [y]: one of the two, and above neither.
    [min_one] computes the minimum with 1.0 of every float that is a
    number. *)

Definition minimum_of (m x y : float) : Prop :=
  (m = x \/ m = y) /\ PrimFloat.leb m x = true /\ PrimFloat.leb m y = true.

Lemma SFcompare_antisym x y :
  SFcompare y x = option_map CompOpp (SFcompare x y).
Proof.
  destruct x as [[]|[]| |[] mx ex], y as [[]|[]| |[] my ey]; cbn; try reflexivity.
  all: rewrite (Z.compare_antisym ex ey); destruct (ex ?= ey)%Z; cbn; try reflexivity.
  all: fold (Pos.compare mx my); fold (Pos.compare my mx);
    rewrite (Pos.compare_antisym mx my); destruct (mx ?= my)%positive; reflexivity.
Qed.

Lemma leb_of_not_ltb x y :
  PrimFloat.eqb x x = true -> PrimFloat.eqb y y = true ->
  PrimFloat.ltb y x = false -> PrimFloat.leb x y = true.
Proof.
  rewrite !FloatAxioms.eqb_spec, FloatAxioms.ltb_spec, FloatAxioms.leb_spec.
  unfold SFeqb, SFltb, SFleb.
  rewrite (SFcompare_antisym (Prim2SF x) (Prim2SF y)).
  intros Hx Hy.
  destruct (SFcompare (Prim2SF x) (Prim2SF y)) as [[]|] eqn:E; cbn; try easy.
  intros _.
  destruct (Prim2SF x) as [[]|[]| |[] mx ex], (Prim2SF y) as [[]|[]| |[] my ey];
    cbn in *; try discriminate.
  all: destruct (ex ?= ey)%Z; try discriminate.
  all: destruct (mx ?= my)%positive; try discriminate.
Qed.

Lemma leb_refl x : PrimFloat.eqb x x = true -> PrimFloat.leb x x = true.
Proof.
  rewrite FloatAxioms.eqb_spec, FloatAxioms.leb_spec. unfold SFeqb, SFleb.
  destruct (SFcompare (Prim2SF x) (Prim2SF x)) as [[]|]; easy.
Qed.

Lemma leb_of_ltb x y : PrimFloat.ltb x y = true -> PrimFloat.leb x y = true.
Proof.
  rewrite FloatAxioms.ltb_spec, FloatAxioms.leb_spec. unfold SFltb, SFleb.
  destruct (SFcompare (Prim2SF x) (Prim2SF y)) as [[]|]; easy.
Qed.

Lemma min_one_minimum x :
  PrimFloat.eqb x x = true -> minimum_of (min_one x) x 1.
Proof.
  intros N. unfold minimum_of, min_one.
  destruct (PrimFloat.ltb 1 x) eqn:L.
  - split; [now right|]. split; [now apply leb_of_ltb | reflexivity].
  - split; [now left|]. split; [now apply leb_refl|].
    now apply leb_of_not_ltb.
Qed.

(** Both sides of the cap, run. *)
Example min_one_samples :
  min_one 0.28%float = 0.28%float /\ min_one 1%float = 1%float /\
  min_one 1.5%float = 1%float /\ min_one 64%float = 1%float.
Proof. repeat split. Qed.

(** A weighted score over 50 is a number. *)
Lemma attainable_ratio_number w :
  In w attainable ->
  PrimFloat.eqb (PrimFloat.div w 50%float) (PrimFloat.div w 50%float) = true.
Proof.
  intros Hw.
  assert (A : forallb (fun w => PrimFloat.eqb (PrimFloat.div w 50%float)
                                              (PrimFloat.div w 50%float))
                      attainable = true) by (vm_compute; reflexivity).
  rewrite forallb_forall in A. exact (A w Hw).
Qed.

(** C6, as stated, fails.  This repository exists, and by the scoring rule
    its react profile scores 2 for the one config file present,
    [package.json], weighted 1.8: a profile scores above zero.  But its
    manifest parses to a list, so [detect_framework] scores no profile on
    it, selects no framework and returns no result: it raises. *)
Lemma list_manifest_is_not_scored :
  repo_exists list_manifest_repo = true /\
  (exists name p,
     In (name, p) detection_patterns /\
     profile_score list_manifest_repo (manifest_data list_manifest_repo) p = 2%Z /\
     PrimFloat.ltb 0 (weighted_score list_manifest_repo p) = true) /\
  (forall name p, In (name, p) detection_patterns ->
     forall r, score_framework list_manifest_repo
                 (manifest_data list_manifest_repo) p <> Ok r) /\
  forall r, detect_framework list_manifest_repo <> Ok r.
Proof.
  split; [reflexivity|]. split; [|split].
  - eexists "react", _. split; [right; left; reflexivity|]. split; reflexivity.
  - intros name p Hin. cbn in Hin.
    destruct Hin as [E|[E|[E|[E|[]]]]]; injection E as <- <-;
      intros r; discriminate.
  - intros r. discriminate.
Qed.

(** C6, amended.  On an existing repository whose manifest is absent,
    unparsable or well-formed, each profile's raw score is 3 per marker
    file, 5 per runtime dependency, 3 per dev dependency, 2 per config file
    and 1 per build script; the weighted score is the raw score times the
    profile's weight; when no weighted score is above zero the result is
    [('generic', 0.1, {})]; otherwise the result names a profile whose
    weighted score is above zero and exceeded by no profile's, with that
    profile's details and a confidence that is the minimum of the weighted
    score over 50 and 1.0. *)
Theorem detection_scoring (repo : repository) :
  repo_exists repo = true ->
  well_formed (package_json repo) = true ->
  (forall name p, In (name, p) detection_patterns ->
     exists details,
       score_framework repo (manifest_data repo) p
       = Ok (profile_score repo (manifest_data repo) p, details) /\
       weighted_score repo p
       = PrimFloat.mul (float_of_int (profile_score repo (manifest_data repo) p))
                       (weight p)) /\
  ((forall name p, In (name, p) detection_patterns ->
      PrimFloat.ltb 0 (weighted_score repo p) = false) ->
   detect_framework repo = Ok ("generic", 0.1%float, VDict [])) /\
  ((exists name p, In (name, p) detection_patterns /\
                   PrimFloat.ltb 0 (weighted_score repo p) = true) ->
   exists name p details confidence,
     In (name, p) detection_patterns /\
     PrimFloat.ltb 0 (weighted_score repo p) = true /\
     (forall name' q, In (name', q) detection_patterns ->
        PrimFloat.ltb (weighted_score repo p) (weighted_score repo q) = false) /\
     score_framework repo (manifest_data repo) p
     = Ok (profile_score repo (manifest_data repo) p, details) /\
     minimum_of confidence
       (PrimFloat.div (weighted_score repo p) 50%float) 1%float /\
     detect_framework repo = Ok (name, confidence, VDict details)).
Proof.
  intros He W. pose proof (manifest_data_ok repo W) as D.
  pose proof (detect_framework_selects repo He W) as S.
  split; [|split].
  - intros name p _.
    destruct (score_framework_spec repo (manifest_data repo) p D) as (dt & Hs).
    exists dt. now split.
  - intros Hnone.
    destruct (candidates repo detection_patterns) as [|[n q] rest] eqn:C;
      [exact S|].
    assert (Hin : In (n, q) (candidates repo detection_patterns))
      by (rewrite C; now left).
    apply candidates_in in Hin. destruct Hin as [Hin Hpos]. cbn [snd] in Hpos.
    rewrite (Hnone n q Hin) in Hpos. discriminate.
  - intros (n & q & Hin & Hpos).
    destruct (candidates repo detection_patterns) as [|first rest] eqn:C.
    + assert (Hc : In (n, q) (candidates repo detection_patterns))
        by (apply candidates_in; now split).
      rewrite C in Hc. destruct Hc.
    + destruct S as (name & p & Hp & Hppos & Hmax & Hres).
      exists name, p, (profile_details repo p),
        (min_one (PrimFloat.div (weighted_score repo p) 50%float)).
      split; [assumption|]. split; [assumption|]. split; [assumption|].
      split; [|split; [|exact Hres]].
      * unfold profile_details.
        destruct (score_framework_spec repo (manifest_data repo) p D) as (dt & Hs).
        now rewrite Hs.
      * apply min_one_minimum, attainable_ratio_number.
        now apply (weighted_score_attainable repo name p).
Qed.

Lemma detection_scoring_witness :
  (forall name p, In (name, p) detection_patterns ->
     exists details,
       score_framework angular_repo (manifest_data angular_repo) p
       = Ok (profile_score angular_repo (manifest_data angular_repo) p, details) /\
       weighted_score angular_repo p
       = PrimFloat.mul
           (float_of_int (profile_score angular_repo (manifest_data angular_repo) p))
           (weight p)) /\
  ((forall name p, In (name, p) detection_patterns ->
      PrimFloat.ltb 0 (weighted_score angular_repo p) = false) ->
   detect_framework angular_repo = Ok ("generic", 0.1%float, VDict [])) /\
  ((exists name p, In (name, p) detection_patterns /\
                   PrimFloat.ltb 0 (weighted_score angular_repo p) = true) ->
   exists name p details confidence,
     In (name, p) detection_patterns /\
     PrimFloat.ltb 0 (weighted_score angular_repo p) = true /\
     (forall name' q, In (name', q) detection_patterns ->
        PrimFloat.ltb (weighted_score angular_repo p) (weighted_score angular_repo q)
        = false) /\
     score_framework angular_repo (manifest_data angular_repo) p
     = Ok (profile_score angular_repo (manifest_data angular_repo) p, details) /\
     minimum_of confidence
       (PrimFloat.div (weighted_score angular_repo p) 50%float) 1%float /\
     detect_framework angular_repo = Ok (name, confidence, VDict details)).
Proof. exact (detection_scoring angular_repo eq_refl eq_refl). Defined.

(** The specification's scenarios, run: an empty directory, and a
    repository with two Angular marker files, the core dependency and a
    [build:prod] script (raw score 6 + 5 + 2 + 1 = 14, weight 1.0). *)
Example empty_directory_scenario :
  detect_framework empty_directory = Ok ("generic", 0.1%float, VDict []).
Proof. reflexivity. Qed.

Example angular_scenario :
  exists details,
    detect_framework angular_repo
    = Ok ("angular", PrimFloat.div 14%float 50%float, details) /\
    profile_score angular_repo (manifest_data angular_repo)
      {| files := ["angular.json"; "src/main.ts"; "src/app/app.module.ts"];
         package_dependencies := ["@angular/core"; "@angular/cli"; "@angular/common"];
         package_dev_dependencies := ["@angular/cli"; "@angular-devkit/build-angular"];
         config_files := ["angular.json"; "tsconfig.json"; "tsconfig.app.json"];
         build_commands := ["build:prod"; "build"; "ng build"];
         start_commands := ["start"; "serve"; "ng serve"];
         weight := 1.0%float |} = 14%Z.
Proof. eexists. split; vm_compute; reflexivity. Qed.

End DetectorFacts.

(** ** Re-merging *)

Module RemergeFacts.
Import ConfigMerger DictFacts MergeFacts ConfigFacts.

(** *** The layers of a re-merge *)

Lemma unique_keys_merge_item (result : dict) key value :
  unique_keys result -> unique_keys (merge_item result key value).
Proof.
  intros U. unfold merge_item.
  destruct (lookup key result) as [[]|]; destruct value;
    now apply unique_keys_set.
Qed.

Lemma unique_keys_deep_merge (override base : dict) :
  unique_keys base -> unique_keys (_deep_merge base override).
Proof.
  revert base. induction override as [|[key value] rest IH]; intros base U.
  - exact U.
  - rewrite deep_merge_cons. apply IH. now apply unique_keys_merge_item.
Qed.

Lemma lookup_app_fresh {A} k (v : A) (d : list (string * A)) k' :
  lookup k' d = None -> k' <> k -> lookup k' (d ++ [(k, v)]) = None.
Proof.
  intros L N. induction d as [|[k0 v0] d IH]; cbn in *.
  - apply String.eqb_neq in N. now rewrite N.
  - destruct (String.eqb k' k0); [discriminate | now apply IH].
Qed.

(** Merging a dict whose keys are new to the base appends it. *)
Lemma deep_merge_fresh (override base : dict) :
  unique_keys override ->
  (forall k, In k (keys override) -> lookup k base = None) ->
  _deep_merge base override = base ++ override.
Proof.
  revert base. induction override as [|[key value] rest IH]; intros base U Fresh.
  - cbn. now rewrite app_nil_r.
  - unfold unique_keys, keys in U. cbn in U. inversion U as [|? ? Hnot U']; subst.
    rewrite deep_merge_cons.
    assert (E : merge_item base key value = base ++ [(key, value)]).
    { unfold merge_item. rewrite (Fresh key) by now left.
      apply set_fresh. apply Fresh. now left. }
    rewrite E.
    rewrite IH; [now rewrite <- app_assoc | exact U' |].
    intros k Hk. apply lookup_app_fresh; [apply Fresh; now right|].
    intros ->. contradiction.
Qed.

Lemma remerge_layers (c : dict) fw :
  unique_keys c ->
  merged_layers {| global_config := c; framework_defaults := [] |} [] fw = c.
Proof.
  intros U. unfold merged_layers. cbn [global_config framework_defaults lookup].
  rewrite !deep_merge_nil. rewrite deep_merge_fresh; auto.
Qed.

Lemma unique_keys_merged_layers M A fw : unique_keys (merged_layers M A fw).
Proof.
  unfold merged_layers. repeat apply unique_keys_deep_merge. constructor.
Qed.

Lemma unique_keys_environment_overrides env (c : dict) :
  unique_keys c -> unique_keys (_add_environment_overrides env c).
Proof.
  unfold _add_environment_overrides.
  destruct (getenv_truthy env "BUILD_BUILDNUMBER"); [apply unique_keys_set | easy].
Qed.

Lemma unique_keys_after_section key (c : dict) s :
  unique_keys c -> unique_keys (set key s (ensure_section key c)).
Proof. intros U. now apply unique_keys_set, unique_keys_ensure_section. Qed.

(** *** The chain of sections [merge_config] goes through *)

Section Chain.
Context `{Runtime}.
Variables (M : SmartConfigMerger) (A : dict) (fw : string).

Definition docker_body (env : environ) (config : dict) (docker_config : value)
  : result value :=
  bind (docker_defaults M env config docker_config) (fun x => image_tags env x).

(** The config after each block, given what the block stored. *)
Definition after_app (env : environ) (sa : value) : dict :=
  set "app" sa
    (ensure_section "app" (_add_environment_overrides env (merged_layers M A fw))).

Definition after_source (env : environ) (sa ss : value) : dict :=
  set "source" ss (ensure_section "source" (after_app env sa)).

Definition after_docker (env : environ) (sa ss sd : value) : dict :=
  set "docker" sd (ensure_section "docker" (after_source env sa ss)).

Definition after_deployment (env : environ) (sa ss sd sp : value) : dict :=
  set "deployment" sp (ensure_section "deployment" (after_docker env sa ss sd)).

Definition chain (env : environ) (sa ss sd sp : value) : Prop :=
  app_values env A fw
    (get_d (_add_environment_overrides env (merged_layers M A fw)) "app" (VDict []))
  = Ok sa /\
  source_values env (get_d (after_app env sa) "source" (VDict [])) = Ok ss /\
  docker_body env (ensure_section "docker" (after_source env sa ss))
    (get_d (after_source env sa ss) "docker" (VDict [])) = Ok sd /\
  deployment_values (ensure_section "deployment" (after_docker env sa ss sd))
    (get_d (after_docker env sa ss sd) "deployment" (VDict [])) = Ok sp.

Lemma merge_config_chain env c :
  merge_config M env A fw = Ok c ->
  exists sa ss sd sp,
    chain env sa ss sd sp /\ c = after_deployment env sa ss sd sp.
Proof.
  unfold merge_config, _add_auto_detected_values. intros Hm.
  inv_bind Hm. rename x into c1. apply with_section_ok in Hx.
  destruct Hx as (sa & Ha & ->).
  inv_bind Hm. rename x into c2. apply with_section_ok in Hx.
  destruct Hx as (ss & Hs & ->).
  inv_bind Hm. rename x into c3. apply with_section_ok in Hx.
  destruct Hx as (sd & Hd & ->).
  apply with_section_ok in Hm. destruct Hm as (sp & Hp & ->).
  exists sa, ss, sd, sp. repeat split; assumption.
Qed.

Lemma chain_merge_config env sa ss sd sp :
  chain env sa ss sd sp ->
  merge_config M env A fw = Ok (after_deployment env sa ss sd sp).
Proof.
  intros (Ha & Hs & Hd & Hp). unfold merge_config, _add_auto_detected_values.
  unfold after_deployment, after_docker, after_source, after_app, docker_body in *.
  rewrite (with_section_total "app" _ (fun _ => app_values env A fw) sa Ha).
  cbn [bind].
  rewrite (with_section_total "source" _ (fun _ => source_values env) ss Hs).
  cbn [bind].
  rewrite (with_section_total "docker" _
             (fun config docker_config =>
                bind (docker_defaults M env config docker_config)
                     (fun x => image_tags env x)) sd Hd).
  cbn [bind].
  now rewrite (with_section_total "deployment" _ deployment_values sp Hp).
Qed.

Lemma lookup_after_deployment env sa ss sd sp k :
  lookup k (after_deployment env sa ss sd sp)
  = if String.eqb k "deployment" then Some sp
    else if String.eqb k "docker" then Some sd
    else if String.eqb k "source" then Some ss
    else if String.eqb k "app" then Some sa
    else lookup k (_add_environment_overrides env (merged_layers M A fw)).
Proof.
  unfold after_deployment, after_docker, after_source, after_app.
  now rewrite !lookup_after_section.
Qed.

End Chain.

(** *** What a merged config looks like *)

Section Shape.
Context `{Runtime}.

Lemma getenv_or_twice env name default :
  getenv_or env name (getenv_or env name default) = getenv_or env name default.
Proof. unfold getenv_or. now destruct (env name). Qed.

Lemma source_dict_twice env s :
  source_dict env (source_dict env s) = source_dict env s.
Proof.
  set (s' := source_dict env s).
  unfold source_dict at 1. cbv zeta.
  assert (E1 : set "repo_url"
                 (getenv_or env "BUILD_REPOSITORY_URI" (get_d s' "repo_url" (VStr "")))
                 s' = s').
  { apply set_same. unfold get_d, s'.
    rewrite lookup_repo_url_source_dict. now rewrite getenv_or_twice. }
  rewrite E1.
  assert (E2 : set "branch"
                 (getenv_or env "BUILD_SOURCEBRANCHNAME" (get_d s' "branch" (VStr "main")))
                 s' = s').
  { apply set_same. unfold get_d, s'.
    rewrite lookup_branch_source_dict. unfold branch_of.
    now rewrite getenv_or_twice. }
  rewrite E2. apply set_same. apply lookup_commit_sha_source_dict.
Qed.

Lemma tags_dict_twice env repository image d :
  tags_dict env repository image (tags_dict env repository image d)
  = tags_dict env repository image d.
Proof.
  set (d' := tags_dict env repository image d).
  unfold tags_dict at 1. cbv zeta.
  assert (E1 : set "tag" (VStr ("v" ++ build_number_of env)) d' = d').
  { apply set_same. unfold d'. now rewrite lookup_tags_dict. }
  rewrite E1.
  assert (E2 : set "full_image"
                 (VStr (ref_text repository image (VStr ("v" ++ build_number_of env))))
                 d' = d').
  { apply set_same. unfold d'. now rewrite lookup_tags_dict. }
  rewrite E2. apply set_same. unfold d'. now rewrite lookup_tags_dict.
Qed.

Lemma framed_app_twice fw a : framed_app fw (framed_app fw a) = framed_app fw a.
Proof.
  set (a' := framed_app fw a). unfold framed_app at 1.
  assert (E1 : set "framework" (VStr fw) a' = a').
  { apply set_same. unfold a', framed_app.
    rewrite lookup_set_neq by discriminate. apply lookup_set_eq. }
  rewrite E1. apply set_same. unfold a', framed_app. apply lookup_set_eq.
Qed.

(** A deployment section that got through once gets through again, as it
    is, whatever the config around it. *)
Lemma deployment_values_stable config v r :
  deployment_values config v = Ok r ->
  forall config', deployment_values config' r = Ok r.
Proof.
  intros Hv config'.
  destruct v as [| | | | s | l | p]; try discriminate.
  - unfold deployment_values in *. cbn in *.
    destruct (is_substring "namespace" s) eqn:N; cbn in *.
    + destruct (is_substring "environment" s) eqn:E; cbn in *.
      * injection Hv as <-. cbn. rewrite N. cbn. now rewrite E.
      * destruct (lookup "source" config) as [sc|]; [cbn in Hv|discriminate].
        destruct (py_get sc "branch" _); discriminate.
    + destruct (app_name_of config); discriminate.
  - unfold deployment_values in *. cbn in *.
    destruct (existsb (is_str "namespace") l) eqn:N; cbn in *.
    + destruct (existsb (is_str "environment") l) eqn:E; cbn in *.
      * injection Hv as <-. cbn. rewrite N. cbn. now rewrite E.
      * destruct (lookup "source" config) as [sc|]; [cbn in Hv|discriminate].
        destruct (py_get sc "branch" _); discriminate.
    + destruct (app_name_of config); discriminate.
  - rewrite deployment_values_dict in Hv. inv_bind Hv. injection Hv as <-.
    destruct (deployment_dict_ok config p x Hx) as [N E].
    rewrite deployment_values_dict. unfold deployment_dict.
    rewrite N. cbn [bind]. now rewrite E.
Qed.

Lemma docker_defaults_present M env config (d : dict) :
  mem "repository" d = true -> mem "image" d = true ->
  docker_defaults M env config (VDict d) = Ok (VDict d).
Proof.
  intros Hr Hi. rewrite docker_defaults_dict. unfold docker_dict_defaults.
  rewrite Hr. cbn [bind]. now rewrite Hi.
Qed.

(** The shape of every config [merge_config] returns, for the environment
    and framework it was merged under. *)
Record merged_shape (env : environ) (fw : string) (c : dict) : Prop := {
  shape_unique : unique_keys c;
  shape_build_info :
    getenv_truthy env "BUILD_BUILDNUMBER" = true ->
    lookup "build_info" c = Some (build_info_block env);
  shape_app :
    exists a, lookup "app" c = Some (VDict (framed_app fw a)) /\ mem "name" a = true;
  shape_source :
    exists s, lookup "source" c = Some (VDict (source_dict env s));
  shape_docker :
    exists d repository image,
      lookup "docker" c = Some (VDict (tags_dict env repository image d)) /\
      lookup "repository" d = Some repository /\ lookup "image" d = Some image;
  shape_deployment :
    exists v, lookup "deployment" c = Some v /\
              forall config, deployment_values config v = Ok v
}.

Lemma merge_config_shape M env A fw c :
  merge_config M env A fw = Ok c -> merged_shape env fw c.
Proof.
  intros Hm. apply merge_config_chain in Hm.
  destruct Hm as (sa & ss & sd & sp & (Ha & Hs & Hd & Hp) & ->).
  apply app_values_ok in Ha. destruct Ha as (a & a1 & _ & Hn & ->).
  apply source_values_ok in Hs. destruct Hs as (s & _ & ->).
  unfold docker_body in Hd. inv_bind Hd. apply image_tags_ok in Hd.
  destruct Hd as (d & repository & image & -> & Hr & Hi & ->).
  split.
  - unfold after_deployment, after_docker, after_source, after_app.
    repeat apply unique_keys_after_section.
    apply unique_keys_environment_overrides, unique_keys_merged_layers.
  - intros T. rewrite lookup_after_deployment. cbn.
    unfold _add_environment_overrides. rewrite T. apply lookup_set_eq.
  - exists a1. rewrite lookup_after_deployment. cbn. split; [reflexivity|].
    exact (named_app_has_name _ _ _ _ Hn).
  - exists s. now rewrite lookup_after_deployment.
  - exists d, repository, image. now rewrite lookup_after_deployment.
  - exists sp. rewrite lookup_after_deployment. split; [reflexivity|].
    exact (deployment_values_stable _ _ _ Hp).
Qed.

(** Under the environment and framework it was merged with, a merged
    config re-merges to itself. *)
Lemma remerge_same env fw c :
  merged_shape env fw c -> remerge env c fw = Ok c.
Proof.
  intros [U B (a & La & Na) (s & Ls) (d & repository & image & Ld & Lr & Li)
            (v & Lv & Sv)].
  unfold remerge.
  set (M' := {| global_config := c; framework_defaults := [] |}).
  assert (E0 : _add_environment_overrides env (merged_layers M' [] fw) = c).
  { unfold M'. rewrite remerge_layers by exact U.
    unfold _add_environment_overrides.
    destruct (getenv_truthy env "BUILD_BUILDNUMBER") eqn:T; [|reflexivity].
    apply set_same. now apply B. }
  assert (E1 : after_app M' [] fw env (VDict (framed_app fw a)) = c).
  { unfold after_app. rewrite E0.
    rewrite (ensure_section_present "app" c _ La). now apply set_same. }
  assert (E2 : after_source M' [] fw env (VDict (framed_app fw a))
                 (VDict (source_dict env s)) = c).
  { unfold after_source. rewrite E1.
    rewrite (ensure_section_present "source" c _ Ls). now apply set_same. }
  assert (E3 : after_docker M' [] fw env (VDict (framed_app fw a))
                 (VDict (source_dict env s))
                 (VDict (tags_dict env repository image d)) = c).
  { unfold after_docker. rewrite E2.
    rewrite (ensure_section_present "docker" c _ Ld). now apply set_same. }
  assert (E4 : after_deployment M' [] fw env (VDict (framed_app fw a))
                 (VDict (source_dict env s))
                 (VDict (tags_dict env repository image d)) v = c).
  { unfold after_deployment. rewrite E3.
    rewrite (ensure_section_present "deployment" c _ Lv). now apply set_same. }
  rewrite (chain_merge_config M' [] fw env (VDict (framed_app fw a))
             (VDict (source_dict env s))
             (VDict (tags_dict env repository image d)) v); [now rewrite E4|].
  unfold chain. rewrite E0, E1, E2, E3.
  unfold get_d. rewrite La, Ls, Ld, Lv.
  repeat split.
  - rewrite app_values_dict. unfold named_app.
    rewrite mem_framed_app, Na, !orb_true_r. cbn [bind].
    now rewrite framed_app_twice.
  - rewrite source_values_dict. now rewrite source_dict_twice.
  - unfold docker_body. rewrite docker_defaults_present.
    + cbn [bind].
      rewrite (image_tags_dict env (tags_dict env repository image d) repository image).
      * now rewrite tags_dict_twice.
      * rewrite lookup_tags_dict. cbn. exact Lr.
      * rewrite lookup_tags_dict. cbn. exact Li.
    + unfold mem. rewrite lookup_tags_dict. cbn. now rewrite Lr.
    + unfold mem. rewrite lookup_tags_dict. cbn. now rewrite Li.
  - apply Sv.
Qed.

(** *** Two environments that differ in the build number *)

Lemma getenv_or_same env env' name default :
  same_but_build_number env env' -> name <> "BUILD_BUILDNUMBER" ->
  getenv_or env name default = getenv_or env' name default.
Proof. intros S N. unfold getenv_or. now rewrite (S name N). Qed.

Lemma app_values_same env env' original_config fw v :
  same_but_build_number env env' ->
  app_values env original_config fw v = app_values env' original_config fw v.
Proof.
  intros S. unfold app_values.
  destruct (py_in "name" v) as [[|]|e]; try reflexivity. cbn [bind].
  destruct (py_get _ "name" VNone) as [oname|e]; [|reflexivity]. cbn [bind].
  now rewrite (getenv_or_same env env' "BUILD_REPOSITORY_NAME") by (auto; discriminate).
Qed.

Lemma source_values_same env env' v :
  same_but_build_number env env' -> source_values env v = source_values env' v.
Proof.
  intros S. destruct v; try reflexivity.
  rewrite !source_values_dict. unfold source_dict. cbv zeta.
  rewrite !(getenv_or_same env env' "BUILD_REPOSITORY_URI") by (auto; discriminate).
  rewrite !(getenv_or_same env env' "BUILD_SOURCEBRANCHNAME") by (auto; discriminate).
  now rewrite !(getenv_or_same env env' "BUILD_SOURCEVERSION") by (auto; discriminate).
Qed.

Lemma docker_defaults_same M env env' (config config' : dict) v :
  same_but_build_number env env' ->
  lookup "app" config = lookup "app" config' ->
  docker_defaults M env config v = docker_defaults M env' config' v.
Proof.
  intros S L. unfold docker_defaults.
  rewrite (app_name_of_ext config config' L).
  destruct (py_in "repository" v) as [[|]|e]; try reflexivity. cbn [bind].
  destruct (py_get _ "organization" _) as [organization|e]; [|reflexivity].
  cbn [bind].
  now rewrite (getenv_or_same env env' "DOCKER_REPOSITORY") by (auto; discriminate).
Qed.

Lemma deployment_values_same (config config' : dict) v :
  lookup "app" config = lookup "app" config' ->
  lookup "source" config = lookup "source" config' ->
  deployment_values config v = deployment_values config' v.
Proof.
  intros La Ls. unfold deployment_values.
  rewrite (app_name_of_ext config config' La).
  cbn [py_getitem]. now rewrite Ls.
Qed.

Lemma lookup_layer env (L : dict) k :
  k <> "build_info" ->
  get_d (_add_environment_overrides env L) k (VDict []) = get_d L k (VDict []).
Proof. intros N. unfold get_d. now rewrite lookup_environment_overrides. Qed.

(** Merging the same layers under an environment that differs in the build
    number stores the same four sections, but for the tags of the docker
    section. *)
Lemma merge_config_other_build_number M A fw env env' c :
  merge_config M env A fw = Ok c ->
  same_but_build_number env env' ->
  exists sa ss d repository image sp,
    lookup "repository" d = Some repository /\
    lookup "image" d = Some image /\
    c = after_deployment M A fw env sa ss
          (VDict (tags_dict env repository image d)) sp /\
    merge_config M env' A fw
    = Ok (after_deployment M A fw env' sa ss
            (VDict (tags_dict env' repository image d)) sp).
Proof.
  intros Hm S. apply merge_config_chain in Hm.
  destruct Hm as (sa & ss & sd & sp & (Ha & Hs & Hd & Hp) & ->).
  unfold docker_body in Hd. inv_bind Hd. apply image_tags_ok in Hd.
  destruct Hd as (d & repository & image & -> & Hr & Hi & ->).
  exists sa, ss, d, repository, image, sp.
  split; [exact Hr|]. split; [exact Hi|]. split; [reflexivity|].
  apply chain_merge_config. unfold chain. repeat split.
  - rewrite lookup_layer in * by discriminate.
    now rewrite <- (app_values_same env env').
  - rewrite <- Hs, <- (source_values_same env env') by assumption.
    f_equal. unfold get_d, after_app. rewrite !lookup_after_section. cbn.
    now rewrite !lookup_environment_overrides by discriminate.
  - unfold docker_body.
    assert (G : get_d (after_source M A fw env' sa ss) "docker" (VDict [])
                = get_d (after_source M A fw env sa ss) "docker" (VDict [])).
    { unfold get_d, after_source, after_app. rewrite !lookup_after_section. cbn.
      now rewrite !lookup_environment_overrides by discriminate. }
    rewrite G.
    rewrite <- (docker_defaults_same M env env'
                  (ensure_section "docker" (after_source M A fw env sa ss))
                  (ensure_section "docker" (after_source M A fw env' sa ss)))
      by (try assumption;
          rewrite !lookup_ensure_section; cbn; unfold after_source, after_app;
          now rewrite !lookup_after_section).
    rewrite Hx. cbn [bind]. now apply image_tags_dict.
  - rewrite <- Hp.
    assert (G : get_d (after_docker M A fw env' sa ss
                         (VDict (tags_dict env' repository image d)))
                  "deployment" (VDict [])
                = get_d (after_docker M A fw env sa ss
                           (VDict (tags_dict env repository image d)))
                    "deployment" (VDict [])).
    { unfold get_d, after_docker, after_source, after_app.
      rewrite !lookup_after_section. cbn.
      now rewrite !lookup_environment_overrides by discriminate. }
    rewrite G. apply deployment_values_same;
      rewrite !lookup_ensure_section; cbn;
      unfold after_docker, after_source, after_app;
      now rewrite !lookup_after_section.
Qed.

Lemma append_cancel (p a b : string) : (p ++ a = p ++ b)%string -> a = b.
Proof.
  induction p as [|ch p IH]; cbn; [easy|]. intros E. injection E as E. auto.
Qed.

(** A merged config re-merges under every environment: the app and the
    deployment sections come back as they are, the tags of the docker
    section are those of the new environment. *)
Lemma remerge_any_environment env env' fw c :
  merged_shape env fw c ->
  exists c1 d d1 repository image,
    remerge env' c fw = Ok c1 /\
    lookup "docker" c = Some (VDict (tags_dict env repository image d)) /\
    lookup "docker" c1 = Some (VDict (tags_dict env' repository image d1)).
Proof.
  intros [U B (a & La & Na) (s & Ls) (d & repository & image & Ld & Lr & Li)
            (v & Lv & Sv)].
  unfold remerge.
  set (M' := {| global_config := c; framework_defaults := [] |}).
  set (sa := VDict (framed_app fw a)).
  set (ss := VDict (source_dict env' (source_dict env s))).
  set (d1 := tags_dict env repository image d).
  set (sd := VDict (tags_dict env' repository image d1)).
  assert (E0 : forall k, k <> "build_info" ->
             lookup k (_add_environment_overrides env' (merged_layers M' [] fw))
             = lookup k c).
  { intros k N. unfold M'. rewrite remerge_layers by exact U.
    now apply lookup_environment_overrides. }
  exists (after_deployment M' [] fw env' sa ss sd v), d, d1, repository, image.
  split; [|split; [exact Ld|]].
  2:{ rewrite lookup_after_deployment. reflexivity. }
  apply chain_merge_config. unfold chain. split; [|split; [|split]].
  - unfold get_d. rewrite E0, La by discriminate.
    rewrite app_values_dict. unfold named_app.
    rewrite mem_framed_app, Na, !orb_true_r. cbn [bind].
    unfold sa. now rewrite framed_app_twice.
  - unfold get_d, after_app. rewrite lookup_after_section. cbn [String.eqb Ascii.eqb Bool.eqb].
    rewrite E0, Ls by discriminate. apply source_values_dict.
  - unfold docker_body, get_d, after_source, after_app.
    rewrite !lookup_after_section. cbn [String.eqb Ascii.eqb Bool.eqb].
    rewrite E0, Ld by discriminate. unfold sd, d1.
    rewrite docker_defaults_present.
    + cbn [bind]. apply image_tags_dict.
      * rewrite lookup_tags_dict. cbn. exact Lr.
      * rewrite lookup_tags_dict. cbn. exact Li.
    + unfold mem. rewrite lookup_tags_dict. cbn. now rewrite Lr.
    + unfold mem. rewrite lookup_tags_dict. cbn. now rewrite Li.
  - unfold get_d, after_docker, after_source, after_app.
    rewrite !lookup_after_section. cbn [String.eqb Ascii.eqb Bool.eqb].
    rewrite E0, Lv by discriminate. apply Sv.
Qed.

Lemma build_number_of_same env env' :
  env' "BUILD_BUILDNUMBER" = env "BUILD_BUILDNUMBER" ->
  build_number_of env' = build_number_of env.
Proof. intros E. unfold build_number_of, getenv_str. now rewrite E. Qed.

(** C8, amended.  Take a config [merge_config] returned and re-merge it
    with an empty [app_config] layer.  Under an environment with the same
    build-number variable, whatever its other variables, the re-merge
    returns a config with the same [docker.tag] and the same
    [docker.full_image].  Under an environment that differs from it in the
    build-number variable, it returns a config with [docker.tag] and
    [docker.full_image] recomputed from the new build number (and different
    whenever the build number is), and with the [build_info] block of the
    new environment when that sets a build number; [docker.latest_image],
    every other docker entry and every other section are unchanged. *)
Theorem remerge_frame M env env1 env2 A fw c :
  merge_config M env A fw = Ok c ->
  env1 "BUILD_BUILDNUMBER" = env "BUILD_BUILDNUMBER" ->
  same_but_build_number env env2 ->
  (exists c1 tag full_image,
     remerge env1 c fw = Ok c1 /\
     lookup_path ["docker"; "tag"] c = Some tag /\
     lookup_path ["docker"; "tag"] c1 = Some tag /\
     lookup_path ["docker"; "full_image"] c = Some full_image /\
     lookup_path ["docker"; "full_image"] c1 = Some full_image) /\
  exists c' d d' repository image,
    remerge env2 c fw = Ok c' /\
    lookup "docker" c = Some (VDict d) /\
    lookup "docker" c' = Some (VDict d') /\
    lookup "repository" d = Some repository /\
    lookup "image" d = Some image /\
    lookup "tag" d' = Some (VStr ("v" ++ build_number_of env2)) /\
    lookup "full_image" d'
    = Some (VStr (ref_text repository image (VStr ("v" ++ build_number_of env2)))) /\
    lookup "latest_image" d' = lookup "latest_image" d /\
    (forall k, k <> "tag" -> k <> "full_image" -> lookup k d' = lookup k d) /\
    (forall k, k <> "docker" -> k <> "build_info" -> lookup k c' = lookup k c) /\
    lookup "build_info" c'
    = (if getenv_truthy env2 "BUILD_BUILDNUMBER"
       then Some (build_info_block env2)
       else lookup "build_info" c) /\
    (build_number_of env2 <> build_number_of env ->
     lookup "tag" d' <> lookup "tag" d /\
     lookup "full_image" d' <> lookup "full_image" d).
Proof.
  intros Hm Hsame S. rename env2 into env'.
  pose proof (merge_config_shape M env A fw c Hm) as Sh.
  pose proof (remerge_same env fw c Sh) as Same.
  split.
  { destruct (remerge_any_environment env env1 fw c Sh)
      as (c1 & d & d1 & repository & image & H1 & Ld & Ld1).
    exists c1, (VStr ("v" ++ build_number_of env)),
      (VStr (ref_text repository image (VStr ("v" ++ build_number_of env)))).
    split; [exact H1|].
    cbn [lookup_path]. rewrite Ld, Ld1, !lookup_tags_dict. cbn.
    rewrite (build_number_of_same env env1 Hsame). repeat split. }
  assert (U : unique_keys c) by (now destruct Sh).
  set (M' := {| global_config := c; framework_defaults := [] |}).
  destruct (merge_config_other_build_number M' [] fw env env' c Same S)
    as (sa & ss & d0 & repository & image & sp & Hr & Hi & Hc & Hm').
  assert (L : forall k,
             lookup k c
             = if String.eqb k "deployment" then Some sp
               else if String.eqb k "docker"
               then Some (VDict (tags_dict env repository image d0))
               else if String.eqb k "source" then Some ss
               else if String.eqb k "app" then Some sa
               else lookup k (_add_environment_overrides env c)).
  { intros k.
    pose proof (lookup_after_deployment M' [] fw env sa ss
                  (VDict (tags_dict env repository image d0)) sp k) as E.
    rewrite <- Hc in E. unfold M' in E. now rewrite remerge_layers in E. }
  set (c' := after_deployment M' [] fw env' sa ss
               (VDict (tags_dict env' repository image d0)) sp) in *.
  assert (L' : forall k,
             lookup k c'
             = if String.eqb k "deployment" then Some sp
               else if String.eqb k "docker"
               then Some (VDict (tags_dict env' repository image d0))
               else if String.eqb k "source" then Some ss
               else if String.eqb k "app" then Some sa
               else lookup k (_add_environment_overrides env' c)).
  { intros k. unfold c'. rewrite lookup_after_deployment.
    unfold M'. now rewrite remerge_layers. }
  exists c', (tags_dict env repository image d0),
    (tags_dict env' repository image d0), repository, image.
  split; [exact Hm'|].
  split; [now rewrite L|]. split; [now rewrite L'|].
  split; [rewrite lookup_tags_dict; cbn; exact Hr|].
  split; [rewrite lookup_tags_dict; cbn; exact Hi|].
  split; [now rewrite lookup_tags_dict|].
  split; [now rewrite lookup_tags_dict|].
  split; [now rewrite !lookup_tags_dict|].
  split.
  { intros k Nt Nf. rewrite !lookup_tags_dict.
    apply String.eqb_neq in Nt, Nf. now rewrite Nt, Nf. }
  split.
  { intros k Nd Nb. rewrite L'.
    rewrite lookup_environment_overrides by assumption.
    pose proof (L k) as Lk.
    rewrite lookup_environment_overrides in Lk by assumption.
    apply String.eqb_neq in Nd. rewrite Nd in Lk. rewrite Nd.
    symmetry. exact Lk. }
  split.
  { rewrite L'. cbn. unfold _add_environment_overrides.
    destruct (getenv_truthy env' "BUILD_BUILDNUMBER"); [apply lookup_set_eq|].
    reflexivity. }
  intros Nb. rewrite !lookup_tags_dict. cbn. split.
  - intros E. injection E as E. now apply Nb.
  - intros E. injection E as E. unfold ref_text in E. cbn [py_str] in E.
    apply append_cancel in E. cbn in E. injection E as E.
    apply append_cancel in E. cbn in E. injection E as E. now apply Nb.
Qed.

End Shape.

(** *** Sample re-merges *)

(** An environment that sets the build number alone. *)
Definition build_env (build_number : string) : environ :=
  fun name =>
    if String.eqb name "BUILD_BUILDNUMBER" then Some build_number else None.

Definition shop_layer : dict := [("app", VDict [("name", VStr "shop")])].

Lemma same_but_build_number_build_env b1 b2 :
  same_but_build_number (build_env b1) (build_env b2).
Proof.
  intros name N. unfold build_env. apply String.eqb_neq in N. now rewrite N.
Qed.

(** C8, as stated, fails: re-merging under build number 42 a config merged
    under build number 41 changes [docker.tag] and [docker.full_image] and
    leaves [docker.latest_image] as it was, and it changes the [build_info]
    block besides. *)
Lemma remerge_keeps_latest_image_changes_build_info :
  exists c c',
    merge_config (H := plain_runtime) no_layers (build_env "41") shop_layer "react"
    = Ok c /\
    remerge (H := plain_runtime) (build_env "42") c "react" = Ok c' /\
    lookup_path ["docker"; "tag"] c = Some (VStr "v41") /\
    lookup_path ["docker"; "tag"] c' = Some (VStr "v42") /\
    lookup_path ["docker"; "full_image"] c' = Some (VStr "myorg/shop:v42") /\
    lookup_path ["docker"; "latest_image"] c = Some (VStr "myorg/shop:latest") /\
    lookup_path ["docker"; "latest_image"] c' = Some (VStr "myorg/shop:latest") /\
    lookup_path ["build_info"; "build_number"] c = Some (VStr "41") /\
    lookup_path ["build_info"; "build_number"] c' = Some (VStr "42").
Proof. eexists _, _. repeat split. Qed.

(** The shop layer merged under build number 41. *)
Definition shop_merged : dict :=
  [("app", VDict [("name", VStr "shop"); ("framework", VStr "react");
                  ("detected_framework", VStr "react")]);
   ("build_info", build_info_block (build_env "41"));
   ("source", VDict [("repo_url", VStr ""); ("branch", VStr "main");
                     ("commit_sha", VStr "")]);
   ("docker", VDict [("repository", VStr "myorg"); ("image", VStr "shop");
                     ("tag", VStr "v41");
                     ("full_image", VStr "myorg/shop:v41");
                     ("latest_image", VStr "myorg/shop:latest")]);
   ("deployment", VDict [("namespace", VStr "shop");
                         ("environment", VStr "production")])].

(** The environment of build 41 on another branch. *)
Definition develop_env : environ :=
  fun name =>
    if String.eqb name "BUILD_BUILDNUMBER" then Some "41"
    else if String.eqb name "BUILD_SOURCEBRANCHNAME" then Some "develop"
    else None.

Lemma remerge_frame_witness :
  (exists c1 tag full_image,
     remerge (H := plain_runtime) develop_env shop_merged "react" = Ok c1 /\
     lookup_path ["docker"; "tag"] shop_merged = Some tag /\
     lookup_path ["docker"; "tag"] c1 = Some tag /\
     lookup_path ["docker"; "full_image"] shop_merged = Some full_image /\
     lookup_path ["docker"; "full_image"] c1 = Some full_image) /\
  exists c' d d' repository image,
    remerge (H := plain_runtime) (build_env "42") shop_merged "react" = Ok c' /\
    lookup "docker" shop_merged = Some (VDict d) /\
    lookup "docker" c' = Some (VDict d') /\
    lookup "repository" d = Some repository /\
    lookup "image" d = Some image /\
    lookup "tag" d' = Some (VStr ("v" ++ build_number_of (build_env "42"))) /\
    lookup "full_image" d'
    = Some (VStr (ref_text (H := plain_runtime) repository image
                    (VStr ("v" ++ build_number_of (build_env "42"))))) /\
    lookup "latest_image" d' = lookup "latest_image" d /\
    (forall k, k <> "tag" -> k <> "full_image" -> lookup k d' = lookup k d) /\
    (forall k, k <> "docker" -> k <> "build_info" ->
               lookup k c' = lookup k shop_merged) /\
    lookup "build_info" c'
    = (if getenv_truthy (build_env "42") "BUILD_BUILDNUMBER"
       then Some (build_info_block (build_env "42"))
       else lookup "build_info" shop_merged) /\
    (build_number_of (build_env "42") <> build_number_of (build_env "41") ->
     lookup "tag" d' <> lookup "tag" d /\
     lookup "full_image" d' <> lookup "full_image" d).
Proof.
  exact (remerge_frame (H := plain_runtime) no_layers (build_env "41")
           develop_env (build_env "42") shop_layer "react" shop_merged eq_refl
           eq_refl (same_but_build_number_build_env "41" "42")).
Defined.

(** The re-merge on the other branch, run: the source section and the
    [build_info] block follow the new environment, the tag and the full
    image stay. *)
Example remerge_on_another_branch :
  exists c1,
    remerge (H := plain_runtime) develop_env shop_merged "react" = Ok c1 /\
    lookup_path ["source"; "branch"] shop_merged = Some (VStr "main") /\
    lookup_path ["source"; "branch"] c1 = Some (VStr "develop") /\
    lookup_path ["docker"; "tag"] c1 = Some (VStr "v41") /\
    lookup_path ["docker"; "full_image"] c1 = Some (VStr "myorg/shop:v41").
Proof. eexists. repeat split. Qed.

End RemergeFacts.

(** ** What a resolved configuration holds *)

Module ResolutionFacts.
Import ConfigMerger DictFacts MergeFacts ConfigFacts RemergeFacts.

Lemma get_d_after_section key (config : dict) r k d :
  k <> key ->
  get_d (set key r (ensure_section key config)) k d = get_d config k d.
Proof.
  intros N. unfold get_d. rewrite lookup_after_section.
  apply String.eqb_neq in N. now rewrite N.
Qed.

Section Resolved.
Context `{Runtime}.
Variables (M : SmartConfigMerger) (env : environ) (A : dict) (fw : string).

(** The sections of the config [merge_config] returns on well-shaped
    layers, each by the computation that filled it. *)
Lemma merge_config_resolved :
  well_shaped M A fw = true ->
  exists c a0 a1 s0 d0 d1 p0 p1 repository image name config2 config3,
    merge_config M env A fw = Ok c /\
    get_d (merged_layers M A fw) "app" (VDict []) = VDict a0 /\
    get_d (merged_layers M A fw) "source" (VDict []) = VDict s0 /\
    get_d (merged_layers M A fw) "docker" (VDict []) = VDict d0 /\
    get_d (merged_layers M A fw) "deployment" (VDict []) = VDict p0 /\
    named_app env A a0 = Ok a1 /\
    lookup "name" a1 = Some name /\
    app_name_of config2 = Ok name /\
    app_name_of config3 = Ok name /\
    lookup "source" config3 = Some (VDict (source_dict env s0)) /\
    docker_dict_defaults M env config2 d0 = Ok d1 /\
    lookup "repository" d1 = Some repository /\
    lookup "image" d1 = Some image /\
    deployment_dict config3 p0 = Ok p1 /\
    lookup "app" c = Some (VDict (framed_app fw a1)) /\
    lookup "source" c = Some (VDict (source_dict env s0)) /\
    lookup "docker" c = Some (VDict (tags_dict env repository image d1)) /\
    lookup "deployment" c = Some (VDict p1) /\
    (forall k, k <> "app" -> k <> "source" -> k <> "docker" -> k <> "deployment" ->
       lookup k c
       = lookup k (_add_environment_overrides env (merged_layers M A fw))).
Proof.
  intros W.
  destruct (merge_config_sections M env A fw W)
    as (c & _ & s0 & _ & p0 & _ & Hm & Hs0 & Hp0 & _).
  unfold well_shaped in W. cbv zeta in W.
  set (L := merged_layers M A fw) in *.
  apply andb_prop in W; destruct W as [W _].
  apply andb_prop in W; destruct W as [W _].
  apply andb_prop in W; destruct W as [W _].
  apply andb_prop in W; destruct W as [W Hdock].
  apply andb_prop in W; destruct W as [W _].
  apply is_section_get_d in W. destruct W as (a0 & Ha0 & _).
  apply is_section_get_d in Hdock. destruct Hdock as (d0 & Hd0 & _).
  pose proof (merge_config_chain M A fw env c Hm) as Hc.
  destruct Hc as (sa & ss & sd & sp & (Ha & Hs & Hd & Hp) & ->).
  fold L in Ha.
  rewrite lookup_layer, Ha0 in Ha by discriminate.
  rewrite app_values_dict in Ha. inv_bind Ha. rename x into a1.
  injection Ha as <-.
  assert (Gs : get_d (after_app M A fw env (VDict (framed_app fw a1))) "source"
                 (VDict []) = VDict s0).
  { unfold after_app. rewrite get_d_after_section by discriminate.
    now rewrite lookup_layer by discriminate. }
  rewrite Gs, source_values_dict in Hs. injection Hs as <-.
  set (c2 := after_source M A fw env (VDict (framed_app fw a1))
               (VDict (source_dict env s0))) in *.
  assert (Gd : get_d c2 "docker" (VDict []) = VDict d0).
  { unfold c2, after_source, after_app.
    rewrite !get_d_after_section by discriminate.
    now rewrite lookup_layer by discriminate. }
  unfold docker_body in Hd. rewrite Gd, docker_defaults_dict in Hd.
  inv_bind Hd. inv_bind Hx0. rename x0 into d1. injection Hx0 as <-.
  apply image_tags_ok in Hd.
  destruct Hd as (d1' & repository & image & E & Hr & Hi & ->).
  injection E as <-.
  set (c3 := after_docker M A fw env (VDict (framed_app fw a1))
               (VDict (source_dict env s0))
               (VDict (tags_dict env repository image d1))) in *.
  assert (Gp : get_d c3 "deployment" (VDict []) = VDict p0).
  { unfold c3, after_docker, c2, after_source, after_app.
    rewrite !get_d_after_section by discriminate.
    now rewrite lookup_layer by discriminate. }
  rewrite Gp, deployment_values_dict in Hp. inv_bind Hp. rename x into p1.
  injection Hp as <-.
  pose proof (named_app_has_name _ _ _ _ Hx) as Hn.
  destruct (mem_lookup _ _ Hn) as (name & Ln).
  assert (Lf : lookup "name" (framed_app fw a1) = Some name).
  { unfold framed_app. now rewrite !lookup_set_neq by discriminate. }
  exists (after_deployment M A fw env (VDict (framed_app fw a1))
            (VDict (source_dict env s0))
            (VDict (tags_dict env repository image d1)) (VDict p1)).
  exists a0, a1, s0, d0, d1, p0, p1, repository, image, name.
  exists (ensure_section "docker" c2), (ensure_section "deployment" c3).
  split; [exact Hm|].
  split; [exact Ha0|]. split; [exact Hs0|]. split; [exact Hd0|]. split; [exact Hp0|].
  split; [exact Hx|]. split; [exact Ln|].
  split.
  { apply app_name_of_dict with (a := framed_app fw a1); [|exact Lf].
    rewrite lookup_ensure_section. cbn. unfold c2, after_source, after_app.
    now rewrite !lookup_after_section. }
  split.
  { apply app_name_of_dict with (a := framed_app fw a1); [|exact Lf].
    rewrite lookup_ensure_section. cbn.
    unfold c3, after_docker, c2, after_source, after_app.
    now rewrite !lookup_after_section. }
  split.
  { rewrite lookup_ensure_section. cbn. unfold c3, after_docker, c2, after_source.
    now rewrite !lookup_after_section. }
  split; [exact Hx1|]. split; [exact Hr|]. split; [exact Hi|]. split; [exact Hx0|].
  rewrite !lookup_after_deployment. cbn.
  repeat split.
  intros k Na Ns Nd Np. rewrite lookup_after_deployment.
  apply String.eqb_neq in Na, Ns, Nd, Np. now rewrite Na, Ns, Nd, Np.
Qed.

(** The organization [self.global_config] names, or ['myorg']. *)
Definition organization (self : SmartConfigMerger) : value :=
  match get_d (global_config self) "docker" (VDict []) with
  | VDict g => get_d g "organization" (VStr "myorg")
  | _ => VStr "myorg"
  end.

(** The name derived from the environment when no layer gives one. *)
Definition derived_name : string :=
  replace "_" "-" (lower (getenv_str env "BUILD_REPOSITORY_NAME" "unknown-app")).

Lemma docker_dict_defaults_repository config d d1 :
  docker_dict_defaults M env config d = Ok d1 ->
  lookup "repository" d1
  = Some (match lookup "repository" d with
          | Some r => r
          | None => getenv_or env "DOCKER_REPOSITORY" (organization M)
          end).
Proof.
  unfold docker_dict_defaults, organization, mem. intros Hd. inv_bind Hd.
  assert (R : lookup "repository" x
              = Some (match lookup "repository" d with
                      | Some r => r
                      | None =>
                          getenv_or env "DOCKER_REPOSITORY"
                            match get_d (global_config M) "docker" (VDict []) with
                            | VDict g => get_d g "organization" (VStr "myorg")
                            | _ => VStr "myorg"
                            end
                      end)).
  { destruct (lookup "repository" d) as [r|] eqn:E.
    - injection Hx as <-. exact E.
    - destruct (get_d (global_config M) "docker" (VDict [])); try discriminate.
      cbn in Hx. injection Hx as <-. now rewrite lookup_set_eq. }
  destruct (lookup "image" x).
  - now injection Hd as <-.
  - inv_bind Hd. injection Hd as <-. now rewrite lookup_set_neq by discriminate.
Qed.

Lemma docker_dict_defaults_image config d d1 name :
  docker_dict_defaults M env config d = Ok d1 ->
  app_name_of config = Ok name ->
  lookup "image" d1
  = Some (match lookup "image" d with Some i => i | None => name end).
Proof.
  unfold docker_dict_defaults, mem. intros Hd Hn. inv_bind Hd.
  assert (I : lookup "image" x = lookup "image" d).
  { destruct (lookup "repository" d).
    - now injection Hx as <-.
    - inv_bind Hx. injection Hx as <-. now rewrite lookup_set_neq by discriminate. }
  rewrite I in Hd. destruct (lookup "image" d) as [i|] eqn:E.
  - injection Hd as <-. congruence.
  - rewrite Hn in Hd. cbn in Hd. injection Hd as <-. now rewrite lookup_set_eq.
Qed.

Lemma deployment_dict_namespace config p p1 name :
  deployment_dict config p = Ok p1 ->
  app_name_of config = Ok name ->
  lookup "namespace" p1
  = Some (match lookup "namespace" p with Some n => n | None => name end).
Proof.
  unfold deployment_dict, mem. intros Hp Hn. inv_bind Hp.
  assert (N : lookup "namespace" x
              = Some (match lookup "namespace" p with Some n => n | None => name end)).
  { destruct (lookup "namespace" p) eqn:E.
    - injection Hx as <-. exact E.
    - rewrite Hn in Hx. cbn in Hx. injection Hx as <-. now rewrite lookup_set_eq. }
  destruct (lookup "environment" x).
  - now injection Hp as <-.
  - inv_bind Hp. inv_bind Hp. injection Hp as <-.
    now rewrite lookup_set_neq by discriminate.
Qed.

Lemma deployment_dict_environment config p p1 e :
  deployment_dict config p = Ok p1 ->
  lookup "environment" p = Some e ->
  lookup "environment" p1 = Some e.
Proof.
  unfold deployment_dict, mem. intros Hp He. inv_bind Hp.
  assert (E : lookup "environment" x = Some e).
  { destruct (lookup "namespace" p).
    - now injection Hx as <-.
    - inv_bind Hx. injection Hx as <-. now rewrite lookup_set_neq by discriminate. }
  rewrite E in Hp. now injection Hp as <-.
Qed.

(** A path of two keys through a section that is a dict or absent. *)
Lemma lookup_path_section (L : dict) key k s :
  get_d L key (VDict []) = VDict s -> lookup_path [key; k] L = lookup k s.
Proof.
  unfold get_d. cbn [lookup_path]. destruct (lookup key L) as [v|].
  - now intros ->.
  - now intros [= <-].
Qed.

(** The keys of a merge are the keys of its two sides. *)
Lemma mem_deep_merge k (override base : dict) :
  mem k (_deep_merge base override) = mem k base || mem k override.
Proof.
  revert base. induction override as [|[key value] rest IH]; intros base.
  - cbn. now rewrite orb_false_r.
  - rewrite deep_merge_cons, IH. unfold mem at 1 3 4.
    rewrite lookup_merge_item. cbn [lookup].
    destruct (String.eqb k key) eqn:E.
    + apply String.eqb_eq in E. subst key.
      destruct (lookup k base) as [[]|]; destruct value; cbn;
        now rewrite ?orb_true_r.
    + fold (mem k base). fold (mem k rest). now destruct (mem k base).
Qed.

(** When the merged layers hold no app name, the app layer holds none
    either. *)
Lemma no_name_in_app_layer a0 :
  unique_keys A ->
  get_d (merged_layers M A fw) "app" (VDict []) = VDict a0 ->
  mem "name" a0 = false ->
  exists a, get_d A "app" (VDict []) = VDict a /\ lookup "name" a = None.
Proof.
  intros U Ha0 Hn. unfold get_d in *. unfold merged_layers in Ha0. cbv zeta in Ha0.
  destruct (lookup "app" A) as [v|] eqn:E.
  - rewrite (lookup_deep_merge_present A _ "app" v U E) in Ha0.
    match type of Ha0 with
    | context [lookup "app" ?b] => destruct (lookup "app" b) as [[| | | | | |sub]|]
    end; try (subst v; exists a0; split; [reflexivity|];
              now apply mem_false_lookup).
    destruct v as [| | | | | |o]; try discriminate.
    injection Ha0 as <-. exists o. split; [reflexivity|].
    rewrite mem_deep_merge in Hn. apply orb_false_elim in Hn.
    now apply mem_false_lookup.
  - exists []. now split.
Qed.

(** X1.  Whatever the layers hold under [tag], [full_image] and [latest_image],
    the docker section of a merged config carries the tag of the build
    number (or [vlocal]) and the two image references spelled from its own
    [repository] and [image] entries. *)
Theorem image_references_spelled_from_docker_section :
  well_shaped M A fw = true ->
  exists c repository image,
    merge_config M env A fw = Ok c /\
    lookup_path ["docker"; "repository"] c = Some repository /\
    lookup_path ["docker"; "image"] c = Some image /\
    lookup_path ["docker"; "tag"] c
    = Some (VStr ("v" ++ getenv_str env "BUILD_BUILDNUMBER" "local")) /\
    lookup_path ["docker"; "full_image"] c
    = Some (VStr (py_str repository ++ "/" ++ py_str image ++ ":v"
                  ++ getenv_str env "BUILD_BUILDNUMBER" "local")) /\
    lookup_path ["docker"; "latest_image"] c
    = Some (VStr (py_str repository ++ "/" ++ py_str image ++ ":latest")).
Proof.
  intros W. destruct (merge_config_resolved W)
    as (c & a0 & a1 & s0 & d0 & d1 & p0 & p1 & repository & image & name & c2 & c3
        & Hm & _ & _ & _ & _ & _ & _ & _ & _ & _ & _ & Hr & Hi & _ & _ & _ & Ld & _).
  exists c, repository, image. split; [exact Hm|].
  cbn [lookup_path]. rewrite Ld, !lookup_tags_dict. cbn.
  repeat split; assumption.
Qed.

(** X2.  The docker repository of a merged config is the layers' own entry when
    they have one, whatever [DOCKER_REPOSITORY] says; without one it is
    [DOCKER_REPOSITORY] when set, and else the organization of the global
    config or ['myorg']. *)
Theorem docker_repository_precedence :
  well_shaped M A fw = true ->
  exists c,
    merge_config M env A fw = Ok c /\
    lookup_path ["docker"; "repository"] c
    = Some (match lookup_path ["docker"; "repository"] (merged_layers M A fw) with
            | Some r => r
            | None => getenv_or env "DOCKER_REPOSITORY" (organization M)
            end).
Proof.
  intros W. destruct (merge_config_resolved W)
    as (c & a0 & a1 & s0 & d0 & d1 & p0 & p1 & repository & image & name & c2 & c3
        & Hm & _ & _ & Gd & _ & _ & _ & _ & _ & _ & Hd & Hr & Hi & _ & _ & _ & Ld & _).
  exists c. split; [exact Hm|].
  rewrite (lookup_path_section _ _ _ _ Gd).
  cbn [lookup_path]. rewrite Ld, lookup_tags_dict. cbn.
  apply docker_dict_defaults_repository in Hd. congruence.
Qed.

(** X3.  The image name and the namespace of a merged config are the layers' own
    entries when they have them, and the app name of the merged config
    otherwise. *)
Theorem image_and_namespace_default_to_app_name :
  well_shaped M A fw = true ->
  exists c name,
    merge_config M env A fw = Ok c /\
    lookup_path ["app"; "name"] c = Some name /\
    lookup_path ["docker"; "image"] c
    = Some (match lookup_path ["docker"; "image"] (merged_layers M A fw) with
            | Some i => i
            | None => name
            end) /\
    lookup_path ["deployment"; "namespace"] c
    = Some (match lookup_path ["deployment"; "namespace"] (merged_layers M A fw) with
            | Some n => n
            | None => name
            end).
Proof.
  intros W. destruct (merge_config_resolved W)
    as (c & a0 & a1 & s0 & d0 & d1 & p0 & p1 & repository & image & name & c2 & c3
        & Hm & _ & _ & Gd & Gp & _ & Ln & N2 & N3 & _ & Hd & Hr & Hi & Hp
        & La & _ & Ld & Lp & _).
  exists c, name. split; [exact Hm|].
  rewrite (lookup_path_section _ _ _ _ Gd), (lookup_path_section _ _ _ _ Gp).
  cbn [lookup_path]. rewrite La, Ld, Lp, lookup_tags_dict. cbn.
  split; [|split].
  - unfold framed_app. now rewrite !lookup_set_neq by discriminate.
  - exact (docker_dict_defaults_image _ _ _ _ Hd N2).
  - exact (deployment_dict_namespace _ _ _ _ Hp N3).
Qed.

(** X4.  An app name the layers give is kept as it is written, with no
    normalisation.  When they give none, the name is derived from
    [BUILD_REPOSITORY_NAME] (or ['unknown-app']), lower-cased and with [-]
    for [_]: the app layer, read again at that point, never has a name to
    offer.  The framework entries are the detected framework in both
    cases. *)
Theorem app_name_resolution :
  well_shaped M A fw = true ->
  unique_keys A ->
  exists c,
    merge_config M env A fw = Ok c /\
    lookup_path ["app"; "name"] c
    = Some (match lookup_path ["app"; "name"] (merged_layers M A fw) with
            | Some n => n
            | None => VStr derived_name
            end) /\
    lookup_path ["app"; "framework"] c = Some (VStr fw) /\
    lookup_path ["app"; "detected_framework"] c = Some (VStr fw).
Proof.
  intros W U. destruct (merge_config_resolved W)
    as (c & a0 & a1 & s0 & d0 & d1 & p0 & p1 & repository & image & name & c2 & c3
        & Hm & Ga & _ & _ & _ & Hn & Ln & _ & _ & _ & _ & _ & _ & _ & La & _).
  exists c. split; [exact Hm|].
  rewrite (lookup_path_section _ _ _ _ Ga).
  cbn [lookup_path]. rewrite La. unfold framed_app.
  rewrite lookup_set_eq, (lookup_set_neq "framework" "detected_framework"),
    lookup_set_eq, !(lookup_set_neq "name") by discriminate.
  repeat split. rewrite Ln. f_equal.
  unfold named_app in Hn. destruct (mem "name" a0) eqn:E.
  - injection Hn as <-. now rewrite Ln.
  - destruct (no_name_in_app_layer a0 U Ga E) as (a & GA & NA).
    apply mem_false_lookup in E. rewrite E.
    rewrite GA in Hn. cbn [py_get bind] in Hn. unfold get_d in Hn at 1.
    rewrite NA in Hn. unfold py_or in Hn. cbn [truthy] in Hn.
    unfold getenv_or in Hn. unfold derived_name, getenv_str.
    destruct (env "BUILD_REPOSITORY_NAME"); cbn in Hn; injection Hn as <-;
      rewrite lookup_set_eq in Ln; now injection Ln as <-.
Qed.

(** X5.  A deployment environment the layers give is kept, whatever the branch
    is: the branch rule fills the environment only when none is given. *)
Theorem configured_environment_kept e :
  well_shaped M A fw = true ->
  lookup_path ["deployment"; "environment"] (merged_layers M A fw) = Some e ->
  exists c,
    merge_config M env A fw = Ok c /\
    lookup_path ["deployment"; "environment"] c = Some e.
Proof.
  intros W He. destruct (merge_config_resolved W)
    as (c & a0 & a1 & s0 & d0 & d1 & p0 & p1 & repository & image & name & c2 & c3
        & Hm & _ & _ & _ & Gp & _ & _ & _ & _ & _ & _ & _ & _ & Hp & _ & _ & _ & Lp & _).
  exists c. split; [exact Hm|].
  rewrite (lookup_path_section _ _ _ _ Gp) in He.
  cbn [lookup_path]. rewrite Lp.
  exact (deployment_dict_environment _ _ _ _ Hp He).
Qed.

(** X6.  Outside the four sections it fills, a merged config holds what the
    layers hold, but for [build_info]: that is the block of the build
    variables when [BUILD_BUILDNUMBER] is set and not empty, and the layers'
    own entry otherwise. *)
Theorem merged_config_other_keys :
  well_shaped M A fw = true ->
  exists c,
    merge_config M env A fw = Ok c /\
    lookup "build_info" c
    = (if getenv_truthy env "BUILD_BUILDNUMBER" then Some (build_info_block env)
       else lookup "build_info" (merged_layers M A fw)) /\
    (forall k, k <> "app" -> k <> "source" -> k <> "docker" -> k <> "deployment" ->
               k <> "build_info" ->
               lookup k c = lookup k (merged_layers M A fw)).
Proof.
  intros W. destruct (merge_config_resolved W)
    as (c & a0 & a1 & s0 & d0 & d1 & p0 & p1 & repository & image & name & c2 & c3
        & Hm & _ & _ & _ & _ & _ & _ & _ & _ & _ & _ & _ & _ & _ & _ & _ & _ & _ & Lo).
  exists c. split; [exact Hm|]. split.
  - rewrite Lo by discriminate. unfold _add_environment_overrides.
    destruct (getenv_truthy env "BUILD_BUILDNUMBER"); [apply lookup_set_eq | reflexivity].
  - intros k Na Ns Nd Np Nb. rewrite Lo by assumption.
    now apply lookup_environment_overrides.
Qed.

End Resolved.

(** *** Sample layers and environments *)

Definition acme_merger : SmartConfigMerger :=
  {| global_config := [("docker", VDict [("organization", VStr "acme")])];
     framework_defaults := [("react", [("docker", VDict [("port", VInt 80)])])] |}.

Definition registry_env : environ :=
  fun name =>
    if String.eqb name "DOCKER_REPOSITORY" then Some "registry.example.org"
    else if String.eqb name "BUILD_REPOSITORY_NAME" then Some "Web_Shop"
    else if String.eqb name "BUILD_SOURCEBRANCHNAME" then Some "main"
    else None.

(** A layer that pins the repository and the environment and names no app. *)
Definition pinned_layer : dict :=
  [("docker", VDict [("repository", VStr "ghcr.io/acme");
                     ("full_image", VStr "stale")]);
   ("deployment", VDict [("environment", VStr "qa")])].

Lemma image_references_spelled_from_docker_section_witness :
  exists c repository image,
    merge_config (H := plain_runtime) acme_merger (build_env "41") pinned_layer "react"
    = Ok c /\
    lookup_path ["docker"; "repository"] c = Some repository /\
    lookup_path ["docker"; "image"] c = Some image /\
    lookup_path ["docker"; "tag"] c
    = Some (VStr ("v" ++ getenv_str (build_env "41") "BUILD_BUILDNUMBER" "local")) /\
    lookup_path ["docker"; "full_image"] c
    = Some (VStr (py_str (H := plain_runtime) repository ++ "/" ++ py_str (H := plain_runtime) image ++ ":v"
                  ++ getenv_str (build_env "41") "BUILD_BUILDNUMBER" "local")) /\
    lookup_path ["docker"; "latest_image"] c
    = Some (VStr (py_str (H := plain_runtime) repository ++ "/" ++ py_str (H := plain_runtime) image ++ ":latest")).
Proof.
  apply (image_references_spelled_from_docker_section (H := plain_runtime)
           acme_merger (build_env "41") pinned_layer "react").
  reflexivity.
Defined.

Lemma docker_repository_precedence_witness :
  exists c,
    merge_config (H := plain_runtime) acme_merger registry_env pinned_layer "react"
    = Ok c /\
    lookup_path ["docker"; "repository"] c
    = Some (match lookup_path ["docker"; "repository"]
                    (merged_layers acme_merger pinned_layer "react") with
            | Some r => r
            | None => getenv_or registry_env "DOCKER_REPOSITORY"
                        (organization acme_merger)
            end).
Proof.
  apply (docker_repository_precedence (H := plain_runtime)
           acme_merger registry_env pinned_layer "react").
  reflexivity.
Defined.

Lemma image_and_namespace_default_to_app_name_witness :
  exists c name,
    merge_config (H := plain_runtime) acme_merger registry_env shop_layer "react"
    = Ok c /\
    lookup_path ["app"; "name"] c = Some name /\
    lookup_path ["docker"; "image"] c
    = Some (match lookup_path ["docker"; "image"]
                    (merged_layers acme_merger shop_layer "react") with
            | Some i => i
            | None => name
            end) /\
    lookup_path ["deployment"; "namespace"] c
    = Some (match lookup_path ["deployment"; "namespace"]
                    (merged_layers acme_merger shop_layer "react") with
            | Some n => n
            | None => name
            end).
Proof.
  apply (image_and_namespace_default_to_app_name (H := plain_runtime)
           acme_merger registry_env shop_layer "react").
  reflexivity.
Defined.

Lemma app_name_resolution_witness :
  exists c,
    merge_config (H := plain_runtime) acme_merger registry_env pinned_layer "react"
    = Ok c /\
    lookup_path ["app"; "name"] c
    = Some (match lookup_path ["app"; "name"]
                    (merged_layers acme_merger pinned_layer "react") with
            | Some n => n
            | None => VStr (derived_name registry_env)
            end) /\
    lookup_path ["app"; "framework"] c = Some (VStr "react") /\
    lookup_path ["app"; "detected_framework"] c = Some (VStr "react").
Proof.
  apply (app_name_resolution (H := plain_runtime)
           acme_merger registry_env pinned_layer "react").
  - reflexivity.
  - unique_deep_tac.
Defined.

Lemma configured_environment_kept_witness :
  exists c,
    merge_config (H := plain_runtime) acme_merger registry_env pinned_layer "react"
    = Ok c /\
    lookup_path ["deployment"; "environment"] c = Some (VStr "qa").
Proof.
  apply (configured_environment_kept (H := plain_runtime)
           acme_merger registry_env pinned_layer "react" (VStr "qa"));
    reflexivity.
Defined.

Lemma merged_config_other_keys_witness :
  exists c,
    merge_config (H := plain_runtime) acme_merger (build_env "41") pinned_layer "react"
    = Ok c /\
    lookup "build_info" c
    = (if getenv_truthy (build_env "41") "BUILD_BUILDNUMBER"
       then Some (build_info_block (build_env "41"))
       else lookup "build_info" (merged_layers acme_merger pinned_layer "react")) /\
    (forall k, k <> "app" -> k <> "source" -> k <> "docker" -> k <> "deployment" ->
               k <> "build_info" ->
               lookup k c = lookup k (merged_layers acme_merger pinned_layer "react")).
Proof.
  apply (merged_config_other_keys (H := plain_runtime)
           acme_merger (build_env "41") pinned_layer "react").
  reflexivity.
Defined.

(** The pinned layer under the registry environment, run: the pinned
    repository and environment stand though [DOCKER_REPOSITORY] is set and
    the branch is [main], the stale image reference is spelled anew, and the
    name is derived from the repository name. *)
Example pinned_layer_scenario :
  option_map
    (fun c => (lookup_path ["docker"; "repository"] c,
               lookup_path ["docker"; "full_image"] c,
               lookup_path ["deployment"; "environment"] c,
               lookup_path ["app"; "name"] c))
    (match merge_config (H := plain_runtime) acme_merger registry_env pinned_layer
             "react" with
     | Ok c => Some c
     | Raise _ => None
     end)
  = Some (Some (VStr "ghcr.io/acme"), Some (VStr "ghcr.io/acme/web-shop:vlocal"),
          Some (VStr "qa"), Some (VStr "web-shop")).
Proof. vm_compute. reflexivity. Qed.

(** *** The verdict of [validate_config] *)

(** The deployment section and its resources are mappings where present,
    and the resources do not hold both [limits] and [requests]. *)
Definition no_resource_pair (config : dict) : bool :=
  match lookup "deployment" config with
  | None => true
  | Some (VDict deployment) =>
      match lookup "resources" deployment with
      | None => true
      | Some (VDict resources) => negb (mem "limits" resources && mem "requests" resources)
      | Some _ => false
      end
  | Some _ => false
  end.

Definition entry_or_none (path : list string) (config : dict) : value :=
  match lookup_path path config with Some v => v | None => VNone end.

Lemma resource_warnings_none (config : dict) :
  no_resource_pair config = true -> resource_warnings config = Ok [].
Proof.
  unfold no_resource_pair, resource_warnings, mem.
  destruct (lookup "deployment" config) as [[| | | | | |deployment]|] eqn:Ld;
    try discriminate; [|reflexivity].
  cbn [py_getitem bind]. rewrite Ld. cbn [bind py_in]. unfold mem.
  destruct (lookup "resources" deployment) as [[| | | | | |resources]|] eqn:Lr;
    try discriminate; [|reflexivity].
  cbn [py_getitem bind]. rewrite Lr. cbn [bind py_in]. unfold mem.
  destruct (lookup "limits" resources); [|reflexivity].
  cbn [bind]. destruct (lookup "requests" resources); [discriminate | reflexivity].
Qed.

(** X7.  On a config whose sections are mappings and whose resources hold no
    limits-and-requests pair, [validate_config] returns the config with a
    [validation] section and every other key as it was: [valid] is true
    exactly when [app.name] and [docker.repository] are truthy, [errors]
    lists the missing ones in that order, and [warnings] is empty. *)
Theorem validate_config_verdict (config : dict) :
  is_section config "app" = true ->
  is_section config "docker" = true ->
  no_resource_pair config = true ->
  let name := entry_or_none ["app"; "name"] config in
  let repository := entry_or_none ["docker"; "repository"] config in
  exists validated,
    validate_config config = Ok validated /\
    lookup_path ["validation"; "valid"] validated
    = Some (VBool (truthy name && truthy repository)) /\
    lookup_path ["validation"; "errors"] validated
    = Some (VList (map VStr
                     ((if truthy name then [] else ["app.name is required"])
                      ++ (if truthy repository then []
                          else ["docker.repository is required"])))) /\
    lookup_path ["validation"; "warnings"] validated = Some (VList []) /\
    (forall k, k <> "validation" -> lookup k validated = lookup k config).
Proof.
  intros Ha Hd Hr name repository.
  apply is_section_get_d in Ha. destruct Ha as (a & Ga & _).
  apply is_section_get_d in Hd. destruct Hd as (d & Gd & _).
  assert (En : name = get_d a "name" VNone).
  { unfold name, entry_or_none. now rewrite (lookup_path_section _ _ _ _ Ga). }
  assert (Er : repository = get_d d "repository" VNone).
  { unfold repository, entry_or_none. now rewrite (lookup_path_section _ _ _ _ Gd). }
  unfold validate_config. rewrite Ga, Gd. cbn [py_get bind].
  rewrite (resource_warnings_none _ Hr). cbn [bind].
  rewrite <- En, <- Er. eexists. split; [reflexivity|].
  cbn [lookup_path]. rewrite lookup_set_eq. cbn [lookup String.eqb Ascii.eqb Bool.eqb].
  repeat split.
  - destruct (truthy name), (truthy repository); reflexivity.
  - destruct (truthy name), (truthy repository); reflexivity.
  - intros k N. now apply lookup_set_neq.
Qed.

(** A config with a name and no repository. *)
Definition unpublished_config : dict :=
  [("app", VDict [("name", VStr "shop")]);
   ("deployment", VDict [("resources", VDict [("limits", VDict [("cpu", VStr "1")])])])].

Lemma validate_config_verdict_witness :
  let name := entry_or_none ["app"; "name"] unpublished_config in
  let repository := entry_or_none ["docker"; "repository"] unpublished_config in
  exists validated,
    validate_config unpublished_config = Ok validated /\
    lookup_path ["validation"; "valid"] validated
    = Some (VBool (truthy name && truthy repository)) /\
    lookup_path ["validation"; "errors"] validated
    = Some (VList (map VStr
                     ((if truthy name then [] else ["app.name is required"])
                      ++ (if truthy repository then []
                          else ["docker.repository is required"])))) /\
    lookup_path ["validation"; "warnings"] validated = Some (VList []) /\
    (forall k, k <> "validation" -> lookup k validated = lookup k unpublished_config).
Proof.
  apply (validate_config_verdict unpublished_config); reflexivity.
Defined.

End ResolutionFacts.

(** ** What the orchestrator's runs do and never do *)

Module PipelineFacts.
Import ConfigMerger FrameworkDetector Orchestrator.
Import DictFacts MergeFacts ConfigFacts OrchestratorFacts RemergeFacts ResolutionFacts.

(** The state a run that read the clock twice and invoked [stages] leaves,
    with [config] as the object the stages hold. *)
Definition after_run (st : state) (stages : list stage) (config : value) : state :=
  {| invoked := invoked st ++ stages; ticks := S (S (ticks st)); config_obj := config |}.

(** [result['success']] of a stage result is there and truthy. *)
Definition reports_success (stage_result : value) : Prop :=
  exists flag, py_getitem stage_result "success" = Ok flag /\ truthy flag = true.

(** The base configuration [analyze_only] builds from what it detected. *)
Definition base_config (env : environ) (repo : repository) (framework : string)
  (confidence : float) (detection_details build_strategy : value) : dict :=
  [("app", VDict [("name", VStr (_extract_app_name env repo));
                  ("framework", VStr framework)]);
   ("detection", VDict [("framework", VStr framework);
                        ("confidence", VFloat confidence);
                        ("details", detection_details)]);
   ("build_strategy", build_strategy)].

Section Runs.
Context `{Runtime} `{World}.

(** The time between the two clock readings of a run started in [st]. *)
Definition elapsed (st : state) : float :=
  PrimFloat.sub (time_at (S (ticks st))) (time_at (ticks st)).

(** Every run of [analyze_only]: a failure dict, or the success dict built
    from the four steps, each of which returned. *)
Lemma analyze_only_run self env repo st :
  exists r,
    analyze_only self env repo st = (Ok r, after_run st [] (config_obj st)) /\
    ((exists e, r = failure e (elapsed st)) \/
     (exists framework confidence details build_strategy merged final,
        repo_exists repo = true /\
        detect_framework repo = Ok (framework, confidence, details) /\
        detect_build_strategy repo framework = Ok build_strategy /\
        merge_config (config_merger self) env
          (base_config env repo framework confidence details build_strategy)
          framework = Ok merged /\
        validate_config merged = Ok final /\
        r = [("success", VBool true);
             ("config", VDict final);
             ("duration", VFloat (elapsed st));
             ("framework", VStr framework);
             ("confidence", VFloat confidence)])).
Proof.
  unfold analyze_only, check_repo_exists, bindM, try_except, time_time, lift, ret,
    after_run, elapsed, base_config.
  cbn. rewrite app_nil_r.
  destruct (repo_exists repo) eqn:E; cbn.
  2:{ eexists. split; [reflexivity|]. left. eauto. }
  destruct (detect_framework repo) as [[[framework confidence] details]|e] eqn:Ed;
    cbn.
  2:{ eexists. split; [reflexivity|]. left. eauto. }
  destruct (detect_build_strategy repo framework) as [build_strategy|e] eqn:Es; cbn.
  2:{ eexists. split; [reflexivity|]. left. eauto. }
  destruct (merge_config _ env _ framework) as [merged|e] eqn:Em; cbn.
  2:{ eexists. split; [reflexivity|]. left. eauto. }
  destruct (validate_config merged) as [final|e] eqn:Ev; cbn.
  2:{ eexists. split; [reflexivity|]. left. eauto. }
  eexists. split; [reflexivity|]. right.
  exists framework, confidence, details, build_strategy, merged, final.
  repeat split; assumption.
Qed.

(** Every run of [process_repository]: a failure dict after at most the two
    stages in order, or the success dict after both stages reported
    success. *)
Lemma process_repository_run repo config st :
  exists r stages config',
    process_repository repo config st = (Ok r, after_run st stages config') /\
    (((stages = [] \/ stages = [Build] \/ stages = [Build; Container]) /\
      exists e, r = failure e (elapsed st)) \/
     (exists flag app app_name framework build_result docker_result,
        stages = [Build; Container] /\
        repo_exists repo = true /\
        py_get config "success" (VBool true) = Ok flag /\ truthy flag = true /\
        py_getitem config "app" = Ok app /\
        py_getitem app "name" = Ok app_name /\
        py_getitem app "framework" = Ok framework /\
        build_run config repo = Ok (build_result, config') /\
        reports_success build_result /\
        docker_run config' repo = Ok docker_result /\
        reports_success docker_result /\
        r = [("success", VBool true);
             ("duration", VFloat (elapsed st));
             ("build_result", build_result);
             ("docker_result", docker_result);
             ("app_name", app_name);
             ("framework", framework)])).
Proof.
  unfold process_repository, check_repo_exists, call_build, call_docker,
    check_stage, bindM, try_except, put_config, get_config, record_stage,
    time_time, lift, ret, after_run, elapsed, reports_success.
  cbn.
  destruct (repo_exists repo) eqn:E; cbn.
  2:{ eexists _, [], _. rewrite app_nil_r. split; [reflexivity|]. left. eauto. }
  destruct (py_get config "success" (VBool true)) as [flag|e] eqn:Eg; cbn.
  2:{ eexists _, [], _. rewrite app_nil_r. split; [reflexivity|]. left. eauto. }
  destruct (truthy flag) eqn:Ef; cbn.
  2:{ eexists _, [], _. rewrite app_nil_r. split; [reflexivity|]. left. eauto. }
  destruct (py_getitem config "app") as [app|e] eqn:Ea; cbn.
  2:{ eexists _, [], _. rewrite app_nil_r. split; [reflexivity|]. left. eauto. }
  destruct (py_getitem app "name") as [app_name|e] eqn:En; cbn.
  2:{ eexists _, [], _. rewrite app_nil_r. split; [reflexivity|]. left. eauto. }
  destruct (py_getitem app "framework") as [framework|e] eqn:Ew; cbn.
  2:{ eexists _, [], _. rewrite app_nil_r. split; [reflexivity|]. left. eauto. }
  destruct (build_run config repo) as [[build_result config']|e] eqn:Er; cbn.
  2:{ eexists _, [Build], _. split; [reflexivity|]. left. eauto. }
  destruct (py_getitem build_result "success") as [bflag|e] eqn:Eb; cbn.
  2:{ eexists _, [Build], _. split; [reflexivity|]. left. eauto. }
  destruct (truthy bflag) eqn:Ebf; cbn.
  2:{ destruct (py_get build_result "error" _); cbn;
      (eexists _, [Build], _; split; [reflexivity|]; left; eauto). }
  destruct (docker_run config' repo) as [docker_result|e] eqn:Ek; cbn.
  2:{ eexists _, [Build; Container], _. rewrite <- app_assoc.
      split; [reflexivity|]. left. eauto. }
  destruct (py_getitem docker_result "success") as [dflag|e] eqn:Ed; cbn.
  2:{ eexists _, [Build; Container], _. rewrite <- app_assoc.
      split; [reflexivity|]. left. eauto. }
  destruct (truthy dflag) eqn:Edf; cbn.
  2:{ destruct (py_get docker_result "error" _); cbn;
      (eexists _, [Build; Container], _; rewrite <- app_assoc;
       split; [reflexivity|]; left; eauto). }
  eexists _, [Build; Container], _. rewrite <- app_assoc.
  split; [reflexivity|]. right.
  exists flag, app, app_name, framework, build_result, docker_result.
  repeat split; eauto.
Qed.

(** X8.  [analyze_only] is an error boundary: on every repository, merger and
    environment it returns a dict and raises nothing, it invokes no stage,
    it reads the clock twice, and the dict it returns carries a boolean
    [success] with the config (on success) or the error text (on failure).
    On a missing repository the error text names the path. *)
Theorem analyze_only_is_an_error_boundary self env repo st :
  exists r flag,
    analyze_only self env repo st = (Ok r, after_run st [] (config_obj st)) /\
    lookup "success" r = Some (VBool flag) /\
    lookup "duration" r = Some (VFloat (elapsed st)) /\
    (flag = true -> exists config, lookup "config" r = Some (VDict config)) /\
    (flag = false -> exists text, lookup "error" r = Some (VStr text)) /\
    (repo_exists repo = false ->
     flag = false /\
     lookup "error" r
     = Some (VStr ("Repository path does not exist: " ++ repo_path repo))).
Proof.
  destruct (repo_exists repo) eqn:E.
  - destruct (analyze_only_run self env repo st) as (r & Hr & [(e & ->)|S]).
    + exists (failure e (elapsed st)), false. split; [exact Hr|].
      repeat split; try discriminate. intros _. now exists (exn_msg e).
    + destruct S as (framework & confidence & details & build_strategy & merged
                     & final & _ & _ & _ & _ & _ & ->).
      eexists _, true. split; [exact Hr|].
      repeat split; try discriminate. intros _. now exists final.
  - unfold analyze_only, check_repo_exists, bindM, try_except, time_time, lift, ret,
      after_run, elapsed.
    cbn. rewrite E, app_nil_r. cbn.
    eexists _, false. split; [reflexivity|].
    repeat split; try discriminate. intros _. eexists. reflexivity.
Qed.

(** X9.  [process_repository] raises nothing, whatever the stages do: it returns
    a dict, reads the clock twice, and invokes nothing, the Build stage
    alone, or the Build stage and then the Container stage, never the
    Deploy stage.  A result that reports success comes after both stages. *)
Theorem process_repository_stage_order repo config st :
  exists r stages config',
    process_repository repo config st = (Ok r, after_run st stages config') /\
    (stages = [] \/ stages = [Build] \/ stages = [Build; Container]) /\
    (succeeded r = true -> stages = [Build; Container]) /\
    (succeeded r = false -> exists text, lookup "error" r = Some (VStr text)).
Proof.
  destruct (process_repository_run repo config st)
    as (r & stages & config' & Hr & [(Hs & e & ->)|S]).
  - exists (failure e (elapsed st)), stages, config'. split; [exact Hr|].
    repeat split; [exact Hs | discriminate |]. intros _. now exists (exn_msg e).
  - destruct S as (flag & app & app_name & framework & build_result & docker_result
                   & -> & _ & _ & _ & _ & _ & _ & _ & _ & _ & _ & ->).
    eexists _, _, config'. split; [exact Hr|].
    repeat split; [auto | discriminate].
Qed.

(** X10.  What a successful [process_repository] result means: the repository
    exists, the Build stage returned a result whose [success] is truthy,
    the Container stage, called with the config as the Build stage left
    it, did so too, and the result carries both stage results with the
    name and framework of the config. *)
Theorem process_success_means_both_stages_succeeded repo config st r st' :
  process_repository repo config st = (Ok r, st') ->
  succeeded r = true ->
  exists app app_name framework build_result docker_result,
    repo_exists repo = true /\
    invoked st' = invoked st ++ [Build; Container] /\
    build_run config repo = Ok (build_result, config_obj st') /\
    reports_success build_result /\
    docker_run (config_obj st') repo = Ok docker_result /\
    reports_success docker_result /\
    lookup "build_result" r = Some build_result /\
    lookup "docker_result" r = Some docker_result /\
    py_getitem config "app" = Ok app /\
    py_getitem app "name" = Ok app_name /\
    py_getitem app "framework" = Ok framework /\
    lookup "app_name" r = Some app_name /\
    lookup "framework" r = Some framework.
Proof.
  intros Hr Hs.
  destruct (process_repository_run repo config st)
    as (r0 & stages & config' & Hr0 & [(_ & e & ->)|S]).
  - rewrite Hr in Hr0. injection Hr0 as -> _. discriminate.
  - destruct S as (flag & app & app_name & framework & build_result & docker_result
                   & -> & He & _ & _ & Ha & Hn & Hf & Hb & Sb & Hd & Sd & ->).
    rewrite Hr in Hr0. injection Hr0 as -> ->.
    exists app, app_name, framework, build_result, docker_result.
    cbn [config_obj invoked after_run]. repeat split; assumption.
Qed.

(** X11.  When the Container stage returns a result whose [success] is false,
    after a Build stage that reported success, [process_repository] returns
    a failure whose error is the stage's own error text (or ['Unknown Docker
    error']) after ['Docker process failed: '], with both stages invoked. *)
Theorem container_failure_reported repo config st flag app app_name framework
  build_result config' (docker_result : dict) dflag :
  repo_exists repo = true ->
  py_get config "success" (VBool true) = Ok flag -> truthy flag = true ->
  py_getitem config "app" = Ok app ->
  py_getitem app "name" = Ok app_name ->
  py_getitem app "framework" = Ok framework ->
  build_run config repo = Ok (build_result, config') ->
  reports_success build_result ->
  docker_run config' repo = Ok (VDict docker_result) ->
  lookup "success" docker_result = Some dflag -> truthy dflag = false ->
  exists r,
    process_repository repo config st
    = (Ok r, after_run st [Build; Container] config') /\
    succeeded r = false /\
    lookup "error" r
    = Some (VStr ("Docker process failed: "
                  ++ py_str (get_d docker_result "error"
                               (VStr "Unknown Docker error")))).
Proof.
  intros He Hg Hf Ha Hn Hw Hb (bflag & Hbs & Hbf) Hd Hds Hdf.
  unfold process_repository, check_repo_exists, call_build, call_docker,
    check_stage, bindM, try_except, put_config, get_config, record_stage,
    time_time, lift, ret, after_run.
  cbn. rewrite He. cbn. rewrite Hg. cbn. rewrite Hf. cbn. rewrite Ha. cbn.
  rewrite Hn. cbn. rewrite Hw. cbn. rewrite Hb. cbn. rewrite Hbs. cbn.
  rewrite Hbf. cbn. rewrite Hd. cbn. rewrite Hds. cbn. rewrite Hdf. cbn.
  rewrite <- app_assoc. eexists. split; [reflexivity|]. split; reflexivity.
Qed.

(** *** [full_pipeline] *)

(** The state after one more stage. *)
Definition with_stage (s : stage) (st : state) : state :=
  {| invoked := invoked st ++ [s]; ticks := ticks st; config_obj := config_obj st |}.

(** The dict [full_pipeline] returns when nothing stopped it. *)
Definition pipeline_success (analysis processing : dict) (config deployment : value)
  : dict :=
  [("success", VBool true);
   ("analysis", VDict (set "config" config analysis));
   ("processing", VDict processing);
   ("deployment", deployment)].

(** After two successful steps, what is left of [full_pipeline] is the
    Deploy stage, when asked for. *)
Lemma full_pipeline_completes self env repo deploy st analysis st1 flag config
  processing st2 pflag :
  analyze_only self env repo st = (Ok analysis, st1) ->
  lookup "success" analysis = Some flag -> truthy flag = true ->
  lookup "config" analysis = Some config ->
  process_repository repo config st1 = (Ok processing, st2) ->
  lookup "success" processing = Some pflag -> truthy pflag = true ->
  full_pipeline self env repo deploy st
  = if deploy then
      match deploy_run (config_obj st2) with
      | Ok deployment =>
          (Ok (pipeline_success analysis processing (config_obj st2) deployment),
           with_stage Deploy st2)
      | Raise e => (Raise e, with_stage Deploy st2)
      end
    else (Ok (pipeline_success analysis processing (config_obj st2) VNone), st2).
Proof.
  intros Ha Hs Hf Hc Hp Hps Hpf. unfold full_pipeline.
  unfold bindM at 1. rewrite Ha.
  unfold bindM at 1. unfold lift at 1. cbn [py_getitem]. rewrite Hs, Hf.
  cbn [negb]. unfold bindM at 1. unfold lift at 1. rewrite Hc.
  unfold bindM at 1. rewrite Hp.
  unfold bindM at 1. unfold lift at 1. rewrite Hps, Hpf. cbn [negb].
  destruct deploy.
  - unfold call_deploy, record_stage, get_config, lift, bindM, ret, with_stage.
    cbn [invoked ticks config_obj].
    destruct (deploy_run (config_obj st2)); reflexivity.
  - reflexivity.
Qed.

(** Every run of [full_pipeline], by the step it ends at. *)
Lemma full_pipeline_run self env repo deploy st :
  exists stages,
    ran (full_pipeline self env repo deploy) st stages /\
    ((exists r,
        fst (full_pipeline self env repo deploy st) = Ok r /\
        succeeded r = false /\
        (stages = [] \/ stages = [Build] \/ stages = [Build; Container])) \/
     (exists r,
        fst (full_pipeline self env repo deploy st) = Ok r /\
        succeeded r = true /\ deploy = false /\
        stages = [Build; Container] /\ lookup "deployment" r = Some VNone) \/
     (exists r config deployment,
        fst (full_pipeline self env repo deploy st) = Ok r /\
        succeeded r = true /\ deploy = true /\
        stages = [Build; Container; Deploy] /\
        deploy_run config = Ok deployment /\
        lookup "deployment" r = Some deployment) \/
     (exists e config,
        fst (full_pipeline self env repo deploy st) = Raise e /\
        deploy = true /\
        stages = [Build; Container; Deploy] /\
        deploy_run config = Raise e)).
Proof.
  destruct (analyze_only_run self env repo st) as (a & Ha & [(e & ->)|S]).
  - exists []. unfold ran.
    rewrite (full_pipeline_analysis_failure self env repo deploy st _ _
               (VBool false) Ha eq_refl eq_refl).
    cbn. split; [reflexivity|]. left. eexists. repeat split. now left.
  - destruct S as (framework & confidence & details & build_strategy & merged
                   & final & _ & _ & _ & _ & _ & ->).
    destruct (process_repository_run repo (VDict final)
                (after_run st [] (config_obj st)))
      as (r & stages & config' & Hr & [(Hs & e & ->)|S]).
    + exists stages. unfold ran.
      rewrite (full_pipeline_process_failure self env repo deploy st _ _
                 (VBool true) (VDict final) _ _ (VBool false)
                 Ha eq_refl eq_refl eq_refl Hr eq_refl eq_refl).
      cbn. rewrite app_nil_r. split; [reflexivity|]. left.
      eexists. repeat split. exact Hs.
    + destruct S as (flag & app & app_name & fw & build_result & docker_result
                     & -> & _ & _ & _ & _ & _ & _ & _ & _ & _ & _ & ->).
      unfold ran.
      rewrite (full_pipeline_completes self env repo deploy st _ _
                 (VBool true) (VDict final) _ _ (VBool true)
                 Ha eq_refl eq_refl eq_refl Hr eq_refl eq_refl).
      unfold after_run. cbn [config_obj].
      destruct deploy.
      * destruct (deploy_run config') as [deployment|e] eqn:Ed.
        -- exists [Build; Container; Deploy]. cbn [fst snd invoked with_stage].
           rewrite app_nil_r, <- app_assoc. split; [reflexivity|].
           right. right. left. eexists _, config', deployment.
           repeat split. exact Ed.
        -- exists [Build; Container; Deploy]. cbn [fst snd invoked with_stage].
           rewrite app_nil_r, <- app_assoc. split; [reflexivity|].
           right. right. right. exists e, config'. repeat split. exact Ed.
      * exists [Build; Container]. cbn [fst snd invoked].
        rewrite app_nil_r. split; [reflexivity|].
        right. left. eexists. repeat split.
Qed.

(** X12.  The stages of a [full_pipeline] run come in order and stop at the first
    failure: nothing, Build, Build then Container, or all three.  The
    Deploy stage is invoked only when deployment is asked for and only
    after Build and Container; a run that reports success has invoked
    exactly the stages asked for. *)
Theorem full_pipeline_stage_discipline self env repo deploy st :
  exists stages,
    ran (full_pipeline self env repo deploy) st stages /\
    (stages = [] \/ stages = [Build] \/ stages = [Build; Container] \/
     stages = [Build; Container; Deploy]) /\
    (In Deploy stages -> deploy = true) /\
    (forall r, returned (full_pipeline self env repo deploy) st r ->
               succeeded r = true ->
               stages = if deploy then [Build; Container; Deploy]
                        else [Build; Container]).
Proof.
  destruct (full_pipeline_run self env repo deploy st) as (stages & Hran & Hcase).
  exists stages. split; [exact Hran|]. unfold returned.
  destruct Hcase as [(r & Hr & Hs & Hst)|[(r & Hr & Hs & -> & -> & _)
                    |[(r & c & d & Hr & Hs & -> & -> & _)|(e & c & Hr & -> & -> & _)]]].
  - split; [tauto|]. split.
    + destruct Hst as [-> | [-> | ->]]; cbn; intuition discriminate.
    + intros r' Hr' Hs'. congruence.
  - split; [tauto|]. split; [cbn; intuition discriminate | reflexivity].
  - split; [tauto|]. split; reflexivity.
  - split; [tauto|]. split; [reflexivity|]. intros r' Hr'. congruence.
Qed.

(** X13.  [full_pipeline] is no error boundary for its last step: it raises
    exactly what the Deploy stage raises, and nothing else.  A raise comes
    after Build and Container were invoked, with deployment asked for. *)
Theorem full_pipeline_raises_only_from_deploy self env repo deploy st e :
  fst (full_pipeline self env repo deploy st) = Raise e ->
  deploy = true /\
  ran (full_pipeline self env repo deploy) st [Build; Container; Deploy] /\
  exists config, deploy_run config = Raise e.
Proof.
  intros He.
  destruct (full_pipeline_run self env repo deploy st) as (stages & Hran & Hcase).
  destruct Hcase as [(r & Hr & _)|[(r & Hr & _)
                    |[(r & c & d & Hr & _)|(e' & c & Hr & -> & -> & Hd)]]];
    try congruence.
  rewrite He in Hr. injection Hr as <-. eauto.
Qed.

(** *** The config a successful analysis hands on *)

(** A section of the top layer stands in the merge, with its leaves. *)
Lemma top_layer_section (lower top : dict) section (s : dict) :
  unique_keys top ->
  lookup section top = Some (VDict s) ->
  unique_keys s ->
  exists s',
    lookup section (_deep_merge lower top) = Some (VDict s') /\
    forall key v, lookup key s = Some v -> is_dict v = false ->
                  lookup key s' = Some v.
Proof.
  intros U L Us. rewrite (lookup_deep_merge_present top lower section _ U L).
  destruct (lookup section lower) as [[| | | | | |sub]|];
    try (exists s; split; [reflexivity | now intros]).
  exists (_deep_merge sub s). split; [reflexivity|].
  intros key v Lk Hv. rewrite (lookup_deep_merge_present s sub key v Us Lk).
  destruct (lookup key sub) as [[]|]; destruct v; try discriminate; reflexivity.
Qed.

Lemma unique_keys_base_config env repo framework confidence details build_strategy :
  unique_keys (base_config env repo framework confidence details build_strategy).
Proof. unfold base_config. unique_deep_tac. Qed.

(** Every strategy [detect_build_strategy] returns is a dict with no key
    twice. *)
Lemma first_script_dict framework install scripts commands v :
  first_script framework install scripts commands = Ok (Some v) ->
  exists d, v = VDict d /\ unique_keys d.
Proof.
  induction commands as [|cmd rest IH]; cbn [first_script]; [discriminate|].
  intros Hf. inv_bind Hf. destruct x; [|now apply IH].
  inv_bind Hf. inv_bind Hf. injection Hf as <-.
  eexists. split; [reflexivity|]. unique_deep_tac.
Qed.

Lemma detect_build_strategy_dict repo framework v :
  detect_build_strategy repo framework = Ok v ->
  exists d, v = VDict d /\ unique_keys d.
Proof.
  unfold detect_build_strategy. intros Hd. inv_bind Hd.
  destruct (negb (truthy x)).
  { injection Hd as <-. eexists. split; [reflexivity|]. unique_deep_tac. }
  inv_bind Hd. inv_bind Hd. destruct x1 as [strategy|].
  { injection Hd as <-. eapply first_script_dict; eassumption. }
  inv_bind Hd. destruct x1.
  - inv_bind Hd. injection Hd as <-. eexists. split; [reflexivity|]. unique_deep_tac.
  - injection Hd as <-. eexists. split; [reflexivity|]. unique_deep_tac.
Qed.

(** The config of a successful analysis, section by section. *)
Lemma analysis_config_shape self env repo st r st' :
  analyze_only self env repo st = (Ok r, st') ->
  succeeded r = true ->
  exists framework confidence details config repository
         app detection build_strategy docker,
    detect_framework repo = Ok (framework, confidence, details) /\
    r = [("success", VBool true);
         ("config", VDict config);
         ("duration", VFloat (elapsed st));
         ("framework", VStr framework);
         ("confidence", VFloat confidence)] /\
    lookup "app" config = Some (VDict app) /\
    lookup "name" app = Some (VStr (_extract_app_name env repo)) /\
    lookup "framework" app = Some (VStr framework) /\
    lookup "detection" config = Some (VDict detection) /\
    lookup "framework" detection = Some (VStr framework) /\
    lookup "confidence" detection = Some (VFloat confidence) /\
    lookup "build_strategy" config = Some (VDict build_strategy) /\
    lookup "docker" config = Some (VDict docker) /\
    lookup "repository" docker = Some repository /\
    lookup_path ["validation"; "valid"] config
    = Some (VBool (negb (String.eqb (_extract_app_name env repo) "")
                   && truthy repository)).
Proof.
  intros Hr Hs.
  destruct (analyze_only_run self env repo st) as (r0 & Hr0 & [(e & ->)|S]).
  { rewrite Hr in Hr0. injection Hr0 as -> _. discriminate. }
  destruct S as (framework & confidence & details & strategy & merged
                 & final & _ & Hd & Hb & Hm & Hv & ->).
  rewrite Hr in Hr0. injection Hr0 as -> _. clear Hr Hs.
  destruct (detect_build_strategy_dict _ _ _ Hb) as (b & -> & Ub).
  set (B := base_config env repo framework confidence details (VDict b)) in *.
  set (M := config_merger self) in *.
  assert (UB : unique_keys B) by apply unique_keys_base_config.
  (* the sections the base configuration gives *)
  destruct (top_layer_section
              (_deep_merge (_deep_merge [] (global_config M))
                 match lookup framework (framework_defaults M) with
                 | Some d => d
                 | None => []
                 end)
              B "app"
              [("name", VStr (_extract_app_name env repo));
               ("framework", VStr framework)] UB eq_refl)
    as (a0 & La0 & Leaf_a); [unique_deep_tac|].
  destruct (top_layer_section
              (_deep_merge (_deep_merge [] (global_config M))
                 match lookup framework (framework_defaults M) with
                 | Some d => d
                 | None => []
                 end)
              B "detection"
              [("framework", VStr framework);
               ("confidence", VFloat confidence);
               ("details", details)] UB eq_refl)
    as (t0 & Lt0 & Leaf_t); [unique_deep_tac|].
  destruct (top_layer_section
              (_deep_merge (_deep_merge [] (global_config M))
                 match lookup framework (framework_defaults M) with
                 | Some d => d
                 | None => []
                 end)
              B "build_strategy" b UB eq_refl Ub)
    as (b0 & Lb0 & _).
  fold (merged_layers M B framework) in La0, Lt0, Lb0.
  pose proof (Leaf_a "name" _ eq_refl eq_refl) as Na0.
  pose proof (Leaf_t "framework" _ eq_refl eq_refl) as Ft0.
  pose proof (Leaf_t "confidence" _ eq_refl eq_refl) as Ct0.
  (* the merged config *)
  pose proof (merge_config_shape _ _ _ _ _ Hm) as Sh.
  destruct Sh as [_ _ _ _ (d & repository & image & Ld & Rd & _) _].
  destruct (merge_config_chain M B framework env merged Hm)
    as (sa & ss & sd & sp & (Ha & _) & Em).
  assert (Ga : get_d (_add_environment_overrides env (merged_layers M B framework))
                 "app" (VDict []) = VDict a0).
  { rewrite lookup_layer by discriminate. unfold get_d. now rewrite La0. }
  rewrite Ga, app_values_dict in Ha. unfold named_app, mem in Ha.
  rewrite Na0 in Ha. cbn [bind] in Ha. injection Ha as <-.
  assert (La : lookup "app" merged = Some (VDict (framed_app framework a0))).
  { rewrite Em, lookup_after_deployment. reflexivity. }
  assert (Lt : lookup "detection" merged = Some (VDict t0)).
  { rewrite Em, lookup_after_deployment. cbn.
    now rewrite lookup_environment_overrides by discriminate. }
  assert (Lb : lookup "build_strategy" merged = Some (VDict b0)).
  { rewrite Em, lookup_after_deployment. cbn.
    now rewrite lookup_environment_overrides by discriminate. }
  (* validation *)
  assert (GA : get_d merged "app" (VDict []) = VDict (framed_app framework a0))
    by (unfold get_d; now rewrite La).
  assert (GD : get_d merged "docker" (VDict [])
               = VDict (tags_dict env repository image d))
    by (unfold get_d; now rewrite Ld).
  unfold validate_config in Hv. rewrite GA, GD in Hv. cbn [py_get bind] in Hv.
  inv_bind Hv. rename x into warnings. injection Hv as <-.
  assert (Nf : lookup "name" (framed_app framework a0)
               = Some (VStr (_extract_app_name env repo))).
  { unfold framed_app. now rewrite !lookup_set_neq by discriminate. }
  assert (Rf : lookup "repository" (tags_dict env repository image d)
               = Some repository).
  { rewrite lookup_tags_dict. cbn. exact Rd. }
  exists framework, confidence, details.
  eexists. exists repository.
  exists (framed_app framework a0), t0, b0, (tags_dict env repository image d).
  split; [exact Hd|]. split; [reflexivity|].
  cbn [lookup_path]. rewrite lookup_set_eq.
  rewrite !(lookup_set_neq _ "validation") by discriminate.
  repeat split; try assumption.
  - unfold framed_app.
    now rewrite (lookup_set_neq "framework" "detected_framework"), lookup_set_eq
      by discriminate.
  - cbn [lookup String.eqb Ascii.eqb Bool.eqb]. unfold get_d. rewrite Nf, Rf.
    cbn [truthy].
    destruct (String.eqb (_extract_app_name env repo) ""), (truthy repository);
      reflexivity.
Qed.

(** X14.  A successful analysis hands on a config whose app name is the name
    [_extract_app_name] reads off the repository and whose framework is the
    detected one, whatever the global config and the framework defaults
    hold there; the detection section records the framework and the
    confidence returned; and [validation.valid] is true exactly when that
    name is not empty and [docker.repository] is truthy. *)
Theorem successful_analysis_config self env repo st r st' :
  analyze_only self env repo st = (Ok r, st') ->
  succeeded r = true ->
  exists framework confidence details config repository,
    detect_framework repo = Ok (framework, confidence, details) /\
    lookup "framework" r = Some (VStr framework) /\
    lookup "confidence" r = Some (VFloat confidence) /\
    lookup "config" r = Some (VDict config) /\
    lookup_path ["app"; "name"] config = Some (VStr (_extract_app_name env repo)) /\
    lookup_path ["app"; "framework"] config = Some (VStr framework) /\
    lookup_path ["detection"; "framework"] config = Some (VStr framework) /\
    lookup_path ["detection"; "confidence"] config = Some (VFloat confidence) /\
    lookup_path ["docker"; "repository"] config = Some repository /\
    lookup_path ["validation"; "valid"] config
    = Some (VBool (negb (String.eqb (_extract_app_name env repo) "")
                   && truthy repository)).
Proof.
  intros Hr Hs.
  destruct (analysis_config_shape self env repo st r st' Hr Hs)
    as (framework & confidence & details & config & repository & app & detection
        & build_strategy & docker & Hd & -> & La & Na & Fa & Lt & Ft & Ct & _ & Ld
        & Rd & Hv).
  exists framework, confidence, details, config, repository.
  cbn [lookup_path]. rewrite La, Lt, Ld.
  repeat split; assumption.
Qed.

End Runs.

(** *** The name read off the repository *)

Definition chars (s : string) : list ascii := list_ascii_of_string s.

(** An upper-case ASCII letter. *)
Definition is_upper (c : ascii) : bool :=
  let n := nat_of_ascii c in Nat.leb 65 n && Nat.leb n 90.

Lemma lower_ascii_not_upper c : is_upper (lower_ascii c) = false.
Proof. destruct c as [[] [] [] [] [] [] [] []]; reflexivity. Qed.

Lemma chars_lower s : Forall (fun c => is_upper c = false) (chars (lower s)).
Proof.
  induction s as [|a s IH]; cbn; constructor; auto using lower_ascii_not_upper.
Qed.

Lemma chars_append s t : chars (s ++ t) = (chars s ++ chars t)%list.
Proof.
  unfold chars. induction s as [|a s IH]; cbn; [reflexivity | now rewrite IH].
Qed.

(** After [s.replace(old, new)] every character is one of [s] other than
    [old], or one of [new]. *)
Lemma chars_replace (P : ascii -> Prop) old new s :
  Forall P (chars new) ->
  Forall (fun c => c <> old -> P c) (chars s) ->
  Forall P (chars (replace old new s)).
Proof.
  intros Hnew. induction s as [|a s IH]; intros Hs; cbn.
  - constructor.
  - inversion Hs as [|? ? Ha Hrest]; subst.
    destruct (Ascii.eqb_spec a old) as [->|N].
    + rewrite chars_append. apply Forall_app. split; [assumption | now apply IH].
    + constructor; [now apply Ha | now apply IH].
Qed.

(** What the clean-up of [_extract_app_name] leaves in a name. *)
Definition clean (c : ascii) : Prop :=
  c <> "_"%char /\ is_upper c = false.

Definition clean_package (c : ascii) : Prop :=
  clean c /\ c <> "@"%char /\ c <> "/"%char.

Lemma clean_dashes s :
  Forall clean (chars (replace "_" "-" (lower s))).
Proof.
  apply chars_replace.
  - repeat constructor; discriminate.
  - eapply Forall_impl; [|apply chars_lower]. intros c Hc N. now split.
Qed.

(** X15.  The name [_extract_app_name] returns holds no upper-case ASCII letter
    and no underscore, whichever of its three sources gave it; a name read
    from package.json holds no [@] and no [/] either. *)
Theorem extracted_app_name_is_clean env repo :
  Forall clean (chars (_extract_app_name env repo)) /\
  (forall name, name_from_package repo = Ok (Some name) ->
                Forall clean_package (chars (_extract_app_name env repo))).
Proof.
  assert (P : forall name, name_from_package repo = Ok (Some name) ->
                           Forall clean_package (chars name)).
  { unfold name_from_package. intros name.
    destruct (path_exists repo "package.json"); [|discriminate].
    destruct (package_json repo) as [| | |package_data]; try discriminate.
    intros Hn. inv_bind Hn. destruct x; [|discriminate].
    inv_bind Hn. inv_bind Hn. injection Hn as <-.
    apply chars_replace.
    { repeat constructor; discriminate. }
    eapply Forall_impl with (P := fun c => clean c /\ c <> "@"%char).
    { intros c [Hc Na] Ns. split; [exact Hc | now split]. }
    apply chars_replace.
    { constructor. }
    eapply Forall_impl; [|apply chars_replace with (P := clean)].
    - intros c Hc Na. now split.
    - repeat constructor; discriminate.
    - destruct x; try discriminate. cbn in Hx1. injection Hx1 as <-.
      eapply Forall_impl; [|apply chars_lower]. intros c Hc N. now split. }
  split.
  - unfold _extract_app_name.
    destruct (name_from_package repo) as [[name|]|e] eqn:E.
    + eapply Forall_impl; [|exact (P name eq_refl)]. now intros c [Hc _].
    + destruct (getenv_truthy env "BUILD_REPOSITORY_NAME"); apply clean_dashes.
    + destruct (getenv_truthy env "BUILD_REPOSITORY_NAME"); apply clean_dashes.
  - intros name Hn. unfold _extract_app_name. rewrite Hn. now apply P.
Qed.

(** *** Sample runs *)

(** A world whose Container stage reports failure. *)
Definition docker_fails : World :=
  {| time_at := clock;
     build_run := fun config _ => Ok (stage_ok, config);
     docker_run := fun _ _ => Ok (stage_failed "docker push denied");
     deploy_run := fun _ => Ok stage_ok |}.

(** A world whose Deploy stage raises. *)
Definition deploy_raises : World :=
  {| time_at := clock;
     build_run := fun config _ => Ok (stage_ok, config);
     docker_run := fun _ _ => Ok stage_ok;
     deploy_run := fun _ => exception "cluster unreachable" |}.

Definition returned_dict (r : result dict) : dict :=
  match r with Ok d => d | Raise _ => [] end.

Lemma process_success_means_both_stages_succeeded_witness :
  let run := process_repository (H := plain_runtime) (H0 := deploy_fails)
               shop_repo shop_config initial in
  exists app app_name framework build_result docker_result,
    repo_exists shop_repo = true /\
    invoked (snd run) = invoked initial ++ [Build; Container] /\
    build_run (World := deploy_fails) shop_config shop_repo
    = Ok (build_result, config_obj (snd run)) /\
    reports_success build_result /\
    docker_run (World := deploy_fails) (config_obj (snd run)) shop_repo
    = Ok docker_result /\
    reports_success docker_result /\
    lookup "build_result" (returned_dict (fst run)) = Some build_result /\
    lookup "docker_result" (returned_dict (fst run)) = Some docker_result /\
    py_getitem shop_config "app" = Ok app /\
    py_getitem app "name" = Ok app_name /\
    py_getitem app "framework" = Ok framework /\
    lookup "app_name" (returned_dict (fst run)) = Some app_name /\
    lookup "framework" (returned_dict (fst run)) = Some framework.
Proof.
  intros run.
  apply (process_success_means_both_stages_succeeded
           (H := plain_runtime) (H0 := deploy_fails)
           shop_repo shop_config initial (returned_dict (fst run)) (snd run));
    reflexivity.
Defined.

Lemma container_failure_reported_witness :
  exists r,
    process_repository (H := plain_runtime) (H0 := docker_fails)
      shop_repo shop_config initial
    = (Ok r, after_run initial [Build; Container] shop_config) /\
    succeeded r = false /\
    lookup "error" r
    = Some (VStr ("Docker process failed: "
                  ++ py_str (H := plain_runtime)
                       (get_d [("success", VBool false);
                               ("error", VStr "docker push denied")]
                          "error" (VStr "Unknown Docker error")))).
Proof.
  apply (container_failure_reported (H := plain_runtime) (H0 := docker_fails)
           shop_repo shop_config initial (VBool true)
           (VDict [("name", VStr "shop"); ("framework", VStr "react")])
           (VStr "shop") (VStr "react") stage_ok shop_config
           [("success", VBool false); ("error", VStr "docker push denied")]
           (VBool false));
    try reflexivity.
  exists (VBool true). split; reflexivity.
Defined.

Lemma full_pipeline_raises_only_from_deploy_witness :
  true = true /\
  ran (full_pipeline (H := plain_runtime) (H0 := deploy_raises)
         orchestrator local_env shop_repo true)
      initial [Build; Container; Deploy] /\
  exists config,
    deploy_run (World := deploy_raises) config
    = Raise (mk_exn Exception_ "cluster unreachable").
Proof.
  apply (full_pipeline_raises_only_from_deploy
           (H := plain_runtime) (H0 := deploy_raises)
           orchestrator local_env shop_repo true initial
           (mk_exn Exception_ "cluster unreachable")).
  vm_compute. reflexivity.
Defined.

Lemma successful_analysis_config_witness :
  let run := analyze_only (H := plain_runtime) (H0 := deploy_fails)
               orchestrator local_env shop_repo initial in
  exists framework confidence details config repository,
    detect_framework shop_repo = Ok (framework, confidence, details) /\
    lookup "framework" (returned_dict (fst run)) = Some (VStr framework) /\
    lookup "confidence" (returned_dict (fst run)) = Some (VFloat confidence) /\
    lookup "config" (returned_dict (fst run)) = Some (VDict config) /\
    lookup_path ["app"; "name"] config
    = Some (VStr (_extract_app_name local_env shop_repo)) /\
    lookup_path ["app"; "framework"] config = Some (VStr framework) /\
    lookup_path ["detection"; "framework"] config = Some (VStr framework) /\
    lookup_path ["detection"; "confidence"] config = Some (VFloat confidence) /\
    lookup_path ["docker"; "repository"] config = Some repository /\
    lookup_path ["validation"; "valid"] config
    = Some (VBool (negb (String.eqb (_extract_app_name local_env shop_repo) "")
                   && truthy repository)).
Proof.
  intros run.
  apply (successful_analysis_config (H := plain_runtime) (H0 := deploy_fails)
           orchestrator local_env shop_repo initial
           (returned_dict (fst run)) (snd run));
    vm_compute; reflexivity.
Defined.

(** The Container failure, run. *)
Example container_failure_scenario :
  let run := process_repository (H := plain_runtime) (H0 := docker_fails)
               shop_repo shop_config initial in
  lookup "error" (returned_dict (fst run))
  = Some (VStr "Docker process failed: docker push denied") /\
  invoked (snd run) = [Build; Container].
Proof. vm_compute. split; reflexivity. Qed.

(** A scoped package name, cleaned. *)
Example scoped_package_name :
  _extract_app_name local_env
    {| repo_path := "/work/ui"; repo_exists := true; repo_name := "ui";
       repo_paths := [];
       package_json := Manifest (VDict [("name", VStr "@Acme/Web_UI")]) |}
  = "acme-web-ui".
Proof. reflexivity. Qed.

End PipelineFacts.

(** ** The build strategy and the confidence *)

Module StrategyFacts.
Import FrameworkDetector DictFacts ConfigFacts DetectorFacts.

(** [framework_patterns.get('build_commands', ['build'])]. *)
Definition preferred_commands (framework : string) : list string :=
  match lookup framework detection_patterns with
  | Some p => build_commands p
  | None => ["build"]
  end.

Definition install_command (repo : repository) : string :=
  if path_exists repo "package-lock.json"
  then "npm ci --prefer-offline --no-audit --no-fund"
  else "npm install --prefer-offline --no-audit --no-fund".

(** The strategy for a repository with no usable manifest. *)
Definition no_manifest_strategy : value :=
  VDict [("command", VStr ("echo " ++ quoted "No package.json found"));
         ("type", VStr "generic");
         ("install_command", VStr ("echo " ++ quoted "No install needed"))].

(** The strategy that runs the script [cmd] of the manifest. *)
Definition script_strategy (framework install : string) (scripts : dict)
  (cmd : string) : value :=
  VDict [("command", VStr ("npm run " ++ cmd));
         ("type", VStr framework);
         ("script_content", get_d scripts cmd VNone);
         ("install_command", VStr install);
         ("available_scripts", str_list (keys scripts))].

(** The strategy that only installs. *)
Definition install_only_strategy (install : string) : value :=
  VDict [("command", VStr install);
         ("type", VStr "install-only");
         ("install_command", VStr install)].

Lemma load_package_json_well_formed repo :
  well_formed (package_json repo) = true ->
  _load_package_json repo = Ok (manifest_data repo).
Proof.
  unfold _load_package_json, path_exists, manifest_data. intros W. cbn.
  destruct (repo_exists repo); cbn.
  - destruct (package_json repo); try reflexivity. discriminate.
  - now destruct (package_json repo).
Qed.

Lemma first_script_find framework install (scripts : dict) commands :
  first_script framework install (VDict scripts) commands
  = Ok (option_map (script_strategy framework install scripts)
          (find (fun c => mem c scripts) commands)).
Proof.
  induction commands as [|cmd rest IH]; [reflexivity|].
  cbn [first_script py_in bind find]. unfold mem at 1 2.
  destruct (lookup cmd scripts) as [content|] eqn:E.
  - cbn. unfold script_strategy, get_d. now rewrite E.
  - exact IH.
Qed.

(** Every list of preferred commands holds [build]. *)
Lemma build_is_preferred framework : In "build" (preferred_commands framework).
Proof.
  unfold preferred_commands. cbn.
  repeat match goal with
         | |- context [if ?b then _ else _] => destruct b
         end; cbn; auto.
Qed.

(** X16.  The strategy [detect_build_strategy] returns on a manifest that is
    absent, unparsable or well-formed: the no-manifest strategy when the
    manifest is missing or empty; else the first preferred command of the
    framework that the manifest has as a script, run with [npm run] under
    the framework's name; else the install-only strategy.  The fallback to
    a generic [npm run build] is never taken: [build] is among the
    preferred commands of every framework. *)
Theorem build_strategy_choice repo framework :
  well_formed (package_json repo) = true ->
  detect_build_strategy repo framework
  = Ok (if negb (truthy (manifest_data repo)) then no_manifest_strategy
        else
          let scripts := manifest_section (manifest_data repo) "scripts" in
          match find (fun c => mem c scripts) (preferred_commands framework) with
          | Some cmd => script_strategy framework (install_command repo) scripts cmd
          | None => install_only_strategy (install_command repo)
          end).
Proof.
  intros W. unfold detect_build_strategy.
  rewrite (load_package_json_well_formed repo W). cbn [bind].
  pose proof (manifest_data_ok repo W) as D.
  destruct (truthy (manifest_data repo)) eqn:T; [|reflexivity].
  cbn [negb]. destruct (manifest_data repo) as [| | | | | |d] eqn:E;
    try (unfold data_ok in D; rewrite T in D; discriminate).
  cbn [data_ok] in D. apply andb_prop in D. destruct D as [_ Hs].
  cbn [py_get bind]. rewrite (section_of_mapping d "scripts" Hs).
  fold (preferred_commands framework). fold (install_command repo).
  rewrite first_script_find. cbn [bind].
  set (scripts := manifest_section (VDict d) "scripts").
  destruct (find (fun c => mem c scripts) (preferred_commands framework))
    as [cmd|] eqn:F; [reflexivity|].
  cbn [option_map py_in bind].
  rewrite (find_none _ _ F "build" (build_is_preferred framework)).
  reflexivity.
Qed.

Lemma build_strategy_choice_witness :
  detect_build_strategy OrchestratorFacts.shop_repo "react"
  = Ok (if negb (truthy (manifest_data OrchestratorFacts.shop_repo))
        then no_manifest_strategy
        else
          let scripts :=
            manifest_section (manifest_data OrchestratorFacts.shop_repo) "scripts" in
          match find (fun c => mem c scripts) (preferred_commands "react") with
          | Some cmd =>
              script_strategy "react" (install_command OrchestratorFacts.shop_repo)
                scripts cmd
          | None => install_only_strategy (install_command OrchestratorFacts.shop_repo)
          end).
Proof.
  apply (build_strategy_choice OrchestratorFacts.shop_repo "react"). reflexivity.
Defined.

(** *** The confidence *)

(** On every weighted score above zero that a profile can reach, the
    confidence is the score over 50, unclamped, and lies in (0, 0.78]. *)
Definition confidence_check (w : float) : bool :=
  implb (PrimFloat.ltb 0 w)
        (let c := PrimFloat.div w max_possible in
         negb (PrimFloat.ltb 1 c) && PrimFloat.ltb 0 c && PrimFloat.leb c 0.78%float).

Lemma attainable_confidence : forallb confidence_check attainable = true.
Proof. vm_compute. reflexivity. Qed.

(** X17.  The confidence [detect_framework] returns for an existing repository
    with a well-formed manifest is above 0 and at most 0.78 (a full angular
    match, 39 points of 50): the clamp at 1.0 never acts, and no
    repository is detected with full confidence. *)
Theorem confidence_range repo :
  repo_exists repo = true ->
  well_formed (package_json repo) = true ->
  exists framework confidence details,
    detect_framework repo = Ok (framework, confidence, details) /\
    PrimFloat.ltb 0 confidence = true /\
    PrimFloat.leb confidence 0.78%float = true /\
    (framework = "generic" /\ confidence = 0.1%float \/
     exists p, In (framework, p) detection_patterns /\
               confidence = PrimFloat.div (weighted_score repo p) max_possible).
Proof.
  intros He W. pose proof (detect_framework_selects repo He W) as S.
  destruct (candidates repo detection_patterns) as [|c cs].
  - exists "generic", 0.1%float, (VDict []). split; [exact S|].
    repeat split. now left.
  - destruct S as (name & p & Hin & Hpos & _ & Hd).
    pose proof attainable_confidence as C. rewrite forallb_forall in C.
    specialize (C _ (weighted_score_attainable repo name p Hin)).
    unfold confidence_check in C. rewrite Hpos in C. cbn [implb] in C.
    apply andb_prop in C. destruct C as [C Hle].
    apply andb_prop in C. destruct C as [Hclamp Hgt].
    apply negb_true_iff in Hclamp.
    assert (E : min_one (PrimFloat.div (weighted_score repo p) max_possible)
                = PrimFloat.div (weighted_score repo p) max_possible)
      by (unfold min_one; now rewrite Hclamp).
    rewrite E in Hd.
    eexists name, _, _. split; [exact Hd|].
    repeat split; try assumption. right. exists p. now split.
Qed.

Lemma confidence_range_witness :
  exists framework confidence details,
    detect_framework OrchestratorFacts.shop_repo
    = Ok (framework, confidence, details) /\
    PrimFloat.ltb 0 confidence = true /\
    PrimFloat.leb confidence 0.78%float = true /\
    (framework = "generic" /\ confidence = 0.1%float \/
     exists p, In (framework, p) detection_patterns /\
               confidence
               = PrimFloat.div (weighted_score OrchestratorFacts.shop_repo p)
                   max_possible).
Proof.
  apply (confidence_range OrchestratorFacts.shop_repo); reflexivity.
Defined.

(** *** More files, no lower score *)

Lemma count_monotone (t t' : string -> bool) items :
  (forall x, t x = true -> t' x = true) ->
  (count t items <= count t' items)%Z.
Proof.
  intros Ht. unfold count. apply inj_le.
  induction items as [|x rest IH]; [reflexivity|].
  cbn [filter]. destruct (t x) eqn:E.
  - rewrite (Ht x E). cbn. lia.
  - destruct (t' x); cbn; lia.
Qed.

(** X18.  A repository that holds every path another holds, with the same
    manifest, scores at least as much on every profile. *)
Theorem more_files_never_score_less repo repo' p :
  well_formed (package_json repo) = true ->
  repo_exists repo = true ->
  repo_exists repo' = true ->
  package_json repo' = package_json repo ->
  incl (repo_paths repo) (repo_paths repo') ->
  exists score details score' details',
    score_framework repo (manifest_data repo) p = Ok (score, details) /\
    score_framework repo' (manifest_data repo') p = Ok (score', details') /\
    (score <= score')%Z.
Proof.
  intros W He He' Hp Hincl.
  assert (W' : well_formed (package_json repo') = true) by now rewrite Hp.
  destruct (score_framework_spec repo _ p (manifest_data_ok repo W)) as (dt & Hs).
  destruct (score_framework_spec repo' _ p (manifest_data_ok repo' W')) as (dt' & Hs').
  exists (profile_score repo (manifest_data repo) p), dt,
         (profile_score repo' (manifest_data repo') p), dt'.
  split; [exact Hs|]. split; [exact Hs'|].
  assert (Hd : manifest_data repo' = manifest_data repo).
  { unfold manifest_data. now rewrite Hp, He, He'. }
  assert (Hx : forall f, path_exists repo f = true -> path_exists repo' f = true).
  { unfold path_exists. rewrite He, He', Hp. cbn. intros f.
    destruct (String.eqb f "package.json"); [easy|].
    rewrite !existsb_exists. intros (x & Hin & E). exists x. split; auto. }
  unfold profile_score. rewrite Hd.
  pose proof (count_monotone _ _ (files p) Hx).
  pose proof (count_monotone _ _ (config_files p) Hx).
  lia.
Qed.

Lemma more_files_never_score_less_witness :
  exists score details score' details',
    score_framework OrchestratorFacts.nameless_repo
      (manifest_data OrchestratorFacts.nameless_repo)
      {| files := ["src/App.js"; "src/index.js"];
         package_dependencies := ["react"];
         package_dev_dependencies := [];
         config_files := ["package.json"];
         build_commands := ["build"];
         start_commands := [];
         weight := 0.9%float |}
    = Ok (score, details) /\
    score_framework
      {| repo_path := "/work/shop"; repo_exists := true; repo_name := "shop";
         repo_paths := ["src/index.js"; "src/App.js"; "public/index.html"];
         package_json := package_json OrchestratorFacts.nameless_repo |}
      (manifest_data
         {| repo_path := "/work/shop"; repo_exists := true; repo_name := "shop";
            repo_paths := ["src/index.js"; "src/App.js"; "public/index.html"];
            package_json := package_json OrchestratorFacts.nameless_repo |})
      {| files := ["src/App.js"; "src/index.js"];
         package_dependencies := ["react"];
         package_dev_dependencies := [];
         config_files := ["package.json"];
         build_commands := ["build"];
         start_commands := [];
         weight := 0.9%float |}
    = Ok (score', details') /\
    (score <= score')%Z.
Proof.
  apply (more_files_never_score_less OrchestratorFacts.nameless_repo
           {| repo_path := "/work/shop"; repo_exists := true; repo_name := "shop";
              repo_paths := ["src/index.js"; "src/App.js"; "public/index.html"];
              package_json := package_json OrchestratorFacts.nameless_repo |});
    try reflexivity.
  intros x Hx. cbn in *. tauto.
Defined.

End StrategyFacts.

(** ** The exit status of the entry points *)

Module EntryFacts.
Import ConfigMerger FrameworkDetector Orchestrator EntryPoints.
Import DictFacts ConfigFacts OrchestratorFacts PipelineFacts.

Section Entries.
Context `{Runtime} `{World}.

(** *** run_build.py *)

(** The checks of run_build.py that stand before [process_repository]. *)
Definition build_reached (sur : surroundings) (service_path analysis_file : string)
  (config : value) : Prop :=
  scripts_dir_exists sur = true /\
  import_modules sur = Ok tt /\
  (exists analysis flag,
     load_json sur analysis_file = Ok analysis /\
     py_getitem analysis "success" = Ok flag /\ truthy flag = true /\
     py_getitem analysis "config" = Ok config) /\
  (exists app name,
     py_getitem config "app" = Ok app /\ py_getitem app "name" = Ok name) /\
  (exists orchestrator, new_orchestrator sur = Ok orchestrator) /\
  repo_exists (repository_at sur service_path) = true.

(** The status after [process_repository] returned. *)
Definition status_of (r : dict) : Z := if succeeded r then 0%Z else 1%Z.

Lemma run_build_reached sur st script service_path analysis_file rest config r st' :
  argv sur = script :: service_path :: analysis_file :: rest ->
  build_reached sur service_path analysis_file config ->
  process_repository (repository_at sur service_path) config st = (Ok r, st') ->
  RunBuild.main sur st = (Ok (status_of r), st').
Proof.
  intros Hargv (Hs & Hi & (analysis & flag & Hl & Hf & Ht & Hc)
                & (app & name & Ha & Hn) & (o & Ho) & He) Hp.
  unfold RunBuild.main. rewrite Hargv, Hs. cbn [negb].
  unfold try_except, bindM, lift, ret.
  rewrite Hi, Hl, Hf, Ht. cbn [negb]. rewrite Hc, Ha, Hn, Ho, He. cbn [negb].
  rewrite Hp.
  destruct (process_repository_run (repository_at sur service_path) config st)
    as (r0 & stages & config' & Hr0 & [(_ & e & ->)|S]).
  - rewrite Hp in Hr0. injection Hr0 as -> _. reflexivity.
  - destruct S as (f & a & an & fw & b & d & _ & _ & _ & _ & _ & _ & _ & _ & _ & _
                   & _ & ->).
    rewrite Hp in Hr0. injection Hr0 as -> _. reflexivity.
Qed.

(** What a successful processing has invoked. *)
Lemma processing_success_stages repo config st r st' :
  process_repository repo config st = (Ok r, st') ->
  succeeded r = true ->
  invoked st' = invoked st ++ [Build; Container].
Proof.
  intros Hp Hs.
  destruct (process_repository_run repo config st)
    as (r0 & stages & config' & Hr0 & [(_ & e & ->)|S]).
  - rewrite Hp in Hr0. injection Hr0 as -> _. discriminate.
  - destruct S as (f & a & an & fw & b & d & -> & _).
    rewrite Hp in Hr0. injection Hr0 as _ ->. reflexivity.
Qed.

(** Every run of run_build.py: it stops with status 1 before any stage, or
    it reaches [process_repository] and its status is that of the result. *)
Lemma run_build_cases sur st :
  RunBuild.main sur st = (Ok 1%Z, st) \/
  exists script service_path analysis_file rest config r st',
    argv sur = script :: service_path :: analysis_file :: rest /\
    build_reached sur service_path analysis_file config /\
    process_repository (repository_at sur service_path) config st = (Ok r, st') /\
    RunBuild.main sur st = (Ok (status_of r), st').
Proof.
  destruct (argv sur) as [|script [|service_path [|analysis_file rest]]] eqn:Hargv;
    try (left; unfold RunBuild.main; rewrite Hargv; reflexivity).
  destruct (scripts_dir_exists sur) eqn:Hs.
  2:{ left. unfold RunBuild.main. rewrite Hargv, Hs. reflexivity. }
  destruct (import_modules sur) as [[]|e] eqn:Hi.
  2:{ left. unfold RunBuild.main. rewrite Hargv, Hs. cbn [negb].
      unfold try_except, bindM, lift, ret. rewrite Hi. reflexivity. }
  destruct (load_json sur analysis_file) as [analysis|e] eqn:Hl.
  2:{ left. unfold RunBuild.main. rewrite Hargv, Hs. cbn [negb].
      unfold try_except, bindM, lift, ret. rewrite Hi, Hl. reflexivity. }
  destruct (py_getitem analysis "success") as [flag|e] eqn:Hf.
  2:{ left. unfold RunBuild.main. rewrite Hargv, Hs. cbn [negb].
      unfold try_except, bindM, lift, ret. rewrite Hi, Hl, Hf. reflexivity. }
  destruct (truthy flag) eqn:Ht.
  2:{ left. unfold RunBuild.main. rewrite Hargv, Hs. cbn [negb].
      unfold try_except, bindM, lift, ret. rewrite Hi, Hl, Hf, Ht. reflexivity. }
  destruct (py_getitem analysis "config") as [config|e] eqn:Hc.
  2:{ left. unfold RunBuild.main. rewrite Hargv, Hs. cbn [negb].
      unfold try_except, bindM, lift, ret. rewrite Hi, Hl, Hf, Ht. cbn [negb].
      rewrite Hc. reflexivity. }
  destruct (py_getitem config "app") as [app|e] eqn:Ha.
  2:{ left. unfold RunBuild.main. rewrite Hargv, Hs. cbn [negb].
      unfold try_except, bindM, lift, ret. rewrite Hi, Hl, Hf, Ht. cbn [negb].
      rewrite Hc, Ha. reflexivity. }
  destruct (py_getitem app "name") as [name|e] eqn:Hn.
  2:{ left. unfold RunBuild.main. rewrite Hargv, Hs. cbn [negb].
      unfold try_except, bindM, lift, ret. rewrite Hi, Hl, Hf, Ht. cbn [negb].
      rewrite Hc, Ha, Hn. reflexivity. }
  destruct (new_orchestrator sur) as [o|e] eqn:Ho.
  2:{ left. unfold RunBuild.main. rewrite Hargv, Hs. cbn [negb].
      unfold try_except, bindM, lift, ret. rewrite Hi, Hl, Hf, Ht. cbn [negb].
      rewrite Hc, Ha, Hn, Ho. reflexivity. }
  destruct (repo_exists (repository_at sur service_path)) eqn:He.
  2:{ left. unfold RunBuild.main. rewrite Hargv, Hs. cbn [negb].
      unfold try_except, bindM, lift, ret. rewrite Hi, Hl, Hf, Ht. cbn [negb].
      rewrite Hc, Ha, Hn, Ho, He. reflexivity. }
  right.
  destruct (process_repository_run (repository_at sur service_path) config st)
    as (r & stages & config' & Hr & _).
  exists script, service_path, analysis_file, rest, config, r, (after_run st stages config').
  assert (R : build_reached sur service_path analysis_file config).
  { unfold build_reached. repeat split; eauto 6. }
  repeat split; try assumption; try (now apply R).
  eapply run_build_reached; eauto.
Qed.

(** X21.  run_build.py ends with status 0 exactly when it got through its checks
    (the scripts directory, the import, an analysis file whose [success] is
    truthy and whose config names an app, the orchestrator, the repository)
    and [process_repository] reported success; the Build and Container
    stages have then been invoked, in that order, and nothing else. *)
Theorem run_build_succeeds_exactly_when_processing_succeeds sur st code st' :
  RunBuild.main sur st = (Ok code, st') ->
  (code = 0%Z <->
   exists script service_path analysis_file rest config r,
     argv sur = script :: service_path :: analysis_file :: rest /\
     build_reached sur service_path analysis_file config /\
     process_repository (repository_at sur service_path) config st = (Ok r, st') /\
     succeeded r = true /\
     invoked st' = invoked st ++ [Build; Container]).
Proof.
  intros Hm. split.
  - intros ->.
    destruct (run_build_cases sur st)
      as [E|(script & service_path & analysis_file & rest & config & r & st1
             & Hargv & R & Hp & E)];
      rewrite Hm in E; [discriminate|].
    injection E as Hc ->.
    assert (Hs : succeeded r = true).
    { unfold status_of in Hc. destruct (succeeded r); [reflexivity | discriminate]. }
    exists script, service_path, analysis_file, rest, config, r.
    repeat split; try assumption; try (now apply R).
    exact (processing_success_stages _ _ _ _ _ Hp Hs).
  - intros (script & service_path & analysis_file & rest & config & r
            & Hargv & R & Hp & Hs & _).
    rewrite (run_build_reached _ _ _ _ _ _ _ _ _ Hargv R Hp) in Hm.
    injection Hm as <-. unfold status_of. now rewrite Hs.
Qed.

(** *** run_deploy.py *)

(** The checks of run_deploy.py that stand before [deploy_run]: the config
    handed on is the one of the analysis file, with the default deployment
    section when it has none, and it holds every entry the script reads. *)
Definition deploy_reached (sur : surroundings) (analysis_file : string)
  (config : value) : Prop :=
  scripts_dir_exists sur = true /\
  import_modules sur = Ok tt /\
  (exists analysis flag loaded has_deployment,
     load_json sur analysis_file = Ok analysis /\
     py_getitem analysis "success" = Ok flag /\ truthy flag = true /\
     py_getitem analysis "config" = Ok loaded /\
     py_in "deployment" loaded = Ok has_deployment /\
     (if has_deployment then Ok loaded
      else py_setitem loaded "deployment" RunDeploy.default_deployment)
     = Ok config) /\
  (exists app name framework docker image deployment environment namespace,
     py_getitem config "app" = Ok app /\
     py_getitem app "name" = Ok name /\
     py_getitem app "framework" = Ok framework /\
     py_getitem config "docker" = Ok docker /\
     py_getitem docker "full_image" = Ok image /\
     py_getitem config "deployment" = Ok deployment /\
     py_getitem deployment "environment" = Ok environment /\
     py_getitem deployment "namespace" = Ok namespace).

(** The Deploy stage returned a result that reports success and names a
    manifest whose preview went through. *)
Definition deployed (sur : surroundings) (outcome : result value) : Prop :=
  exists deploy_result manifest_path,
    outcome = Ok deploy_result /\
    reports_success deploy_result /\
    py_getitem deploy_result "manifest_path" = Ok manifest_path /\
    preview_manifest sur manifest_path = Ok tt.

(** The status run_deploy.py gives the outcome of the Deploy stage. *)
Definition deploy_status (sur : surroundings) (outcome : result value) : Z :=
  match outcome with
  | Ok deploy_result =>
      match py_getitem deploy_result "success" with
      | Ok flag =>
          if truthy flag then
            match py_getitem deploy_result "manifest_path" with
            | Ok manifest_path =>
                match preview_manifest sur manifest_path with
                | Ok _ => 0%Z
                | Raise _ => 1%Z
                end
            | Raise _ => 1%Z
            end
          else 1%Z
      | Raise _ => 1%Z
      end
  | Raise _ => 1%Z
  end.

Lemma deploy_status_zero sur outcome :
  deploy_status sur outcome = 0%Z <-> deployed sur outcome.
Proof.
  unfold deploy_status, deployed, reports_success. split.
  - destruct outcome as [d|e]; [|discriminate].
    destruct (py_getitem d "success") as [flag|e] eqn:Ef; [|discriminate].
    destruct (truthy flag) eqn:Et; [|discriminate].
    destruct (py_getitem d "manifest_path") as [m|e] eqn:Em; [|discriminate].
    destruct (preview_manifest sur m) as [[]|e] eqn:Ep; [|discriminate].
    intros _. exists d, m. repeat split; eauto.
  - intros (d & m & -> & (flag & Ef & Et) & Em & Ep).
    now rewrite Ef, Et, Em, Ep.
Qed.

(** The state after the Deploy stage was handed [config]. *)
Definition after_deploy (st : state) (config : value) : state :=
  {| invoked := invoked st ++ [Deploy]; ticks := ticks st; config_obj := config |}.

Lemma run_deploy_reached sur st script analysis_file rest config :
  argv sur = script :: analysis_file :: rest ->
  deploy_reached sur analysis_file config ->
  RunDeploy.main sur st
  = (Ok (deploy_status sur (deploy_run config)), after_deploy st config).
Proof.
  intros Hargv (Hs & Hi & (analysis & flag & loaded & has & Hl & Hf & Ht & Hc & Hh & Hd)
                & (app & name & framework & docker & image & deployment & environment
                   & namespace & Ha & Hn & Hw & Hk & Hg & Hp & He & Hns)).
  unfold RunDeploy.main. rewrite Hargv, Hs. cbn [negb].
  unfold call_deploy, put_config, get_config, record_stage, try_except, bindM,
    lift, ret, after_deploy, deploy_status.
  rewrite Hi, Hl, Hf, Ht. cbn [negb]. rewrite Hc, Hh, Hd, Ha, Hn, Hw, Hk, Hg, Hp, He, Hns.
  cbn [invoked ticks config_obj].
  destruct (deploy_run config) as [d|e]; [|reflexivity].
  destruct (py_getitem d "success") as [dflag|e]; [|reflexivity].
  destruct (truthy dflag).
  - destruct (py_getitem d "manifest_path") as [m|e]; [|reflexivity].
    destruct (preview_manifest sur m) as [[]|e]; reflexivity.
  - destruct (py_get d "error" (VStr "Unknown error")); reflexivity.
Qed.

Ltac stopped_early :=
  left; unfold RunDeploy.main, RunAnalysis.main;
  unfold try_except, bindM, lift, ret;
  repeat (progress (repeat match goal with
                           | E : ?x = _ |- context [?x] => rewrite E
                           end; cbn [negb]));
  reflexivity.

(** Every run of run_deploy.py: it stops with status 1 before the Deploy
    stage, or it invokes the stage and its status is that of the outcome. *)
Lemma run_deploy_cases sur st :
  RunDeploy.main sur st = (Ok 1%Z, st) \/
  exists script analysis_file rest config,
    argv sur = script :: analysis_file :: rest /\
    deploy_reached sur analysis_file config /\
    RunDeploy.main sur st
    = (Ok (deploy_status sur (deploy_run config)), after_deploy st config).
Proof.
  destruct (argv sur) as [|script [|analysis_file rest]] eqn:Hargv;
    try stopped_early.
  destruct (scripts_dir_exists sur) eqn:Hs; [|stopped_early].
  destruct (import_modules sur) as [[]|e] eqn:Hi; [|stopped_early].
  destruct (load_json sur analysis_file) as [analysis|e] eqn:Hl; [|stopped_early].
  destruct (py_getitem analysis "success") as [flag|e] eqn:Hf; [|stopped_early].
  destruct (truthy flag) eqn:Ht; [|stopped_early].
  destruct (py_getitem analysis "config") as [loaded|e] eqn:Hc; [|stopped_early].
  destruct (py_in "deployment" loaded) as [has|e] eqn:Hh; [|stopped_early].
  destruct (if has then Ok loaded
            else py_setitem loaded "deployment" RunDeploy.default_deployment)
    as [config|e] eqn:Hd; [|stopped_early].
  destruct (py_getitem config "app") as [app|e] eqn:Ha; [|stopped_early].
  destruct (py_getitem app "name") as [name|e] eqn:Hn; [|stopped_early].
  destruct (py_getitem app "framework") as [framework|e] eqn:Hw; [|stopped_early].
  destruct (py_getitem config "docker") as [docker|e] eqn:Hk; [|stopped_early].
  destruct (py_getitem docker "full_image") as [image|e] eqn:Hg; [|stopped_early].
  destruct (py_getitem config "deployment") as [deployment|e] eqn:Hp;
    [|stopped_early].
  destruct (py_getitem deployment "environment") as [environment|e] eqn:He;
    [|stopped_early].
  destruct (py_getitem deployment "namespace") as [namespace|e] eqn:Hns;
    [|stopped_early].
  right. exists script, analysis_file, rest, config.
  assert (R : deploy_reached sur analysis_file config).
  { unfold deploy_reached. split; [assumption|]. split; [assumption|]. split.
    - exists analysis, flag, loaded, has. now repeat split.
    - exists app, name, framework, docker, image, deployment, environment, namespace.
      now repeat split. }
  split; [reflexivity|]. split; [exact R|].
  exact (run_deploy_reached sur st script analysis_file rest config Hargv R).
Qed.

(** X22.  run_deploy.py ends with status 0 exactly when it got through its checks
    and the Deploy stage, invoked once with the config of the analysis file
    (given the default deployment section when it has none), returned a
    result that reports success and names a manifest.  A Deploy stage that
    reports failure, or raises, gives status 1. *)
Theorem run_deploy_succeeds_exactly_when_deploy_succeeds sur st code st' :
  RunDeploy.main sur st = (Ok code, st') ->
  (code = 0%Z <->
   exists script analysis_file rest config,
     argv sur = script :: analysis_file :: rest /\
     deploy_reached sur analysis_file config /\
     deployed sur (deploy_run config) /\
     st' = after_deploy st config).
Proof.
  intros Hm. split.
  - intros ->.
    destruct (run_deploy_cases sur st)
      as [E|(script & analysis_file & rest & config & Hargv & R & E)];
      rewrite Hm in E; [discriminate|].
    injection E as Hc ->.
    exists script, analysis_file, rest, config.
    repeat split; try assumption; try (now apply R).
    apply deploy_status_zero. now symmetry.
  - intros (script & analysis_file & rest & config & Hargv & R & Hd & ->).
    rewrite (run_deploy_reached _ _ _ _ _ _ Hargv R) in Hm.
    injection Hm as <-. now apply deploy_status_zero.
Qed.

(** *** run_analysis.py *)

(** The checks of run_analysis.py that stand before [analyze_only]. *)
Definition analysis_reached (sur : surroundings) (service_path : string)
  (orchestrator : SmartOrchestrator) : Prop :=
  scripts_dir_exists sur = true /\
  repo_exists (repository_at sur service_path) = true /\
  import_modules sur = Ok tt /\
  new_orchestrator sur = Ok orchestrator.

(** The status run_analysis.py gives an analysis result, by what writing
    the results file gave. *)
Definition analysis_status (written : result unit) (r : dict) : Z :=
  match written with Ok _ => status_of r | Raise _ => 1%Z end.

Lemma run_analysis_reached sur st script service_path rest orchestrator r st' :
  argv sur = script :: service_path :: rest ->
  analysis_reached sur service_path orchestrator ->
  analyze_only orchestrator (environment sur) (repository_at sur service_path) st
  = (Ok r, st') ->
  RunAnalysis.main sur st = (Ok (analysis_status (dump_json sur r) r), st').
Proof.
  intros Hargv (Hs & He & Hi & Ho) Ha.
  unfold RunAnalysis.main. rewrite Hargv, Hs, He. cbn [negb].
  unfold try_except, bindM, lift, ret. rewrite Hi, Ho, Ha.
  unfold analysis_status, status_of.
  destruct (dump_json sur r) as [[]|e]; [|reflexivity].
  destruct (succeeded r) eqn:Hr.
  - destruct (analysis_config_shape _ _ _ _ _ _ Ha Hr)
      as (framework & confidence & details & config & repository & app & detection
          & build_strategy & docker & _ & -> & La & _ & _ & Lt & _ & Ct & Lb & Ld & _).
    cbn [py_getitem lookup String.eqb Ascii.eqb Bool.eqb truthy get_d py_get].
    unfold get_d. rewrite La, Lt, Lb, Ld. cbn [py_get]. unfold get_d. rewrite Ct.
    reflexivity.
  - destruct (analyze_only_run orchestrator (environment sur)
                (repository_at sur service_path) st)
      as (r0 & Hr0 & [(e & ->)|S]).
    + rewrite Ha in Hr0. injection Hr0 as -> _. reflexivity.
    + destruct S as (fw & c & d & b & m & f & _ & _ & _ & _ & _ & ->).
      rewrite Ha in Hr0. injection Hr0 as -> _. discriminate.
Qed.

(** Every run of run_analysis.py: it stops with status 1 before the
    analysis, or it runs [analyze_only] and its status is that of the
    result, once written. *)
Lemma run_analysis_cases sur st :
  RunAnalysis.main sur st = (Ok 1%Z, st) \/
  exists script service_path rest orchestrator r st',
    argv sur = script :: service_path :: rest /\
    analysis_reached sur service_path orchestrator /\
    analyze_only orchestrator (environment sur) (repository_at sur service_path) st
    = (Ok r, st') /\
    RunAnalysis.main sur st = (Ok (analysis_status (dump_json sur r) r), st').
Proof.
  destruct (argv sur) as [|script [|service_path rest]] eqn:Hargv;
    try stopped_early.
  destruct (scripts_dir_exists sur) eqn:Hs; [|stopped_early].
  destruct (repo_exists (repository_at sur service_path)) eqn:He; [|stopped_early].
  destruct (import_modules sur) as [[]|e] eqn:Hi; [|stopped_early].
  destruct (new_orchestrator sur) as [o|e] eqn:Ho; [|stopped_early].
  right.
  destruct (analyze_only_run o (environment sur) (repository_at sur service_path) st)
    as (r & Hr & _).
  exists script, service_path, rest, o, r, (after_run st [] (config_obj st)).
  assert (R : analysis_reached sur service_path o) by (unfold analysis_reached; auto).
  split; [reflexivity|]. split; [exact R|]. split; [exact Hr|].
  exact (run_analysis_reached sur st script service_path rest o r _ Hargv R Hr).
Qed.

(** X20.  run_analysis.py ends with status 0 exactly when it got through its
    checks, [analyze_only] reported success and the results file was
    written: the display code that follows a successful analysis reads
    only sections the config is sure to hold, and cannot fail.  It invokes
    no stage. *)
Theorem run_analysis_succeeds_exactly_when_analysis_succeeds sur st code st' :
  RunAnalysis.main sur st = (Ok code, st') ->
  invoked st' = invoked st /\
  (code = 0%Z <->
   exists script service_path rest orchestrator r,
     argv sur = script :: service_path :: rest /\
     analysis_reached sur service_path orchestrator /\
     analyze_only orchestrator (environment sur) (repository_at sur service_path) st
     = (Ok r, st') /\
     succeeded r = true /\
     dump_json sur r = Ok tt).
Proof.
  intros Hm. split; [|split].
  - destruct (run_analysis_cases sur st)
      as [E|(script & service_path & rest & o & r & st1 & Hargv & R & Ha & E)];
      rewrite Hm in E.
    + now injection E as _ ->.
    + injection E as _ ->.
      destruct (analyze_only_run o (environment sur)
                  (repository_at sur service_path) st) as (r0 & Hr0 & _).
      rewrite Ha in Hr0. injection Hr0 as _ ->. cbn. apply app_nil_r.
  - intros ->.
    destruct (run_analysis_cases sur st)
      as [E|(script & service_path & rest & o & r & st1 & Hargv & R & Ha & E)];
      rewrite Hm in E; [discriminate|].
    injection E as Hc ->.
    exists script, service_path, rest, o, r.
    unfold analysis_status, status_of in Hc.
    destruct (dump_json sur r) as [[]|e]; [|discriminate].
    destruct (succeeded r); [|discriminate].
    split; [exact Hargv|]. split; [exact R|]. split; [exact Ha|]. split; reflexivity.
  - intros (script & service_path & rest & o & r & Hargv & R & Ha & Hs & Hw).
    rewrite (run_analysis_reached _ _ _ _ _ _ _ _ Hargv R Ha) in Hm.
    injection Hm as <-. unfold analysis_status, status_of. now rewrite Hw, Hs.
Qed.

(** *** All three *)

(** X19.  No entry point lets an exception out: each ends with status 0 or 1.
    run_analysis.py invokes no stage; run_build.py invokes nothing, Build,
    or Build then Container; run_deploy.py invokes the Deploy stage at most
    once and no other. *)
Theorem entry_points_end_with_status_zero_or_one sur st :
  (exists code st',
     RunAnalysis.main sur st = (Ok code, st') /\
     (code = 0%Z \/ code = 1%Z) /\
     invoked st' = invoked st) /\
  (exists code st' stages,
     RunBuild.main sur st = (Ok code, st') /\
     (code = 0%Z \/ code = 1%Z) /\
     invoked st' = invoked st ++ stages /\
     (stages = [] \/ stages = [Build] \/ stages = [Build; Container])) /\
  (exists code st' stages,
     RunDeploy.main sur st = (Ok code, st') /\
     (code = 0%Z \/ code = 1%Z) /\
     invoked st' = invoked st ++ stages /\
     (stages = [] \/ stages = [Deploy])).
Proof.
  split; [|split].
  - destruct (run_analysis_cases sur st)
      as [E|(script & service_path & rest & o & r & st1 & Hargv & R & Ha & E)].
    + exists 1%Z, st. auto.
    + eexists _, st1. split; [exact E|]. split.
      * unfold analysis_status, status_of.
        destruct (dump_json sur r); [destruct (succeeded r)|]; auto.
      * destruct (analyze_only_run o (environment sur)
                    (repository_at sur service_path) st) as (r0 & Hr0 & _).
        rewrite Ha in Hr0. injection Hr0 as _ ->. cbn. apply app_nil_r.
  - destruct (run_build_cases sur st)
      as [E|(script & service_path & analysis_file & rest & config & r & st1
             & Hargv & R & Hp & E)].
    + exists 1%Z, st, []. rewrite app_nil_r. auto.
    + destruct (process_repository_run (repository_at sur service_path) config st)
        as (r0 & stages & config' & Hr0 & Hcase).
      rewrite Hp in Hr0. injection Hr0 as -> ->.
      eexists _, _, stages. split; [exact E|]. split.
      * unfold status_of. destruct (succeeded r0); auto.
      * split; [reflexivity|].
        destruct Hcase as [(Hst & _)|(f & a & an & fw & b & d & -> & _)]; auto.
  - destruct (run_deploy_cases sur st)
      as [E|(script & analysis_file & rest & config & Hargv & R & E)].
    + exists 1%Z, st, []. rewrite app_nil_r. auto.
    + eexists _, _, [Deploy]. split; [exact E|]. split.
      * unfold deploy_status.
        destruct (deploy_run config) as [d|]; auto.
        destruct (py_getitem d "success") as [flag|]; auto.
        destruct (truthy flag); auto.
        destruct (py_getitem d "manifest_path") as [m|]; auto.
        destruct (preview_manifest sur m); auto.
      * split; [reflexivity | auto].
Qed.

End Entries.

(** *** Sample runs *)

(** A world whose three stages succeed. *)
Definition all_succeed : World :=
  {| time_at := clock;
     build_run := fun config _ => Ok (stage_ok, config);
     docker_run := fun _ _ => Ok stage_ok;
     deploy_run :=
       fun _ => Ok (VDict [("success", VBool true);
                           ("manifest_path", VStr "generated-k8s-manifest.yaml")]) |}.

(** The pipeline's surroundings for the shop repository, with the analysis
    file holding [config]. *)
Definition shop_surroundings (arguments : list string) (config : value)
  : surroundings :=
  {| argv := arguments;
     scripts_dir_exists := true;
     environment := local_env;
     repository_at := fun _ => shop_repo;
     import_modules := Ok tt;
     new_orchestrator := Ok orchestrator;
     load_json := fun _ => Ok (VDict [("success", VBool true); ("config", config)]);
     dump_json := fun _ => Ok tt;
     preview_manifest := fun _ => Ok tt |}.

Definition analysis_surroundings : surroundings :=
  shop_surroundings ["run_analysis.py"; "/work/shop"] VNone.

Definition build_surroundings : surroundings :=
  shop_surroundings ["run_build.py"; "/work/shop"; "analysis-results.json"]
    shop_config.

Definition deploy_surroundings : surroundings :=
  shop_surroundings ["run_deploy.py"; "analysis-results.json"]
    (VDict RemergeFacts.shop_merged).

Lemma run_analysis_succeeds_exactly_when_analysis_succeeds_witness :
  let st' := snd (RunAnalysis.main (H := plain_runtime) (H0 := all_succeed)
                    analysis_surroundings initial) in
  invoked st' = invoked initial /\
  (0%Z = 0%Z <->
   exists script service_path rest orchestrator r,
     argv analysis_surroundings = script :: service_path :: rest /\
     analysis_reached analysis_surroundings service_path orchestrator /\
     analyze_only (H := plain_runtime) (H0 := all_succeed) orchestrator
       (environment analysis_surroundings)
       (repository_at analysis_surroundings service_path) initial
     = (Ok r, st') /\
     succeeded r = true /\
     dump_json analysis_surroundings r = Ok tt).
Proof.
  intros st'.
  apply (run_analysis_succeeds_exactly_when_analysis_succeeds
           (H := plain_runtime) (H0 := all_succeed)
           analysis_surroundings initial 0%Z st').
  vm_compute. reflexivity.
Defined.

Lemma run_build_succeeds_exactly_when_processing_succeeds_witness :
  let st' := snd (RunBuild.main (H := plain_runtime) (H0 := all_succeed)
                    build_surroundings initial) in
  0%Z = 0%Z <->
  exists script service_path analysis_file rest config r,
    argv build_surroundings = script :: service_path :: analysis_file :: rest /\
    build_reached build_surroundings service_path analysis_file config /\
    process_repository (H := plain_runtime) (H0 := all_succeed)
      (repository_at build_surroundings service_path) config initial
    = (Ok r, st') /\
    succeeded r = true /\
    invoked st' = invoked initial ++ [Build; Container].
Proof.
  intros st'.
  apply (run_build_succeeds_exactly_when_processing_succeeds
           (H := plain_runtime) (H0 := all_succeed)
           build_surroundings initial 0%Z st').
  vm_compute. reflexivity.
Defined.

Lemma run_deploy_succeeds_exactly_when_deploy_succeeds_witness :
  let st' := snd (RunDeploy.main (H := all_succeed) deploy_surroundings initial) in
  0%Z = 0%Z <->
  exists script analysis_file rest config,
    argv deploy_surroundings = script :: analysis_file :: rest /\
    deploy_reached deploy_surroundings analysis_file config /\
    deployed deploy_surroundings (deploy_run (World := all_succeed) config) /\
    st' = after_deploy initial config.
Proof.
  intros st'.
  apply (run_deploy_succeeds_exactly_when_deploy_succeeds (H0 := all_succeed)
           deploy_surroundings initial 0%Z st').
  vm_compute. reflexivity.
Defined.

(** The same deployment with a Deploy stage that reports failure: status 1,
    where [full_pipeline] reports success. *)
Example failed_deploy_scenario :
  fst (RunDeploy.main (H := deploy_fails) deploy_surroundings initial) = Ok 1%Z /\
  invoked (snd (RunDeploy.main (H := deploy_fails) deploy_surroundings initial))
  = [Deploy].
Proof. vm_compute. split; reflexivity. Qed.

(** A config with no deployment section is handed on with the default
    one. *)
Example default_deployment_scenario :
  config_obj
    (snd (RunDeploy.main (H := all_succeed)
            (shop_surroundings ["run_deploy.py"; "analysis-results.json"]
               (VDict [("app", VDict [("name", VStr "shop");
                                      ("framework", VStr "react")]);
                       ("docker", VDict [("full_image", VStr "myorg/shop:v1")])]))
            initial))
  = VDict [("app", VDict [("name", VStr "shop"); ("framework", VStr "react")]);
           ("docker", VDict [("full_image", VStr "myorg/shop:v1")]);
           ("deployment", RunDeploy.default_deployment)].
Proof. reflexivity. Qed.

End EntryFacts.

(** ** What a merge keeps *)

Module LayerFacts.
Import ConfigMerger DictFacts MergeFacts ConfigFacts RemergeFacts ResolutionFacts.

Lemma keys_merge_item (result : dict) key value :
  exists added, keys (merge_item result key value) = (keys result ++ added)%list.
Proof.
  assert (S : forall v, exists added, keys (set key v result)
                                      = (keys result ++ added)%list).
  { intros v. destruct (mem key result) eqn:E.
    - exists []. now rewrite keys_set_in, app_nil_r.
    - exists [key]. now rewrite keys_set_new. }
  unfold merge_item. destruct (lookup key result) as [[]|]; destruct value; apply S.
Qed.

(** X23.  [_deep_merge] drops nothing and moves nothing: the keys of the base
    come first in the result, in their order, followed by the new keys of
    the override; a key is in the result exactly when one side has it; and
    an entry of the base whose key the override does not hold stands as it
    was. *)
Theorem deep_merge_drops_nothing (base override : dict) :
  (exists added, keys (_deep_merge base override) = (keys base ++ added)%list) /\
  (forall k, mem k (_deep_merge base override) = mem k base || mem k override) /\
  (forall k, lookup k override = None ->
             lookup k (_deep_merge base override) = lookup k base).
Proof.
  split; [|split].
  - revert base. induction override as [|[key value] rest IH]; intros base.
    + exists []. cbn. now rewrite app_nil_r.
    + rewrite deep_merge_cons.
      destruct (IH (merge_item base key value)) as (added & E).
      destruct (keys_merge_item base key value) as (added0 & E0).
      exists (added0 ++ added)%list. now rewrite E, E0, app_assoc.
  - intros k. apply mem_deep_merge.
  - intros k. apply lookup_deep_merge_absent.
Qed.

(** *** The short commit id *)

Lemma substring_prefix n s :
  String.length (String.substring 0 n s) <= n /\
  String.prefix (String.substring 0 n s) s = true.
Proof.
  revert s. induction n as [|n IH]; intros s.
  - destruct s; cbn; split; auto.
  - destruct s as [|c s]; cbn; [split; [lia | reflexivity]|].
    destruct (IH s) as [L P]. split; [lia|].
    destruct (Ascii.ascii_dec c c) as [_|N]; [exact P | now elim N].
Qed.

Lemma substring_length n s :
  String.length (String.substring 0 n s) = Nat.min n (String.length s).
Proof.
  revert s. induction n as [|n IH]; intros s.
  - now destruct s.
  - destruct s as [|c s]; cbn; [reflexivity|]. now rewrite IH.
Qed.

(** X24.  With a build number in the environment, the [build_info] block holds
    that build number, and its [source_version] is the first eight
    characters of [BUILD_SOURCEVERSION]: the prefix of it that is eight
    characters long, or all of it when it has fewer (empty when unset). *)
Theorem build_info_short_commit env (config : dict) number :
  env "BUILD_BUILDNUMBER" = Some number ->
  number <> "" ->
  exists short,
    lookup_path ["build_info"; "build_number"] (_add_environment_overrides env config)
    = Some (VStr number) /\
    lookup_path ["build_info"; "source_version"]
      (_add_environment_overrides env config)
    = Some (VStr short) /\
    String.length short <= 8 /\
    String.prefix short (getenv_str env "BUILD_SOURCEVERSION" "") = true /\
    (String.length (getenv_str env "BUILD_SOURCEVERSION" "") <= 8 ->
     short = getenv_str env "BUILD_SOURCEVERSION" "") /\
    String.length short
    = Nat.min 8 (String.length (getenv_str env "BUILD_SOURCEVERSION" "")).
Proof.
  intros Hn Hne.
  exists (String.substring 0 8 (getenv_str env "BUILD_SOURCEVERSION" "")).
  assert (T : getenv_truthy env "BUILD_BUILDNUMBER" = true).
  { unfold getenv_truthy. rewrite Hn. apply negb_true_iff.
    now apply String.eqb_neq. }
  unfold _add_environment_overrides. rewrite T.
  cbn [lookup_path]. rewrite lookup_set_eq. unfold build_info_block, getenv.
  rewrite Hn. cbn [lookup String.eqb Ascii.eqb Bool.eqb option_value].
  destruct (substring_prefix 8 (getenv_str env "BUILD_SOURCEVERSION" "")) as [L P].
  pose proof (substring_length 8 (getenv_str env "BUILD_SOURCEVERSION" "")) as M.
  repeat split; try assumption.
  intros Hl. generalize dependent (getenv_str env "BUILD_SOURCEVERSION" "").
  intros s _ _ _ Hl.
  do 9 (destruct s as [|? s]; [reflexivity|]); cbn in Hl; lia.
Qed.

Lemma build_info_short_commit_witness :
  let env := fun name =>
               if String.eqb name "BUILD_BUILDNUMBER" then Some "41"
               else if String.eqb name "BUILD_SOURCEVERSION"
                    then Some "0123456789abcdef"
                    else None in
  exists short,
    lookup_path ["build_info"; "build_number"] (_add_environment_overrides env [])
    = Some (VStr "41") /\
    lookup_path ["build_info"; "source_version"] (_add_environment_overrides env [])
    = Some (VStr short) /\
    String.length short <= 8 /\
    String.prefix short (getenv_str env "BUILD_SOURCEVERSION" "") = true /\
    (String.length (getenv_str env "BUILD_SOURCEVERSION" "") <= 8 ->
     short = getenv_str env "BUILD_SOURCEVERSION" "") /\
    String.length short
    = Nat.min 8 (String.length (getenv_str env "BUILD_SOURCEVERSION" "")).
Proof.
  intros env.
  apply (build_info_short_commit env [] "41"); [reflexivity | discriminate].
Defined.

End LayerFacts.

(** ** The Deploy stage *)

Module DeployFacts.
Import ConfigMerger SmartDeploy.
Import DictFacts ConfigFacts ResolutionFacts.
Local Open Scope sh_scope.

(** The entries [run] reads before its [try]. *)
Definition readable (config : value) : Prop :=
  exists app name framework deployment environment,
    py_getitem config "app" = Ok app /\
    py_getitem app "name" = Ok name /\
    py_getitem app "framework" = Ok framework /\
    py_getitem config "deployment" = Ok deployment /\
    py_getitem deployment "environment" = Ok environment.

(** The dict [run] returns from its [except] branch. *)
Definition deploy_failure (e : exn) : dict :=
  [("success", VBool false); ("error", VStr (exn_msg e))].

Lemma bindS_ok {A B} (m : Sh A) (f : A -> Sh B) log b log' :
  bindS m f log = (Ok b, log') ->
  exists a log1, m log = (Ok a, log1) /\ f a log1 = (Ok b, log').
Proof.
  unfold bindS. destruct (m log) as [[a|e] log1]; [eauto | discriminate].
Qed.

Lemma lift_ok {A} (r : result A) log a log' :
  lift r log = (Ok a, log') -> r = Ok a /\ log' = log.
Proof. unfold lift. now intros [= -> ->]. Qed.

(** A command result has its five entries, whatever the command gave. *)
Lemma command_result_success command outcome :
  exists flag, lookup "success" (command_result command outcome) = Some (VBool flag).
Proof. destruct outcome; cbn; eauto. Qed.

Lemma command_result_stderr command outcome :
  exists text, lookup "stderr" (command_result command outcome) = Some (VStr text).
Proof. destruct outcome; cbn; eauto. Qed.

Lemma command_result_stdout command outcome :
  exists text, lookup "stdout" (command_result command outcome) = Some (VStr text).
Proof. destruct outcome; cbn; eauto. Qed.

Section Deploy.
Context `{Runtime} `{Shell}.

(** The body of the [try] of [run]. *)
Definition deploy_body (config app_name deployment_config : value) : Sh dict :=
  manifest_path <- lift (_generate_k8s_manifests config) ;;
  lift (_validate_k8s_manifests manifest_path) ;;;
  apply_result <- _apply_k8s_manifests manifest_path deployment_config ;;
  rollout_result <- _wait_for_rollout app_name deployment_config ;;
  health_check <- _verify_deployment_health app_name deployment_config ;;
  ret [("success", VBool true);
       ("manifest_path", VStr manifest_path);
       ("apply_result", apply_result);
       ("rollout_result", rollout_result);
       ("health_check", VDict health_check)].

Lemma run_readable config app name framework deployment environment log :
  py_getitem config "app" = Ok app ->
  py_getitem app "name" = Ok name ->
  py_getitem app "framework" = Ok framework ->
  py_getitem config "deployment" = Ok deployment ->
  py_getitem deployment "environment" = Ok environment ->
  run config log
  = try_except (deploy_body config name deployment)
      (fun e => ret (deploy_failure e)) log.
Proof.
  intros Ha Hn Hf Hd He. unfold run, bindS at 1 2 3 4 5 6, lift at 1 2 3 4 5 6.
  now rewrite Ha, Hn, Hf, Hd, He.
Qed.

Lemma deploy_body_success config name deployment log r log' :
  deploy_body config name deployment log = (Ok r, log') ->
  lookup "success" r = Some (VBool true) /\
  exists manifest_path, lookup "manifest_path" r = Some (VStr manifest_path).
Proof.
  unfold deploy_body. intros Hb.
  apply bindS_ok in Hb. destruct Hb as (path & l1 & _ & Hb).
  apply bindS_ok in Hb. destruct Hb as (u & l2 & _ & Hb).
  apply bindS_ok in Hb. destruct Hb as (a & l3 & _ & Hb).
  apply bindS_ok in Hb. destruct Hb as (ro & l4 & _ & Hb).
  apply bindS_ok in Hb. destruct Hb as (h & l5 & _ & Hb).
  unfold ret in Hb. injection Hb as <- _.
  split; [reflexivity | eexists; reflexivity].
Qed.

(** X25.  [run] raises only from the reads that stand before its [try]: with
    the app name, the framework, and the environment of the deployment
    section readable, it returns a dict whose [success] is a boolean, with
    the manifest path on success and an error text on failure; when it
    raises, one of those entries is missing and no command has been run. *)
Theorem deploy_run_raises_only_from_its_first_reads config log :
  (readable config ->
   exists r log' flag,
     run config log = (Ok r, log') /\
     lookup "success" r = Some (VBool flag) /\
     (flag = true ->
      exists manifest_path, lookup "manifest_path" r = Some (VStr manifest_path)) /\
     (flag = false -> exists text, lookup "error" r = Some (VStr text))) /\
  (forall e, fst (run config log) = Raise e ->
             ~ readable config /\ snd (run config log) = log).
Proof.
  assert (R : readable config ->
              exists r log' flag,
                run config log = (Ok r, log') /\
                lookup "success" r = Some (VBool flag) /\
                (flag = true ->
                 exists manifest_path,
                   lookup "manifest_path" r = Some (VStr manifest_path)) /\
                (flag = false -> exists text, lookup "error" r = Some (VStr text))).
  { intros (app & name & framework & deployment & environment
            & Ha & Hn & Hf & Hd & He).
    rewrite (run_readable _ _ _ _ _ _ log Ha Hn Hf Hd He).
    unfold try_except.
    destruct (deploy_body config name deployment log) as [[r|e] log'] eqn:Hb.
    - destruct (deploy_body_success _ _ _ _ _ _ Hb) as (Hs & Hm).
      exists r, log', true. repeat split; [assumption | now intros _ | discriminate].
    - exists (deploy_failure e), log', false. unfold ret.
      repeat split; [discriminate | intros _; eexists; reflexivity]. }
  split; [exact R|].
  intros e He.
  assert (N : ~ readable config).
  { intros Hr. destruct (R Hr) as (r & log' & flag & Hrun & _).
    rewrite Hrun in He. discriminate. }
  split; [exact N|].
  unfold run, bindS, lift.
  destruct (py_getitem config "app") as [app|] eqn:Ha; [|reflexivity].
  destruct (py_getitem app "name") as [name|] eqn:Hn; [|reflexivity].
  destruct (py_getitem app "framework") as [framework|] eqn:Hf; [|reflexivity].
  destruct (py_getitem config "deployment") as [deployment|] eqn:Hd; [|reflexivity].
  destruct (py_getitem deployment "environment") as [environment|] eqn:Hen;
    [|reflexivity].
  exfalso. apply N. unfold readable.
  exists app, name, framework, deployment, environment. repeat split; assumption.
Qed.

(** *** The commands of a deployment *)

Definition namespace_of (deployment : dict) : value :=
  get_d deployment "namespace" (VStr "default").

Definition apply_command (manifest_path : string) (deployment : dict) : string :=
  "kubectl apply -f " ++ manifest_path ++ " --namespace="
  ++ py_str (namespace_of deployment).

Definition rollout_command (name : value) (deployment : dict) : string :=
  "kubectl rollout status deployment/" ++ py_str name
  ++ " --namespace=" ++ py_str (namespace_of deployment)
  ++ " --timeout=" ++ py_str (get_d deployment "rollout_timeout" (VInt 300)) ++ "s".

Definition status_command (name : value) (deployment : dict) : string :=
  "kubectl get deployment/" ++ py_str name
  ++ " --namespace=" ++ py_str (namespace_of deployment) ++ " -o json".

(** What the shell answers to the apply command after [log]. *)
Definition apply_result (log : list string) (manifest_path : string)
  (deployment : dict) : dict :=
  command_result (apply_command manifest_path deployment)
    (subprocess_run log (apply_command manifest_path deployment)).

Lemma apply_returns manifest_path (deployment : dict) log :
  lookup "success" (apply_result log manifest_path deployment) = Some (VBool true) ->
  _apply_k8s_manifests manifest_path (VDict deployment) log
  = (Ok (VDict (apply_result log manifest_path deployment)),
     (log ++ [apply_command manifest_path deployment])%list).
Proof.
  intros Hs. unfold _apply_k8s_manifests, bindS, lift, run_command, ret.
  cbn [py_get]. fold (namespace_of deployment).
  fold (apply_command manifest_path deployment).
  fold (apply_result log manifest_path deployment).
  cbn [py_getitem]. now rewrite Hs.
Qed.

Lemma apply_raises manifest_path (deployment : dict) log text :
  lookup "success" (apply_result log manifest_path deployment) = Some (VBool false) ->
  lookup "stderr" (apply_result log manifest_path deployment) = Some (VStr text) ->
  _apply_k8s_manifests manifest_path (VDict deployment) log
  = (Raise (mk_exn Exception_ ("Failed to apply manifests: " ++ text)),
     (log ++ [apply_command manifest_path deployment])%list).
Proof.
  intros Hs He. unfold _apply_k8s_manifests, bindS, lift, run_command, ret.
  cbn [py_get]. fold (namespace_of deployment).
  fold (apply_command manifest_path deployment).
  fold (apply_result log manifest_path deployment).
  cbn [py_getitem]. now rewrite Hs, He.
Qed.

Lemma debug_info_returns name namespace log :
  exists more, _get_deployment_debug_info name namespace log = (Ok tt, (log ++ more)%list).
Proof.
  unfold _get_deployment_debug_info, bindS, lift, run_command, ret.
  set (describe := ("kubectl describe deployment/" ++ _)%string).
  set (pods := ("kubectl get pods -l app=" ++ _)%string).
  exists [describe; pods].
  destruct (command_result_success describe (subprocess_run log describe))
    as (f1 & E1).
  destruct (command_result_stdout describe (subprocess_run log describe))
    as (t1 & T1).
  destruct (command_result_success pods
              (subprocess_run (log ++ [describe]) pods)) as (f2 & E2).
  destruct (command_result_stdout pods
              (subprocess_run (log ++ [describe]) pods)) as (t2 & T2).
  cbn [py_getitem]. rewrite E1.
  destruct f1; cbn [truthy]; rewrite ?T1; rewrite E2;
    destruct f2; cbn [truthy]; rewrite ?T2; now rewrite <- app_assoc.
Qed.

Lemma wait_for_rollout_returns name (deployment : dict) log :
  exists result more,
    _wait_for_rollout name (VDict deployment) log
    = (Ok result, (log ++ rollout_command name deployment :: more)%list).
Proof.
  unfold _wait_for_rollout, bindS at 1 2 3, lift at 1 2, run_command.
  cbn [py_get]. fold (namespace_of deployment). fold (rollout_command name deployment).
  set (result := command_result _ _).
  destruct (command_result_success (rollout_command name deployment)
              (subprocess_run log (rollout_command name deployment))) as (f & Ef).
  destruct (command_result_stderr (rollout_command name deployment)
              (subprocess_run log (rollout_command name deployment))) as (t & Et).
  fold result in Ef, Et.
  unfold bindS, lift, ret. cbn [py_getitem]. rewrite Ef.
  destruct f; cbn [truthy negb].
  - exists (VDict result), []. reflexivity.
  - rewrite Et.
    destruct (debug_info_returns name (namespace_of deployment)
                (log ++ [rollout_command name deployment])) as (more & ->).
    exists (VDict result), more. now rewrite <- app_assoc.
Qed.

Lemma read_deployment_status_returns status_result health_info :
  exists health_info', read_deployment_status status_result health_info
                       = Ok health_info'.
Proof.
  unfold read_deployment_status.
  match goal with
  | |- context [match ?r with Ok _ => _ | Raise _ => _ end] =>
      destruct r as [h|e]; [|eauto]
  end.
  match goal with
  | |- context [match ?r with Ok _ => _ | Raise _ => _ end] =>
      destruct r as [b|e]; eauto
  end.
Qed.

(** Without [replicas], the health check raises once it has asked for the
    deployment status. *)
Lemma verify_health_raises name (deployment : dict) log :
  lookup "replicas" deployment = None ->
  _verify_deployment_health name (VDict deployment) log
  = (Raise (mk_exn KeyError "'replicas'"),
     (log ++ [status_command name deployment])%list).
Proof.
  intros Hr. unfold _verify_deployment_health, bindS at 1 2 3, lift at 1 2,
    run_command.
  cbn [py_get py_getitem]. now rewrite Hr.
Qed.

Lemma verify_health_returns name (deployment : dict) replicas log :
  lookup "replicas" deployment = Some replicas ->
  exists health_info more,
    _verify_deployment_health name (VDict deployment) log
    = (Ok health_info, (log ++ status_command name deployment :: more)%list).
Proof.
  intros Hr. unfold _verify_deployment_health, bindS at 1 2 3, lift at 1 2,
    run_command.
  cbn [py_get py_getitem]. rewrite Hr.
  fold (namespace_of deployment). fold (status_command name deployment).
  set (status_result := command_result _ _).
  set (health_info := [("healthy", VBool false); ("ready_replicas", VInt 0);
                       ("desired_replicas", replicas); ("status", VStr "unknown")]).
  destruct (command_result_success (status_command name deployment)
              (subprocess_run log (status_command name deployment))) as (f & Ef).
  fold status_result in Ef.
  unfold bindS at 1, lift at 1. rewrite Ef. unfold bindS at 1, lift at 1.
  assert (Hh : exists h,
             (if truthy (VBool f)
              then read_deployment_status (VDict status_result) health_info
              else Ok health_info) = Ok h /\
             (exists a b c, lookup "healthy" h = Some a /\
                            lookup "ready_replicas" h = Some b /\
                            lookup "desired_replicas" h = Some c)).
  { destruct f; cbn [truthy].
    - unfold read_deployment_status.
      match goal with
      | |- context [match ?r with Ok _ => _ | Raise _ => _ end] =>
          destruct r as [h|e] eqn:E1
      end.
      2:{ exists health_info. split; [reflexivity|]. unfold health_info. cbn.
          do 3 eexists. repeat split. }
      assert (K : exists a b c, lookup "healthy" h = Some a /\
                                lookup "ready_replicas" h = Some b /\
                                lookup "desired_replicas" h = Some c).
      { inv_bind E1. inv_bind E1. inv_bind E1. inv_bind E1. inv_bind E1.
        inv_bind E1. inv_bind E1. injection E1 as <-.
        rewrite ?lookup_set. cbn.
        do 3 eexists. repeat split. }
      match goal with
      | |- context [match ?r with Ok _ => _ | Raise _ => _ end] =>
          destruct r as [b|e]
      end.
      + eexists. split; [reflexivity|].
        destruct K as (a & b0 & c & Ka & Kb & Kc).
        rewrite ?lookup_set. cbn. rewrite ?Kb, ?Kc.
        do 3 eexists. repeat split.
      + exists h. split; [reflexivity | exact K].
    - exists health_info. split; [reflexivity|]. unfold health_info. cbn.
      do 3 eexists. repeat split. }
  destruct Hh as (h & -> & K).
  unfold bindS at 1.
  set (service_command := ("kubectl get service/" ++ _)%string).
  destruct (command_result_success service_command
              (subprocess_run (log ++ [status_command name deployment])
                 service_command)) as (g & Eg).
  set (service_result := command_result service_command _) in *.
  unfold bindS at 1, lift at 1. cbn [py_getitem]. rewrite Eg.
  set (h' := if truthy (VBool g) then read_service_status (VDict service_result) h
             else h).
  assert (K' : exists a b c, lookup "healthy" h' = Some a /\
                             lookup "ready_replicas" h' = Some b /\
                             lookup "desired_replicas" h' = Some c).
  { unfold h'. destruct g; cbn [truthy]; [|exact K].
    unfold read_service_status.
    match goal with
    | |- context [match ?r with Ok _ => _ | Raise _ => _ end] =>
        destruct r as [x|e] eqn:E1; [|exact K]
    end.
    inv_bind E1. inv_bind E1. inv_bind E1. inv_bind E1. inv_bind E1. inv_bind E1.
    inv_bind E1. inv_bind E1. injection E1 as <-.
    destruct K as (a & b & c & Ka & Kb & Kc).
    rewrite ?lookup_set. cbn. rewrite ?Ka, ?Kb, ?Kc.
    do 3 eexists. repeat split. }
  destruct K' as (a & b & c & Ka & Kb & Kc).
  unfold bindS, lift, ret. rewrite Ka, Kb, Kc.
  eexists h', [_]. now rewrite <- app_assoc.
Qed.

(** The body of [run] on a deployment section without [replicas] never
    returns. *)
Lemma deploy_body_without_replicas config name (deployment : dict) log :
  lookup "replicas" deployment = None ->
  exists e log', deploy_body config name (VDict deployment) log = (Raise e, log').
Proof.
  intros Hr.
  destruct (deploy_body config name (VDict deployment) log) as [[r|e] log'] eqn:Hb;
    [|eauto].
  unfold deploy_body in Hb.
  apply bindS_ok in Hb. destruct Hb as (path & l1 & _ & Hb).
  apply bindS_ok in Hb. destruct Hb as (u & l2 & _ & Hb).
  apply bindS_ok in Hb. destruct Hb as (a & l3 & _ & Hb).
  apply bindS_ok in Hb. destruct Hb as (ro & l4 & _ & Hb).
  apply bindS_ok in Hb. destruct Hb as (h & l5 & Hv & _).
  rewrite (verify_health_raises name deployment l4 Hr) in Hv. discriminate.
Qed.

Lemma run_without_replicas (config deployment : dict) log :
  readable (VDict config) ->
  lookup "deployment" config = Some (VDict deployment) ->
  lookup "replicas" deployment = None ->
  exists e log', run (VDict config) log = (Ok (deploy_failure e), log').
Proof.
  intros (app & name & framework & d & environment & Ha & Hn & Hf & Hd & He) Ld Hr.
  rewrite (run_readable _ _ _ _ _ _ log Ha Hn Hf Hd He).
  cbn [py_getitem] in Hd. rewrite Ld in Hd. injection Hd as <-.
  destruct (deploy_body_without_replicas (VDict config) name deployment log Hr)
    as (e & log' & Hb).
  unfold try_except. rewrite Hb. now exists e, log'.
Qed.

(** X26.  A config whose deployment section holds no [replicas] is never
    deployed with success: [run] returns [success = False], whatever the
    shell, the template and the files do.  When the manifest is generated
    and read back and the apply command succeeds, the failure comes after
    the manifests were applied and the rollout awaited, and the error text
    is the missing key. *)
Theorem missing_replicas_never_deploys (config deployment : dict) log :
  readable (VDict config) ->
  lookup "deployment" config = Some (VDict deployment) ->
  lookup "replicas" deployment = None ->
  exists r log',
    run (VDict config) log = (Ok r, log') /\
    lookup "success" r = Some (VBool false) /\
    (forall manifest_path name,
       lookup_path ["app"; "name"] config = Some name ->
       _generate_k8s_manifests (VDict config) = Ok manifest_path ->
       _validate_k8s_manifests manifest_path = Ok tt ->
       lookup "success" (apply_result log manifest_path deployment)
       = Some (VBool true) ->
       lookup "error" r = Some (VStr "'replicas'") /\
       exists between,
         log' = (log ++ apply_command manifest_path deployment
                     :: rollout_command name deployment
                     :: between ++ [status_command name deployment])%list).
Proof.
  intros Hread Ld Hr.
  destruct (run_without_replicas config deployment log Hread Ld Hr)
    as (e & log' & Hrun).
  exists (deploy_failure e), log'. split; [exact Hrun|]. split; [reflexivity|].
  intros manifest_path name Ln Hg Hv Hs.
  destruct Hread as (app & name' & framework & d & environment
                     & Ha & Hn & Hf & Hd & He).
  rewrite (run_readable _ _ _ _ _ _ log Ha Hn Hf Hd He) in Hrun.
  assert (name' = name) as ->.
  { cbn [lookup_path] in Ln. cbn [py_getitem] in Ha.
    destruct (lookup "app" config) as [a|]; [|discriminate].
    injection Ha as ->. destruct app; try discriminate.
    cbn [py_getitem] in Hn. rewrite Ln in Hn. now injection Hn. }
  cbn [py_getitem] in Hd. rewrite Ld in Hd. injection Hd as <-.
  unfold try_except, deploy_body in Hrun.
  unfold bindS at 1 2, lift at 1 2 in Hrun. rewrite Hg, Hv in Hrun.
  unfold bindS at 1 in Hrun. rewrite (apply_returns _ _ _ Hs) in Hrun.
  unfold bindS at 1 in Hrun.
  destruct (wait_for_rollout_returns name deployment
              (log ++ [apply_command manifest_path deployment]))
    as (ro & more & Hro).
  rewrite Hro in Hrun. unfold bindS at 1 in Hrun.
  rewrite (verify_health_raises name deployment _ Hr) in Hrun.
  unfold ret, deploy_failure in Hrun. injection Hrun as Emsg Elog.
  split; [cbn; now rewrite <- Emsg|]. exists more.
  rewrite <- Elog, <- !app_assoc. reflexivity.
Qed.

(** X27.  A failed apply command ends the deployment: [run] returns a failure
    whose error is the command's error output after ['Failed to apply
    manifests: '], and no further command is run. *)
Theorem failed_apply_stops_the_deployment (config deployment : dict) log
  manifest_path text :
  readable (VDict config) ->
  lookup "deployment" config = Some (VDict deployment) ->
  _generate_k8s_manifests (VDict config) = Ok manifest_path ->
  _validate_k8s_manifests manifest_path = Ok tt ->
  lookup "success" (apply_result log manifest_path deployment) = Some (VBool false) ->
  lookup "stderr" (apply_result log manifest_path deployment) = Some (VStr text) ->
  run (VDict config) log
  = (Ok [("success", VBool false);
         ("error", VStr ("Failed to apply manifests: " ++ text))],
     (log ++ [apply_command manifest_path deployment])%list).
Proof.
  intros (app & name & framework & d & environment & Ha & Hn & Hf & Hd & He)
    Ld Hg Hv Hs Ht.
  rewrite (run_readable _ _ _ _ _ _ log Ha Hn Hf Hd He).
  cbn [py_getitem] in Hd. rewrite Ld in Hd. injection Hd as <-.
  unfold try_except, deploy_body.
  unfold bindS at 1 2, lift at 1 2. rewrite Hg, Hv.
  unfold bindS at 1. now rewrite (apply_raises _ _ _ _ Hs Ht).
Qed.

(** X28.  Success is decided by the manifest, the apply command and the
    [replicas] entry alone: once the manifest is generated and read back
    and the apply command succeeds on a deployment section with
    [replicas], [run] reports success whatever the rollout and health
    commands give, with the apply and rollout commands run in that
    order. *)
Theorem rollout_and_health_do_not_decide_success (config deployment : dict) log
  manifest_path name replicas :
  readable (VDict config) ->
  lookup_path ["app"; "name"] config = Some name ->
  lookup "deployment" config = Some (VDict deployment) ->
  lookup "replicas" deployment = Some replicas ->
  _generate_k8s_manifests (VDict config) = Ok manifest_path ->
  _validate_k8s_manifests manifest_path = Ok tt ->
  lookup "success" (apply_result log manifest_path deployment) = Some (VBool true) ->
  exists r more,
    run (VDict config) log
    = (Ok r, (log ++ apply_command manifest_path deployment
                  :: rollout_command name deployment :: more)%list) /\
    lookup "success" r = Some (VBool true) /\
    lookup "manifest_path" r = Some (VStr manifest_path) /\
    lookup "apply_result" r = Some (VDict (apply_result log manifest_path deployment)).
Proof.
  intros (app & name' & framework & d & environment & Ha & Hn & Hf & Hd & He)
    Ln Ld Hr Hg Hv Hs.
  rewrite (run_readable _ _ _ _ _ _ log Ha Hn Hf Hd He).
  assert (name' = name) as ->.
  { cbn [lookup_path] in Ln. cbn [py_getitem] in Ha.
    destruct (lookup "app" config) as [a|]; [|discriminate].
    injection Ha as ->. destruct app; try discriminate.
    cbn [py_getitem] in Hn. rewrite Ln in Hn. now injection Hn. }
  cbn [py_getitem] in Hd. rewrite Ld in Hd. injection Hd as <-.
  unfold try_except, deploy_body.
  unfold bindS at 1 2, lift at 1 2. rewrite Hg, Hv.
  unfold bindS at 1. rewrite (apply_returns _ _ _ Hs).
  unfold bindS at 1.
  destruct (wait_for_rollout_returns name deployment
              (log ++ [apply_command manifest_path deployment]))
    as (ro & more & ->).
  unfold bindS at 1.
  destruct (verify_health_returns name deployment replicas
              ((log ++ [apply_command manifest_path deployment])
               ++ rollout_command name deployment :: more) Hr)
    as (h & more' & ->).
  unfold ret. eexists _, (more ++ status_command name deployment :: more')%list.
  split.
  { f_equal. rewrite <- !app_assoc. reflexivity. }
  repeat split.
Qed.

End Deploy.

(** *** A merged config at the Deploy stage *)

Lemma deployment_dict_other config p p1 k :
  deployment_dict config p = Ok p1 ->
  k <> "namespace" -> k <> "environment" ->
  lookup k p1 = lookup k p.
Proof.
  unfold deployment_dict. intros Hp Nn Ne. inv_bind Hp.
  assert (E : lookup k x = lookup k p).
  { destruct (mem "namespace" p).
    - now injection Hx as <-.
    - inv_bind Hx. injection Hx as <-. now apply lookup_set_neq. }
  destruct (mem "environment" x).
  - injection Hp as <-. exact E.
  - inv_bind Hp. inv_bind Hp. injection Hp as <-.
    now rewrite lookup_set_neq.
Qed.

(** X29.  [merge_config] fills the namespace and the environment of the
    deployment section and never [replicas]: a config merged from layers
    that give no [deployment.replicas] has all that [run] reads before its
    [try], and is never deployed with success; [run] returns
    [success = False] on it, whatever the shell, the template and the
    files do. *)
Theorem merged_config_without_replicas_never_deploys `{Runtime}
  (M : SmartConfigMerger) (env : environ) (A : dict) (fw : string) :
  well_shaped M A fw = true ->
  lookup_path ["deployment"; "replicas"] (merged_layers M A fw) = None ->
  exists c,
    merge_config M env A fw = Ok c /\
    readable (VDict c) /\
    forall (shell : Shell) log,
    exists r log',
      run (VDict c) log = (Ok r, log') /\
      lookup "success" r = Some (VBool false).
Proof.
  intros W Hnone.
  destruct (merge_config_resolved M env A fw W)
    as (c & a0 & a1 & s0 & d0 & d1 & p0 & p1 & repository & image & name & c2 & c3
        & Hm & _ & _ & _ & Gp & _ & Ln & _ & _ & _ & _ & _ & _ & Hp & La & _ & _
        & Lp & _).
  rewrite (lookup_path_section _ _ _ _ Gp) in Hnone.
  assert (Hr : lookup "replicas" p1 = None).
  { rewrite (deployment_dict_other _ _ _ "replicas" Hp) by discriminate.
    exact Hnone. }
  destruct (deployment_dict_ok _ _ _ Hp) as (_ & He).
  destruct (mem_lookup _ _ He) as (environment & Le).
  assert (R : readable (VDict c)).
  { exists (VDict (framed_app fw a1)), name, (VStr fw), (VDict p1), environment.
    cbn [py_getitem]. rewrite La, Lp, Le. unfold framed_app.
    rewrite !(lookup_set_neq "name"), Ln by discriminate.
    rewrite (lookup_set_neq "framework" "detected_framework"), lookup_set_eq
      by discriminate.
    now repeat split. }
  exists c. split; [exact Hm|]. split; [exact R|].
  intros shell log.
  destruct (run_without_replicas c p1 log R Lp Hr) as (e & log' & Hrun).
  exists (deploy_failure e), log'. now split.
Qed.

(** *** Sample deployments *)

(** A cluster that answers the apply and rollout commands with the given
    return codes and every other command with an empty JSON object; no
    template file is there. *)
Definition cluster (apply_code rollout_code : Z) : Shell :=
  {| subprocess_run :=
       fun _ command =>
         if String.prefix "kubectl apply" command
         then Completed apply_code "" "forbidden"
         else if String.prefix "kubectl rollout" command
              then Completed rollout_code "" "deadline exceeded"
              else Completed 0 "{}" "";
     template_exists := false;
     render_template := fun _ => Ok "";
     write_file := fun _ _ => Ok tt;
     read_file := fun _ => Ok "";
     json_loads := fun _ => Ok (VDict []);
     eq_other := fun _ _ => false |}.

(** The same cluster with a template file that renders. *)
Definition templated_cluster : Shell :=
  {| subprocess_run := subprocess_run (Shell := cluster 0 0);
     template_exists := true;
     render_template := fun _ => Ok "kind: Deployment";
     write_file := fun _ _ => Ok tt;
     read_file := fun _ => Ok "kind: Deployment";
     json_loads := fun _ => Ok (VDict []);
     eq_other := fun _ _ => false |}.

Definition shop_deployment : dict :=
  [("namespace", VStr "shop"); ("environment", VStr "production");
   ("replicas", VInt 2)].

(** The merged shop config, with a number of replicas. *)
Definition deployable : dict :=
  set "deployment" (VDict shop_deployment) RemergeFacts.shop_merged.

Lemma readable_shop_merged : readable (VDict RemergeFacts.shop_merged).
Proof.
  exists (VDict [("name", VStr "shop"); ("framework", VStr "react");
                 ("detected_framework", VStr "react")]),
    (VStr "shop"), (VStr "react"),
    (VDict [("namespace", VStr "shop"); ("environment", VStr "production")]),
    (VStr "production").
  repeat split.
Defined.

Lemma readable_deployable : readable (VDict deployable).
Proof.
  exists (VDict [("name", VStr "shop"); ("framework", VStr "react");
                 ("detected_framework", VStr "react")]),
    (VStr "shop"), (VStr "react"), (VDict shop_deployment), (VStr "production").
  repeat split.
Defined.

Lemma missing_replicas_never_deploys_witness :
  exists r log',
    run (H := plain_runtime) (H0 := templated_cluster)
      (VDict RemergeFacts.shop_merged) [] = (Ok r, log') /\
    lookup "success" r = Some (VBool false) /\
    (forall manifest_path name,
       lookup_path ["app"; "name"] RemergeFacts.shop_merged = Some name ->
       _generate_k8s_manifests (H := plain_runtime) (H0 := templated_cluster)
         (VDict RemergeFacts.shop_merged) = Ok manifest_path ->
       _validate_k8s_manifests (H := templated_cluster) manifest_path = Ok tt ->
       lookup "success"
         (apply_result (H := plain_runtime) (H0 := templated_cluster) []
            manifest_path
            [("namespace", VStr "shop"); ("environment", VStr "production")])
       = Some (VBool true) ->
       lookup "error" r = Some (VStr "'replicas'") /\
       exists between,
         log' = ([] ++ apply_command (H := plain_runtime) manifest_path
                         [("namespace", VStr "shop");
                          ("environment", VStr "production")]
                    :: rollout_command (H := plain_runtime) name
                         [("namespace", VStr "shop");
                          ("environment", VStr "production")]
                    :: between
                    ++ [status_command (H := plain_runtime) name
                          [("namespace", VStr "shop");
                           ("environment", VStr "production")]])%list).
Proof.
  apply (missing_replicas_never_deploys (H := plain_runtime)
           (H0 := templated_cluster) RemergeFacts.shop_merged
           [("namespace", VStr "shop"); ("environment", VStr "production")] []).
  - exact readable_shop_merged.
  - reflexivity.
  - reflexivity.
Defined.

Lemma failed_apply_stops_the_deployment_witness :
  run (H := plain_runtime) (H0 := cluster 1 0) (VDict deployable) []
  = (Ok [("success", VBool false);
         ("error", VStr ("Failed to apply manifests: " ++ "forbidden"))],
     ([] ++ [apply_command (H := plain_runtime) "generated-k8s-manifest.yaml"
               shop_deployment])%list).
Proof.
  apply (failed_apply_stops_the_deployment (H := plain_runtime)
           (H0 := cluster 1 0) deployable shop_deployment []
           "generated-k8s-manifest.yaml" "forbidden");
    try reflexivity.
  exact readable_deployable.
Defined.

Lemma rollout_and_health_do_not_decide_success_witness :
  exists r more,
    run (H := plain_runtime) (H0 := cluster 0 1) (VDict deployable) []
    = (Ok r, ([] ++ apply_command (H := plain_runtime)
                      "generated-k8s-manifest.yaml" shop_deployment
                 :: rollout_command (H := plain_runtime) (VStr "shop")
                      shop_deployment :: more)%list) /\
    lookup "success" r = Some (VBool true) /\
    lookup "manifest_path" r = Some (VStr "generated-k8s-manifest.yaml") /\
    lookup "apply_result" r
    = Some (VDict (apply_result (H := plain_runtime) (H0 := cluster 0 1) []
                     "generated-k8s-manifest.yaml" shop_deployment)).
Proof.
  apply (rollout_and_health_do_not_decide_success (H := plain_runtime)
           (H0 := cluster 0 1) deployable shop_deployment []
           "generated-k8s-manifest.yaml" (VStr "shop") (VInt 2));
    try reflexivity.
  exact readable_deployable.
Defined.

Lemma merged_config_without_replicas_never_deploys_witness :
  exists c,
    merge_config (H := plain_runtime) acme_merger registry_env pinned_layer "react"
    = Ok c /\
    readable (VDict c) /\
    forall (shell : Shell) log,
    exists r log',
      run (H := plain_runtime) (VDict c) log = (Ok r, log') /\
      lookup "success" r = Some (VBool false).
Proof.
  apply (merged_config_without_replicas_never_deploys (H := plain_runtime)
           acme_merger registry_env pinned_layer "react");
    reflexivity.
Defined.

(** A rollout that fails, run: the deployment is reported as a success,
    with the failed rollout and an unknown health inside. *)
Example failed_rollout_scenario :
  let r := match fst (run (H := plain_runtime) (H0 := cluster 0 1)
                        (VDict deployable) []) with
           | Ok r => r
           | Raise _ => []
           end in
  lookup "success" r = Some (VBool true) /\
  lookup_path ["rollout_result"; "success"] r = Some (VBool false) /\
  lookup_path ["health_check"; "healthy"] r = Some (VBool false) /\
  lookup_path ["health_check"; "status"] r = Some (VStr "unhealthy").
Proof. vm_compute. repeat split. Qed.

(** With no template file, the merged shop config fails while the manifest
    text is formed, before any command is run. *)
Example inline_manifest_scenario :
  run (H := plain_runtime) (H0 := cluster 0 0) (VDict RemergeFacts.shop_merged) []
  = (Ok [("success", VBool false); ("error", VStr "'replicas'")], []).
Proof. vm_compute. reflexivity. Qed.

End DeployFacts.

(** ** The output directory *)

Module OutputFacts.
Import OutputDirectory ConfigFacts.

Lemma first_filled_spec kind repo_path dirs :
  (forall d, In d dirs -> kind d <> RegularFile) ->
  match find (fun d => match kind d with FilledDirectory => true | _ => false end)
          dirs with
  | Some d => first_filled kind repo_path dirs = Ok (Some d)
  | None => first_filled kind repo_path dirs = Ok None
  end.
Proof.
  induction dirs as [|d rest IH]; intros Hk; [reflexivity|].
  cbn [find first_filled].
  assert (Hd : kind d <> RegularFile) by (apply Hk; now left).
  destruct (kind d); try contradiction; try reflexivity;
    apply IH; intros x Hx; apply Hk; now right.
Qed.

Lemma dist_is_possible framework app_name :
  In "dist" (possible_dirs framework app_name).
Proof.
  unfold possible_dirs.
  destruct (String.eqb framework "angular"); [cbn; auto|].
  destruct (String.eqb framework "react"); [cbn; auto|].
  destruct (String.eqb framework "vue"); cbn; auto.
Qed.

Lemma find_first {A} (f : A -> bool) (l : list A) x :
  find f l = Some x ->
  exists before after,
    l = (before ++ x :: after)%list /\ f x = true /\
    forall y, In y before -> f y = false.
Proof.
  induction l as [|a l IH]; [discriminate|]. cbn [find].
  destruct (f a) eqn:Fa.
  - intros [= ->]. exists [], l. split; [reflexivity|]. split; [exact Fa|].
    intros y [].
  - intros F. destruct (IH F) as (before & after & -> & Fx & Hb).
    exists (a :: before), after. split; [reflexivity|]. split; [exact Fx|].
    intros y [<-|Hy]; [exact Fa | now apply Hb].
Qed.

(** X30.  When no candidate is a regular file, [detect_output_directory] returns
    one of the framework's candidate directories: the first, in the order
    of the candidates, that holds something (no candidate before it does),
    and ["dist"] when none does, whether or not it exists. *)
Theorem output_directory_is_a_candidate kind repo_path framework app_name :
  (forall d, In d (possible_dirs framework app_name) -> kind d <> RegularFile) ->
  exists chosen,
    detect_output_directory kind repo_path framework app_name = Ok chosen /\
    In chosen (possible_dirs framework app_name) /\
    (kind chosen = FilledDirectory /\
     (exists before after,
        possible_dirs framework app_name = (before ++ chosen :: after)%list /\
        forall d, In d before -> kind d <> FilledDirectory) \/
     chosen = "dist" /\
     forall d, In d (possible_dirs framework app_name) ->
               kind d <> FilledDirectory).
Proof.
  intros Hk. unfold detect_output_directory.
  pose proof (first_filled_spec kind repo_path _ Hk) as S.
  destruct (find _ (possible_dirs framework app_name)) as [d|] eqn:F;
    rewrite S; cbn [bind].
  - pose proof (find_some _ _ F) as [Hin Hd].
    destruct (find_first _ _ _ F) as (before & after & E & _ & Hb).
    exists d. split; [reflexivity|]. split; [exact Hin|]. left. split.
    + destruct (kind d); try discriminate. reflexivity.
    + exists before, after. split; [exact E|]. intros x Hx Ex.
      pose proof (Hb x Hx) as N. cbn in N. now rewrite Ex in N.
  - exists "dist". split; [reflexivity|]. split; [apply dist_is_possible|].
    right. split; [reflexivity|]. intros d Hin E.
    pose proof (find_none _ _ F d Hin) as N. cbn in N. now rewrite E in N.
Qed.

(** Both candidates of a react build hold something: [build], the first,
    is chosen. *)
Lemma output_directory_is_a_candidate_witness :
  let kind := fun d : string => FilledDirectory in
  exists chosen,
    detect_output_directory kind "/work/shop" "react" "shop" = Ok chosen /\
    In chosen (possible_dirs "react" "shop") /\
    (kind chosen = FilledDirectory /\
     (exists before after,
        possible_dirs "react" "shop" = (before ++ chosen :: after)%list /\
        forall d, In d before -> kind d <> FilledDirectory) \/
     chosen = "dist" /\
     forall d, In d (possible_dirs "react" "shop") -> kind d <> FilledDirectory).
Proof.
  intros kind.
  apply (output_directory_is_a_candidate kind "/work/shop" "react" "shop").
  intros d Hd. unfold kind. discriminate.
Defined.

(** The candidates in their order, run: with [build] and [dist] both
    filled a react build gives [build] and a vue build [dist]; an empty
    [build] is passed over. *)
Example candidate_order_scenario :
  detect_output_directory (fun _ => FilledDirectory) "/work/shop" "react" "shop"
  = Ok "build" /\
  detect_output_directory (fun _ => FilledDirectory) "/work/shop" "vue" "shop"
  = Ok "dist" /\
  detect_output_directory
    (fun d => if String.eqb d "build" then EmptyDirectory else FilledDirectory)
    "/work/shop" "react" "shop"
  = Ok "dist".
Proof. repeat split. Qed.

(** A candidate that is a regular file makes the detection raise. *)
Example regular_file_scenario :
  detect_output_directory
    (fun d => if String.eqb d "build" then RegularFile else FilledDirectory)
    "/work/shop" "react" "shop"
  = Raise (mk_exn OSError "[Errno 20] Not a directory: '/work/shop/build'").
Proof. reflexivity. Qed.

End OutputFacts.
